(** * atari_multitask: the transfer benchmark of [lib/__init__.py]

    A shallow embedding of the benchmark library: the fold partition drawn by
    [BenchmarkParms], the evaluation loop of [TestRun], the interleaved
    training loop of [TrainingRun] and the cross-validation driver
    [TransferBenchmark], followed by the properties of the specification
    that were settled against them.

    Python objects are records, a method takes the object and returns it
    updated, and every method runs in a state-and-exception monad over the
    state of the process (the module-level random generator, the files and
    the calls made to the agent and to the game). *)

From Stdlib Require Import ZArith QArith Lia Ascii String List Sorted.
From stdpp Require Import base option list gmap sets strings pretty.

Local Open Scope string_scope.
Local Open Scope Z_scope.

(** ** Python: exceptions, outcomes, and the few built-ins the library uses *)

Module Py.

Inductive exn : Set :=
| AttributeError
| AssertionError
| IndexError
| IOError
| KeyError
| NameError
| TypeError
| ValueError
| ZeroDivisionError.

(** What running a piece of code gives: a value, an exception, or the loop
    budget of the model used up before the code came to an end. *)
Inductive outcome (A : Type) : Type :=
| Ok (a : A)
| Raise (e : exn)
| OutOfFuel.
Arguments Ok {A} a.
Arguments Raise {A} e.
Arguments OutOfFuel {A}.

(** Code over a state [S]: the state is kept when an exception leaves. *)
Definition M (S A : Type) : Type := S -> outcome A * S.

Definition ret {S A} (a : A) : M S A := fun s => (Ok a, s).

Definition bind {S A B} (m : M S A) (k : A -> M S B) : M S B :=
  fun s =>
    match m s with
    | (Ok a, s') => k a s'
    | (Raise e, s') => (Raise e, s')
    | (OutOfFuel, s') => (OutOfFuel, s')
    end.

Definition raise {S A} (e : exn) : M S A := fun s => (Raise e, s).
Definition out_of_fuel {S A} : M S A := fun s => (OutOfFuel, s).
Definition get {S} : M S S := fun s => (Ok s, s).
Definition modify {S} (f : S -> S) : M S unit := fun s => (Ok tt, f s).

(** [assert(c)] *)
Definition assert {S} (c : bool) : M S unit :=
  if c then ret tt else raise AssertionError.

(** [a // b] and [a % b] on integers: both round towards minus infinity,
    as [Z.div] and [Z.modulo] do. *)
Definition floordiv {S} (a b : Z) : M S Z :=
  if b =? 0 then raise ZeroDivisionError else ret (a / b).
Definition mod_ {S} (a b : Z) : M S Z :=
  if b =? 0 then raise ZeroDivisionError else ret (a mod b).

(** [range(n)], [xrange(n)]: empty when [n <= 0]. *)
Definition range (n : Z) : list Z := seqZ 0 n.

(** [for x in xs: s = body(x, s)] *)
Fixpoint for_ {S X L} (xs : list X) (body : X -> L -> M S L) (l : L) : M S L :=
  match xs with
  | [] => ret l
  | x :: xs' => bind (body x l) (for_ xs' body)
  end.

(** [l[i]] and [l[i] = x] on a list: a negative index counts from the end,
    an index outside the list raises. *)
Definition index {X} (l : list X) (i : Z) : option nat :=
  let n := Z.of_nat (length l) in
  if (0 <=? i) && (i <? n) then Some (Z.to_nat i)
  else if (- n <=? i) && (i <? 0) then Some (Z.to_nat (n + i))
  else None.
Definition getitem {S X} (l : list X) (i : Z) : M S X :=
  match index l i with
  | Some j => match l !! j with Some x => ret x | None => raise IndexError end
  | None => raise IndexError
  end.
Definition setitem {S X} (l : list X) (i : Z) (x : X) : M S (list X) :=
  match index l i with
  | Some j => ret (<[j := x]> l)
  | None => raise IndexError
  end.

(** [enumerate(l)] *)
Definition enumerate {X} (l : list X) : list (Z * X) :=
  zip (seqZ 0 (Z.of_nat (length l))) l.

(** [str(n)] for an integer. *)
Definition str (n : Z) : string := pretty n.

(** [s.capitalize()]: first character in upper case, the others in lower
    case. *)
Definition upper (c : ascii) : ascii :=
  let n := nat_of_ascii c in
  if (97 <=? n)%nat && (n <=? 122)%nat then ascii_of_nat (n - 32) else c.
Definition lower (c : ascii) : ascii :=
  let n := nat_of_ascii c in
  if (65 <=? n)%nat && (n <=? 90)%nat then ascii_of_nat (n + 32) else c.
Fixpoint map_string (f : ascii -> ascii) (s : string) : string :=
  match s with
  | EmptyString => EmptyString
  | String c s' => String (f c) (map_string f s')
  end.
Definition capitalize (s : string) : string :=
  match s with
  | EmptyString => EmptyString
  | String c s' => String (upper c) (map_string lower s')
  end.

(** [s.split(sep)] for a separator of one character. *)
Fixpoint split (sep : ascii) (s : string) : list string :=
  match s with
  | EmptyString => [EmptyString]
  | String c s' =>
      if Ascii.eqb c sep then EmptyString :: split sep s'
      else match split sep s' with
           | [] => [String c EmptyString]
           | w :: ws => String c w :: ws
           end
  end.

(** [''.join(ws)] *)
Definition join (ws : list string) : string :=
  fold_right String.append EmptyString ws.

End Py.

Export Py.

Declare Scope py_scope.
Delimit Scope py_scope with py.
Notation "x <- m ;; k" := (Py.bind m (fun x => k))
  (at level 100, m at next level, right associativity,
   format "'[v' x  <-  m  ;;  '/' k ']'") : py_scope.
Notation "m ;;; k" := (Py.bind m (fun _ => k))
  (at level 100, right associativity) : py_scope.
Local Open Scope py_scope.

(** ** The game suite *)

(** [game_name(raw_name)] does not read its argument: its body names the
    module-level variable [game], which the list comprehension building
    [GAME_NAMES] binds to the current element (a Python 2 comprehension
    leaks its variable into the enclosing scope). *)
Definition game_name (game : string) (raw_name : string) : string :=
  String.append (join (map capitalize (split "_"%char game))) "-v0".

(** [NUM_GAMES = len(GAMES)] and
    [GAME_NAMES = [game_name(game) for game in GAMES]], for any list of raw
    names. *)
Definition NUM_GAMES (GAMES : list string) : Z := Z.of_nat (length GAMES).

Definition GAME_NAMES (GAMES : list string) : list string :=
  map (fun game => game_name game game) GAMES.

Module Atari.

(** The 59 games of the module. *)
Definition GAMES : list string :=
  ["air_raid"; "alien"; "amidar"; "assault"; "asterix";
   "asteroids"; "atlantis"; "bank_heist"; "battle_zone";
   "beam_rider"; "berzerk"; "bowling"; "boxing"; "breakout";
   "carnival"; "centipede"; "chopper_command"; "crazy_climber";
   "demon_attack"; "double_dunk"; "elevator_action"; "enduro";
   "fishing_derby"; "freeway"; "frostbite"; "gopher"; "gravitar";
   "ice_hockey"; "jamesbond"; "journey_escape"; "kangaroo"; "krull";
   "kung_fu_master"; "montezuma_revenge"; "ms_pacman";
   "name_this_game"; "phoenix"; "pitfall"; "pong"; "pooyan";
   "private_eye"; "qbert"; "riverraid"; "road_runner"; "robotank";
   "seaquest"; "skiing"; "solaris"; "space_invaders"; "star_gunner";
   "tennis"; "time_pilot"; "tutankham"; "up_n_down"; "venture";
   "video_pinball"; "wizard_of_wor"; "yars_revenge"; "zaxxon"].

End Atari.

(** ** Names of folds *)

(** [string.ascii_uppercase] *)
Definition ascii_uppercase : string := "ABCDEFGHIJKLMNOPQRSTUVWXYZ".

(** [fold_name(num)]: the letter at [num % 26], an index that is never
    outside the 26 letters, followed by [str(num - 25)] past the 26th
    fold. *)
Definition fold_name (num : Z) : string :=
  let name :=
    match String.get (Z.to_nat (num mod 26)) ascii_uppercase with
    | Some c => String c EmptyString
    | None => EmptyString
    end in
  if num >? 25 then String.append name (str (num - 25)) else name.

(** ** The collaborators: the generator of [random], the games, the agents *)

(** The module-level generator of [random], as a state of type [G], with
    the three functions the library calls. [randint] and [sample] are given
    on every input; the exception Python raises outside their domain is
    raised by [py_randint] and [py_sample] below. *)
Class Random (G : Type) : Type := {
  random : G -> Q * G;
  randint : Z -> Z -> G -> Z * G;
  sample : gset string -> nat -> G -> list string * G;
}.

(** What the documentation of [random] promises: [randint(a, b)] is
    between [a] and [b], and [sample(population, k)] is a list of [k]
    distinct elements of the population. *)
Class RandomLaws (G : Type) `{Random G} : Prop := {
  randint_range a b g : a <= b -> a <= (randint a b g).1 <= b;
  sample_NoDup X k g : (k <= size X)%nat -> NoDup (sample X k g).1;
  sample_length X k g : (k <= size X)%nat -> length (sample X k g).1 = k;
  sample_subseteq X k g x :
    (k <= size X)%nat -> x ∈ (sample X k g).1 -> x ∈ X;
}.

(** A [gym] environment with state [E] and observations [Obs]:
    [gym.make(name)], [env.seed(value)], [env.reset()], [env.step(action)]
    giving the observation, the reward and [done], and
    [env.action_space.n]. *)
Class Gym (Obs E : Type) : Type := {
  make : string -> E;
  env_seed : E -> Q -> E;
  env_reset : E -> Obs * E;
  env_step : E -> Z -> Obs * Z * bool * E;
  action_space_n : E -> Z;
}.

(** The abstract class [Agent], for agents with state [A]: the constructor
    [AgentClass()], [agent(observation, reward)], which may draw from the
    generator (as [RandomAgent] does), and [agent.clone()]. [save] and
    [load] go through the files of the process. *)
Class Agent (Obs G A : Type) : Type := {
  AgentClass : A;
  agent_call : A -> Obs -> Z -> G -> Z * A * G;
  clone : A -> A;
}.

(** [RandomAgent]: no state, [random.randint(0, 17)] on every call, and
    [clone] gives the agent itself. *)
Definition RandomAgent {Obs G} `{Random G} : Agent Obs G unit := {|
  AgentClass := tt;
  agent_call := fun self observation reward g =>
    let (action, g') := randint 0 17 g in (action, self, g');
  clone := fun self => self;
|}.

(** ** The library *)

Section Benchmark.

Context {G Obs E A : Type}.
Context `{!Random G} `{!Gym Obs E} `{!Agent Obs G A}.

(** The raw names the module is loaded with. *)
Variable GAMES : list string.

(** *** [BenchmarkParms] *)

(** The attribute [max_rounds_per_game] is bound by [load_from_file]
    only: [__init__] takes the argument and does not store it, hence the
    option. A slot of [folds] holds [None] until the loop of [__init__]
    has filled it. *)
Record BenchmarkParms : Type := {
  num_folds : Z;
  max_turns_w_no_reward : Z;
  seed : Q;
  folds : list (option (list string));
  max_rounds_per_game : option Z;
}.

(** The document that [save] writes and [load_from_file] reads:
    [json.dump] and [json.load] are taken at the level of the document,
    an object with these four keys. *)
Record FileData : Type := {
  file_folds : list (option (list string));
  file_seed : Q;
  file_max_turns_w_no_reward : Z;
  file_max_rounds_per_game : Z;
}.

(** *** [BenchmarkResult] *)

(** [agent] is a reference in Python; the record keeps the state the
    agent had when the result was built. The rewards are integers, as the
    comment on [rewards] has it; [dones] and [games] hold round numbers. *)
Record BenchmarkResult : Type := {
  agent : A;
  rewards : list Z;
  dones : list Z;
  games : list (string * Z);
}.

(** *** The process *)

(** A call to a collaborator: the agent asked with an observation and a
    reward and the action it gave; a game reset; a game stepped with an
    action, with [action_space.n] at that moment and the reward and [done]
    it gave. *)
Inductive Call : Type :=
| AgentCall (observation : Obs) (reward : Z) (action : Z)
| GameReset
| GameStep (n : Z) (action : Z) (reward : Z) (done : bool).

(** The state shared by all the objects: the generator, the
    configuration files, the saved agents, and the calls made so far (the
    last one at the end), which no code reads. *)
Record Process : Type := {
  random_state : G;
  files : gmap string FileData;
  agent_files : gmap string A;
  calls : list Call;
}.

Definition set_random_state (g : G) (p : Process) : Process :=
  {| random_state := g; files := files p;
     agent_files := agent_files p; calls := calls p |}.
Definition write_file (filename : string) (d : FileData) (p : Process)
  : Process :=
  {| random_state := random_state p; files := <[filename := d]> (files p);
     agent_files := agent_files p; calls := calls p |}.
Definition write_agent (filename : string) (a : A) (p : Process)
  : Process :=
  {| random_state := random_state p; files := files p;
     agent_files := <[filename := a]> (agent_files p); calls := calls p |}.
Definition log (c : Call) (p : Process) : Process :=
  {| random_state := random_state p; files := files p;
     agent_files := agent_files p; calls := calls p ++ [c] |}.

Local Abbreviation M := (Py.M Process).

(** [random.random()] *)
Definition py_random : M Q :=
  fun p => let (x, g) := random (random_state p) in
           (Ok x, set_random_state g p).

(** [random.randint(a, b)]: an empty range raises. *)
Definition py_randint (a b : Z) : M Z :=
  fun p => if b <? a then (Raise ValueError, p)
           else let (x, g) := randint a b (random_state p) in
                (Ok x, set_random_state g p).

(** [random.sample(population, k)]: a negative [k] or one larger than
    the population raises. *)
Definition py_sample (population : gset string) (k : Z) : M (list string) :=
  fun p => if (0 <=? k) && (k <=? Z.of_nat (size population))
           then let (l, g) := sample population (Z.to_nat k) (random_state p) in
                (Ok l, set_random_state g p)
           else (Raise ValueError, p).

(** Reading an attribute that may not be bound. *)
Definition getattr {X} (attribute : option X) : M X :=
  match attribute with
  | Some x => ret x
  | None => raise AttributeError
  end.

(** [BenchmarkParms.__init__] *)
Definition BenchmarkParms_init (num_folds max_turns_w_no_reward : Z)
    (seed : option Q) (max_rounds_per_game : Z) : M BenchmarkParms :=
  seed <- match seed with None => py_random | Some s => ret s end ;;
  let games : gset string := list_to_set (GAME_NAMES GAMES) in
  fold_size <- floordiv (NUM_GAMES GAMES) num_folds ;;
  remainder <- mod_ (NUM_GAMES GAMES) num_folds ;;
  let folds := replicate (Z.to_nat num_folds) None in
  st <- for_ (range num_folds)
          (fun i '(folds, games) =>
             fold <- (if i <? remainder
                      then py_sample games (fold_size + 1)
                      else py_sample games fold_size) ;;
             ret (<[Z.to_nat i := Some fold]> folds,
                  games ∖ list_to_set fold))
          (folds, games) ;;
  assert (Z.of_nat (size st.2) =? 0) ;;;
  ret {| num_folds := num_folds;
         max_turns_w_no_reward := max_turns_w_no_reward;
         seed := seed;
         folds := st.1;
         max_rounds_per_game := None |}.

(** [BenchmarkParms.save]: the document is built before the file is
    opened. *)
Definition BenchmarkParms_save (self : BenchmarkParms) (filename : string)
  : M unit :=
  rounds <- getattr (max_rounds_per_game self) ;;
  let filedata :=
    {| file_folds := folds self;
       file_seed := seed self;
       file_max_turns_w_no_reward := max_turns_w_no_reward self;
       file_max_rounds_per_game := rounds |} in
  modify (write_file filename filedata).

(** [BenchmarkParms.load_from_file]: a file that is not there raises; a
    default configuration is built, drawing its own folds, and its fields
    are overwritten. *)
Definition BenchmarkParms_load_from_file (filename : string)
  : M BenchmarkParms :=
  p <- get ;;
  match files p !! filename with
  | None => raise IOError
  | Some filedata =>
      parms <- BenchmarkParms_init 5 10000 None 100000 ;;
      ret {| folds := file_folds filedata;
             num_folds := Z.of_nat (length (file_folds filedata));
             max_turns_w_no_reward := file_max_turns_w_no_reward filedata;
             seed := file_seed filedata;
             max_rounds_per_game := Some (file_max_rounds_per_game filedata) |}
  end.

(** [BenchmarkResult.__init__] and the three recording methods. *)
Definition record_reward (self : BenchmarkResult) (reward : Z)
  : BenchmarkResult :=
  {| agent := agent self; rewards := rewards self ++ [reward];
     dones := dones self; games := games self |}.

Definition record_done (self : BenchmarkResult) (round : Z)
  : BenchmarkResult :=
  {| agent := agent self; rewards := rewards self;
     dones := dones self ++ [round]; games := games self |}.

Definition record_game (self : BenchmarkResult) (game_name : string)
    (round : Z) : BenchmarkResult :=
  {| agent := agent self; rewards := rewards self;
     dones := dones self; games := games self ++ [(game_name, round)] |}.

Definition BenchmarkResult_init (agent : A) (game : option string)
  : BenchmarkResult :=
  let self := {| agent := agent; rewards := []; dones := []; games := [] |} in
  match game with
  | Some game => record_game self game 0
  | None => self
  end.

(** *** Calls to the collaborators *)

Definition reset_game (env : E) : M (Obs * E) :=
  fun p => (Ok (env_reset env), log GameReset p).

Definition step_game (env : E) (action : Z) : M (Obs * Z * bool * E) :=
  fun p =>
    let '(observation, reward, done, env') := env_step env action in
    (Ok (observation, reward, done, env'),
     log (GameStep (action_space_n env) action reward done) p).

Definition ask_agent (a : A) (observation : Obs) (reward : Z) : M (Z * A) :=
  fun p =>
    let '(action, a', g) :=
      agent_call a observation reward (random_state p) in
    (Ok (action, a'),
     log (AgentCall observation reward action) (set_random_state g p)).

(** [agent.save(filename)] *)
Definition save_agent (a : A) (filename : string) : M unit :=
  modify (write_agent filename a).

(** *** [EnvMaker] *)

(** [create_env] reads [self.parms] after [gym.make]: [self_parms] is that
    attribute of the object the mixin is used in, [None] when it is not
    bound. *)
Definition create_env (self_parms : option BenchmarkParms)
    (game_name : string) : M E :=
  let env := make game_name in
  parms <- getattr self_parms ;;
  ret (env_seed env (seed parms)).

(** *** [TestRun] *)

Record TestRun : Type := {
  TestRun_agent : A;
  TestRun_game : E;
  TestRun_parms : BenchmarkParms;
  TestRun_result : BenchmarkResult;
}.

(** [TestRun.__init__]: [create_env] is called before [self.parms] is
    bound. *)
Definition TestRun_init (agent : A) (game_name : string)
    (parms : BenchmarkParms) : M TestRun :=
  game <- create_env None game_name ;;
  ret {| TestRun_agent := agent;
         TestRun_game := game;
         TestRun_parms := parms;
         TestRun_result := BenchmarkResult_init agent (Some game_name) |}.

(** The action sent to the game for a candidate [action]. *)
Definition map_action (action n : Z) : Z :=
  if action >=? n then 0 else action.

(** One round of the loop of [TestRun.__call__]; the loop carries the
    object and the variables [observation] and [reward]. *)
Definition TestRun_round (round_num : Z) (st : TestRun * Obs * Z)
  : M (TestRun * Obs * Z) :=
  let '(self, observation, reward) := st in
  r <- ask_agent (TestRun_agent self) observation reward ;;
  let action := map_action r.1 (action_space_n (TestRun_game self)) in
  s <- step_game (TestRun_game self) action ;;
  let '(observation, reward, done, game) := s in
  let result := record_reward (TestRun_result self) reward in
  if done : bool then
    o <- reset_game game ;;
    ret ({| TestRun_agent := r.2; TestRun_game := o.2;
            TestRun_parms := TestRun_parms self;
            TestRun_result := record_done result round_num |},
         o.1, reward)
  else
    ret ({| TestRun_agent := r.2; TestRun_game := game;
            TestRun_parms := TestRun_parms self;
            TestRun_result := result |},
         observation, reward).

(** [TestRun.__call__] *)
Definition TestRun_call (self : TestRun) : M (BenchmarkResult * TestRun) :=
  o <- reset_game (TestRun_game self) ;;
  let self := {| TestRun_agent := TestRun_agent self; TestRun_game := o.2;
                 TestRun_parms := TestRun_parms self;
                 TestRun_result := TestRun_result self |} in
  let reward := 0 in
  max_rounds <- getattr (max_rounds_per_game (TestRun_parms self)) ;;
  st <- for_ (range max_rounds) TestRun_round (self, o.1, reward) ;;
  ret (TestRun_result st.1.1, st.1.1).

(** *** [TrainingRun] *)

(** [game_rounds_left] is a dictionary that [sample_env] scans in its
    iteration order: an association list in that order. [envs] holds the
    environments made so far. The attribute [result], which [__call__]
    reads, is not bound by [__init__] (it binds [trace_result]): [None]
    unless something else bound it. *)
Record TrainingRun : Type := {
  TrainingRun_agent : A;
  TrainingRun_training_set : gset string;
  TrainingRun_parms : BenchmarkParms;
  TrainingRun_envs : gmap string E;
  TrainingRun_game_rounds_left : list (string * Z);
  TrainingRun_trace_result : BenchmarkResult;
  TrainingRun_result : option BenchmarkResult;
}.

Definition set_envs (envs : gmap string E) (self : TrainingRun)
  : TrainingRun :=
  {| TrainingRun_agent := TrainingRun_agent self;
     TrainingRun_training_set := TrainingRun_training_set self;
     TrainingRun_parms := TrainingRun_parms self;
     TrainingRun_envs := envs;
     TrainingRun_game_rounds_left := TrainingRun_game_rounds_left self;
     TrainingRun_trace_result := TrainingRun_trace_result self;
     TrainingRun_result := TrainingRun_result self |}.

Definition set_agent (a : A) (self : TrainingRun) : TrainingRun :=
  {| TrainingRun_agent := a;
     TrainingRun_training_set := TrainingRun_training_set self;
     TrainingRun_parms := TrainingRun_parms self;
     TrainingRun_envs := TrainingRun_envs self;
     TrainingRun_game_rounds_left := TrainingRun_game_rounds_left self;
     TrainingRun_trace_result := TrainingRun_trace_result self;
     TrainingRun_result := TrainingRun_result self |}.

Definition set_game_rounds_left (t : list (string * Z)) (self : TrainingRun)
  : TrainingRun :=
  {| TrainingRun_agent := TrainingRun_agent self;
     TrainingRun_training_set := TrainingRun_training_set self;
     TrainingRun_parms := TrainingRun_parms self;
     TrainingRun_envs := TrainingRun_envs self;
     TrainingRun_game_rounds_left := t;
     TrainingRun_trace_result := TrainingRun_trace_result self;
     TrainingRun_result := TrainingRun_result self |}.

Definition set_result (r : BenchmarkResult) (self : TrainingRun)
  : TrainingRun :=
  {| TrainingRun_agent := TrainingRun_agent self;
     TrainingRun_training_set := TrainingRun_training_set self;
     TrainingRun_parms := TrainingRun_parms self;
     TrainingRun_envs := TrainingRun_envs self;
     TrainingRun_game_rounds_left := TrainingRun_game_rounds_left self;
     TrainingRun_trace_result := TrainingRun_trace_result self;
     TrainingRun_result := Some r |}.

(** [TrainingRun.__init__]: the quota of each game is read from
    [self.max_test_game_rounds], an attribute that neither the class nor
    the mixin binds, once for every game of the training set. *)
Definition TrainingRun_init (agent : A) (training_set : gset string)
    (parms : BenchmarkParms) : M TrainingRun :=
  game_rounds_left <-
    for_ (elements training_set)
      (fun game table =>
         quota <- getattr (None : option Z) ;;
         ret (table ++ [(game, quota)])%list)
      [] ;;
  ret {| TrainingRun_agent := agent;
         TrainingRun_training_set := training_set;
         TrainingRun_parms := parms;
         TrainingRun_envs := ∅;
         TrainingRun_game_rounds_left := game_rounds_left;
         TrainingRun_trace_result := BenchmarkResult_init agent None;
         TrainingRun_result := None |}.

(** [total_rounds_left]: [sum(self.game_rounds_left.values())] *)
Definition total_rounds_left (self : TrainingRun) : Z :=
  fold_left Z.add (map snd (TrainingRun_game_rounds_left self)) 0.

(** The scan of [sample_env]: [game] is the loop variable, bound to the
    item at which the loop breaks, or to the last item when it never
    breaks, and left as it was when there is no item. *)
Fixpoint scan (threshold : Z) (items : list (string * Z))
    (cumulative_sum : Z) (game : option string) : option string :=
  match items with
  | [] => game
  | (game, rounds_left) :: items' =>
      let cumulative_sum := cumulative_sum + rounds_left in
      if cumulative_sum >=? threshold then Some game
      else scan threshold items' cumulative_sum (Some game)
  end.

(** [self.envs[game]]: [envs] is a [defaultdict] whose factory is
    [self.create_env]; on a missing key the factory is called with no
    argument, and [create_env] needs the name of the game. *)
Definition envs_getitem (self : TrainingRun) (game : string) : M E :=
  match TrainingRun_envs self !! game with
  | Some env => ret env
  | None => raise TypeError
  end.

(** [TrainingRun.sample_env] *)
Definition sample_env (self : TrainingRun) : M (string * E) :=
  let total_rounds_left := total_rounds_left self in
  threshold <- py_randint 0 total_rounds_left ;;
  match scan threshold (TrainingRun_game_rounds_left self) 0 None with
  | None => raise NameError
  | Some game =>
      env <- envs_getitem self game ;;
      ret (game, env)
  end.

(** [d[k]] and [d[k] -= 1] on the table of rounds left. *)
Fixpoint rounds_left_getitem (t : list (string * Z)) (k : string)
  : option Z :=
  match t with
  | [] => None
  | (k', v) :: t' => if String.eqb k' k then Some v else rounds_left_getitem t' k
  end.

Fixpoint rounds_left_decr (t : list (string * Z)) (k : string)
  : list (string * Z) :=
  match t with
  | [] => []
  | (k', v) :: t' =>
      if String.eqb k' k then (k', v - 1) :: t'
      else (k', v) :: rounds_left_decr t' k
  end.

(** The variables of the inner loop of [__call__]. *)
Record Turn : Type := {
  turn_self : TrainingRun;
  turn_round : Z;
  turn_game : E;
  turn_observation : Obs;
  turn_reward : Z;
  turn_done : bool;
  turn_no_reward_turns : Z;
}.

(** The inner loop of [TrainingRun.__call__] on the game [game_name].
    [game] is the environment kept in [envs]: what a step does to it is
    seen there. Every turn takes one round from the quota of the game and
    the loop stops at a quota of 0, so a [fuel] of that quota is never
    used up. *)
Fixpoint TrainingRun_turns (fuel : nat) (game_name : string) (t : Turn)
  : M Turn :=
  let self := turn_self t in
  rounds_left <-
    match rounds_left_getitem (TrainingRun_game_rounds_left self) game_name with
    | Some v => ret v
    | None => raise KeyError
    end ;;
  if (rounds_left >? 0) && negb (turn_done t)
     && (turn_no_reward_turns t <? max_turns_w_no_reward (TrainingRun_parms self))
  then
    match fuel with
    | O => out_of_fuel
    | S fuel' =>
        let round := turn_round t + 1 in
        r <- ask_agent (TrainingRun_agent self)
               (turn_observation t) (turn_reward t) ;;
        let self := set_agent r.2 self in
        let action := map_action r.1 (action_space_n (turn_game t)) in
        s <- step_game (turn_game t) action ;;
        let '(observation, reward, done, game) := s in
        let self := set_envs (<[game_name := game]> (TrainingRun_envs self)) self in
        result <- getattr (TrainingRun_result self) ;;
        let self := set_result (record_reward result reward) self in
        let no_reward_turns :=
          if reward >? 0 then 0 else turn_no_reward_turns t + 1 in
        let self :=
          set_game_rounds_left
            (rounds_left_decr (TrainingRun_game_rounds_left self) game_name)
            self in
        TrainingRun_turns fuel' game_name
          {| turn_self := self; turn_round := round; turn_game := game;
             turn_observation := observation; turn_reward := reward;
             turn_done := done; turn_no_reward_turns := no_reward_turns |}
    end
  else ret t.

(** One visit of the outer loop of [__call__]: a game is drawn and played
    until its quota, the end of an episode or the cap on turns without
    reward stops it. *)
Definition TrainingRun_visit (st : TrainingRun * Z) : M (TrainingRun * Z) :=
  let '(self, round) := st in
  ge <- sample_env self ;;
  let '(game_name, game) := ge in
  result <- getattr (TrainingRun_result self) ;;
  let self := set_result (record_game result game_name round) self in
  o <- reset_game game ;;
  let self := set_envs (<[game_name := o.2]> (TrainingRun_envs self)) self in
  let quota :=
    default 0 (rounds_left_getitem (TrainingRun_game_rounds_left self) game_name) in
  t <- TrainingRun_turns (Z.to_nat quota) game_name
         {| turn_self := self; turn_round := round; turn_game := o.2;
            turn_observation := o.1; turn_reward := 0;
            turn_done := false; turn_no_reward_turns := 0 |} ;;
  let self := turn_self t in
  result <- getattr (TrainingRun_result self) ;;
  ret (set_result (record_done result (turn_round t)) self, turn_round t).

(** The outer loop of [__call__]: nothing bounds the number of visits, the
    model runs at most [fuel] of them. *)
Fixpoint TrainingRun_loop (fuel : nat) (st : TrainingRun * Z)
  : M (TrainingRun * Z) :=
  if total_rounds_left st.1 >? 0 then
    match fuel with
    | O => out_of_fuel
    | S fuel' => st' <- TrainingRun_visit st ;; TrainingRun_loop fuel' st'
    end
  else ret st.

(** [TrainingRun.__call__]: the method has no [return]. *)
Definition TrainingRun_call (fuel : nat) (self : TrainingRun)
  : M TrainingRun :=
  let round := 0 in
  st <- TrainingRun_loop fuel (self, round) ;;
  ret st.1.

(** *** [TransferBenchmark] *)

Record TransferBenchmark : Type := {
  parms : BenchmarkParms;
  untrained_agent : A;
  game_agents : gmap string A;
  game_results : gmap string BenchmarkResult;
  fold_agents : list A;
  fold_results : list (gmap string BenchmarkResult);
  dir : string;
}.

Definition set_game_results (r : gmap string BenchmarkResult)
    (self : TransferBenchmark) : TransferBenchmark :=
  {| parms := parms self; untrained_agent := untrained_agent self;
     game_agents := game_agents self; game_results := r;
     fold_agents := fold_agents self; fold_results := fold_results self;
     dir := dir self |}.

Definition set_game_agents (a : gmap string A) (self : TransferBenchmark)
  : TransferBenchmark :=
  {| parms := parms self; untrained_agent := untrained_agent self;
     game_agents := a; game_results := game_results self;
     fold_agents := fold_agents self; fold_results := fold_results self;
     dir := dir self |}.

Definition set_fold_agents (a : list A) (self : TransferBenchmark)
  : TransferBenchmark :=
  {| parms := parms self; untrained_agent := untrained_agent self;
     game_agents := game_agents self; game_results := game_results self;
     fold_agents := a; fold_results := fold_results self;
     dir := dir self |}.

Definition set_fold_results (r : list (gmap string BenchmarkResult))
    (self : TransferBenchmark) : TransferBenchmark :=
  {| parms := parms self; untrained_agent := untrained_agent self;
     game_agents := game_agents self; game_results := game_results self;
     fold_agents := fold_agents self; fold_results := r;
     dir := dir self |}.

(** [default_dir], for the time [datetime.now()] formatted as the method
    does. *)
Definition default_dir (time : string) : string :=
  String.append "benchmarks/" (String.append time "/").

(** [TransferBenchmark.__init__]: [dir or self.default_dir()]. *)
Definition TransferBenchmark_init (parms : BenchmarkParms)
    (dir : option string) (time : string) : TransferBenchmark :=
  {| parms := parms;
     untrained_agent := AgentClass;
     game_agents := ∅;
     game_results := ∅;
     fold_agents := [];
     fold_results := [];
     dir := match dir with
            | Some (String c d) => String c d
            | _ => default_dir time
            end |}.

(** [test_set]: [set(self.parms.folds[test_index])] *)
Definition test_set (self : TransferBenchmark) (test_index : Z)
  : M (gset string) :=
  fold <- getitem (folds (parms self)) test_index ;;
  match fold with
  | Some fold => ret (list_to_set fold)
  | None => raise TypeError
  end.

(** [training_set]: every fold is iterated, the one at [test_index] too,
    and its games are left out by the condition. *)
Definition training_set (self : TransferBenchmark) (test_index : Z)
  : M (gset string) :=
  for_ (enumerate (folds (parms self)))
    (fun '(i, fold) (acc : gset string) =>
       match fold with
       | Some fold =>
           ret (if i =? test_index then acc else acc ∪ list_to_set fold)
       | None => raise TypeError
       end)
    ∅.

Definition game_agent_filename (self : TransferBenchmark)
    (game_name : string) : string :=
  String.append (dir self) (String.append "game_agent_" game_name).

Definition fold_agent_filename (self : TransferBenchmark) (fold_num : Z)
  : string :=
  String.append (dir self) (String.append "fold_agent_" (str fold_num)).

Definition tested_agent_filename (self : TransferBenchmark) (fold_num : Z)
    (game_name : string) : string :=
  String.append (dir self)
    (String.append "tested_agent_"
       (String.append (str fold_num) (String.append "_" game_name))).

(** [self.test] and [self.train]: [TransferBenchmark] defines no method of
    these names and binds no attribute of these names. *)
Definition TransferBenchmark_test
  : option (A -> string -> M (BenchmarkResult * A)) := None.
Definition TransferBenchmark_train
  : option (A -> gset string -> M A) := None.

(** [ensure_game_agents] *)
Definition ensure_game_agents (self : TransferBenchmark)
  : M TransferBenchmark :=
  for_ (GAME_NAMES GAMES)
    (fun game_name self =>
       match game_agents self !! game_name with
       | Some _ => ret self
       | None =>
           let game_agent := clone (untrained_agent self) in
           test <- getattr TransferBenchmark_test ;;
           r <- test game_agent game_name ;;
           let self :=
             set_game_results (<[game_name := r.1]> (game_results self)) self in
           save_agent r.2 (game_agent_filename self game_name) ;;;
           ret (set_game_agents (<[game_name := r.2]> (game_agents self)) self)
       end)
    self.

(** The loop of [do_folds] over the games of the test set: the dictionary
    [fold_results] is the one stored at [self.fold_results[fold_num]]. *)
Definition do_fold_tests (fold_num : Z) (fold_agent : A)
    (test_set : gset string) (self : TransferBenchmark)
  : M TransferBenchmark :=
  for_ (elements test_set)
    (fun game_name self =>
       let tested_agent := clone fold_agent in
       run_tests <- TestRun_init tested_agent game_name (parms self) ;;
       r <- TestRun_call run_tests ;;
       let self :=
         set_fold_results
           (alter (fun fold_results => <[game_name := r.1]> fold_results)
              (Z.to_nat fold_num) (fold_results self))
           self in
       save_agent (TestRun_agent r.2)
         (tested_agent_filename self fold_num game_name) ;;;
       ret self)
    self.

(** [do_folds]. The agent stored in [fold_agents] is the one trained in
    place: the slot is written again after the training. *)
Definition do_folds (self : TransferBenchmark) : M TransferBenchmark :=
  self <- ensure_game_agents self ;;
  for_ (range (Z.of_nat (length (folds (parms self)))))
    (fun fold_num self =>
       training_set <- training_set self fold_num ;;
       let fold_agent := clone (untrained_agent self) in
       agents <- setitem (fold_agents self) fold_num fold_agent ;;
       let self := set_fold_agents agents self in
       run_training <- TrainingRun_init fold_agent training_set (parms self) ;;
       train <- getattr TransferBenchmark_train ;;
       fold_agent <- train fold_agent training_set ;;
       let self :=
         set_fold_agents (<[Z.to_nat fold_num := fold_agent]> (fold_agents self))
           self in
       save_agent fold_agent (fold_agent_filename self fold_num) ;;;
       test_set <- test_set self fold_num ;;
       results <- setitem (fold_results self) fold_num ∅ ;;
       let self := set_fold_results results self in
       do_fold_tests fold_num fold_agent test_set self)
    self.

(** *** [main] *)

(** A module-level name that is bound nowhere. *)
Definition getglobal {X} (name : option X) : M X :=
  match name with
  | Some x => ret x
  | None => raise NameError
  end.

(** [main()]: the configuration is bound to [bp], and the benchmark is
    built from [parms], a name that neither [main] nor the module binds.
    [time] is the time at which the benchmark would be built. *)
Definition main (time : string) : M unit :=
  bp <- BenchmarkParms_init 5 10000 None 100000 ;;
  parms <- getglobal (None : option BenchmarkParms) ;;
  let bench := TransferBenchmark_init parms None time in
  do_folds bench ;;;
  ret tt.

End Benchmark.

Arguments BenchmarkParms : clear implicits.
Arguments FileData : clear implicits.
Arguments BenchmarkResult : clear implicits.
Arguments Call : clear implicits.
Arguments Process : clear implicits.
Arguments TestRun : clear implicits.
Arguments TrainingRun : clear implicits.
Arguments Turn : clear implicits.
Arguments TransferBenchmark : clear implicits.

Local Close Scope string_scope.

(** ** What the properties are stated with *)

(** The least integer not below [n / k]. *)
Definition ceil_div (n k : Z) : Z := (n + k - 1) / k.

(** The size the loop of [__init__] asks for fold [i]. *)
Definition fold_size_at (n k : Z) (i : nat) : Z :=
  if Z.of_nat i <? n mod k then n / k + 1 else n / k.

(** [f] on the value of an outcome. *)
Definition outcome_map {X Y} (f : X -> Y) (o : outcome X) : outcome Y :=
  match o with
  | Ok x => Ok (f x)
  | Raise e => Raise e
  | OutOfFuel => OutOfFuel
  end.

Section Vocabulary.

Context {G Obs E A : Type}.
Context `{!Random G} `{!Gym Obs E} `{!Agent Obs G A}.

(** The body of the loop of [__init__], for the fold size and the
    remainder computed before it. *)
Definition draw_fold (fold_size remainder : Z) (i : Z)
    (st : list (option (list string)) * gset string)
  : M (Process G Obs A) (list (option (list string)) * gset string) :=
  let '(folds, games) := st in
  bind (if i <? remainder
        then py_sample games (fold_size + 1)
        else py_sample games fold_size)
       (fun fold =>
          ret (<[Z.to_nat i := Some fold]> folds, games ∖ list_to_set fold)).

(** What holds of the slots and of the games still to draw when [i] folds
    have been drawn from a suite of [n] games for [k] folds. *)
Definition partition_inv (suite : list string) (n k : Z) (i : nat)
    (st : list (option (list string)) * gset string) : Prop :=
  exists fs : list (list string),
    st.1 = (Some <$> fs) ++ replicate (Z.to_nat k - i) None /\
    length fs = i /\
    (forall j f, fs !! j = Some f ->
       NoDup f /\ Z.of_nat (length f) = fold_size_at n k j) /\
    (forall j1 j2 f1 f2, (j1 < j2)%nat ->
       fs !! j1 = Some f1 -> fs !! j2 = Some f2 ->
       forall x, x ∈ f1 -> x ∉ f2) /\
    (forall f x, f ∈ fs -> x ∈ f -> x ∉ st.2) /\
    (forall x, x ∈ suite <-> x ∈ st.2 \/ exists f, f ∈ fs /\ x ∈ f) /\
    Z.of_nat (size st.2) =
      n - Z.of_nat i * (n / k) - Z.min (Z.of_nat i) (n mod k).

(** An action some call of the agent gives, and a number of actions some
    state of the game has. *)
Definition candidate (c : Z) : Prop :=
  exists (a : A) (o : Obs) (r : Z) (g : G), c = (agent_call a o r g).1.1.
Definition action_count (n : Z) : Prop :=
  exists e : E, n = action_space_n e.

(** The questions put to the agent, the steps asked of the game and the
    resets in a list of calls. *)
Record Query : Type := {
  query_observation : Obs;
  query_reward : Z;
  query_action : Z;
}.
Record Step : Type := {
  step_n : Z;
  step_action : Z;
  step_reward : Z;
  step_done : bool;
}.
Definition asked (c : Call Obs) : option Query :=
  match c with
  | AgentCall o r a =>
      Some {| query_observation := o; query_reward := r; query_action := a |}
  | _ => None
  end.
Definition stepped (c : Call Obs) : option Step :=
  match c with
  | GameStep n a r d =>
      Some {| step_n := n; step_action := a; step_reward := r; step_done := d |}
  | _ => None
  end.
Definition was_reset (c : Call Obs) : option unit :=
  match c with
  | GameReset => Some tt
  | _ => None
  end.

(** [played i r cs rs ds r']: rounds of the loop of [TestRun.__call__],
    from round [i] on with [r] in the variable [reward], make the calls
    [cs], record the rewards [rs] and the rounds [ds], and leave [r'] in
    [reward]. *)
Inductive played : Z -> Z -> list (Call Obs) -> list Z -> list Z -> Z -> Prop :=
| played_none i r : played i r [] [] [] r
| played_round i r o c n r1 (d : bool) cs rs ds r' :
    candidate c -> action_count n ->
    played (i + 1) r1 cs rs ds r' ->
    played i r
      (AgentCall o r c :: GameStep n (map_action c n) r1 d
         :: (if d then [GameReset] else []) ++ cs)
      (r1 :: rs)
      ((if d then [i] else []) ++ ds)
      r'.

(** An object on which the loops of [TrainingRun.__call__] can run: the
    attribute [result] is bound, no game of the table has a negative
    quota, its games are distinct, and each has its environment. *)
Definition trainable (self : TrainingRun E A) : Prop :=
  is_Some (TrainingRun_result self) /\
  NoDup (TrainingRun_game_rounds_left self).*1 /\
  Forall (fun item => 0 <= item.2) (TrainingRun_game_rounds_left self) /\
  forall g, g ∈ (TrainingRun_game_rounds_left self).*1 ->
            is_Some (TrainingRun_envs self !! g).

(** The number of rewards in the attribute [result], 0 when not bound. *)
Definition rewards_recorded (self : TrainingRun E A) : nat :=
  match TrainingRun_result self with
  | Some result => length (rewards result)
  | None => 0%nat
  end.

(** Two states of the process that differ in the generator at most: the
    same files, the same saved agents, the same calls. *)
Definition same_but_generator (p p' : Process G Obs A) : Prop :=
  files p' = files p /\ agent_files p' = agent_files p /\
  calls p' = calls p.

End Vocabulary.

Arguments Query : clear implicits.

(** ** Concrete collaborators

    A generator that reads its draws from a tape, a game whose episodes
    last three steps, and an agent that plays a script. *)

Module Tape.

(** The draws still to come; 0 is drawn from an empty tape. [sample] takes
    the first [k] elements of the population rotated by the draw. *)
Definition tape_random (g : list Z) : Q * list Z :=
  (Qmake (hd 0 g mod 1000) 1000, tl g).

Definition tape_randint (a b : Z) (g : list Z) : Z * list Z :=
  (a + hd 0 g mod (b - a + 1), tl g).

Definition tape_sample (X : gset string) (k : nat) (g : list Z)
  : list string * list Z :=
  (take k (rotate (Z.to_nat (hd 0 g)) (elements X)), tl g).

#[export] Instance tape : Random (list Z) := {|
  random := tape_random;
  randint := tape_randint;
  sample := tape_sample;
|}.

(** A game with 18 actions whose state is the number of steps into the
    episode: the third step of an episode ends it with a reward of 7. The
    observation is that number of steps. *)
#[export] Instance three_steps : Gym Z Z := {|
  make := fun game_name => 0;
  env_seed := fun env value => env;
  env_reset := fun env => (0, 0);
  env_step := fun env action =>
    let env' := env + 1 in
    (env', if env' =? 3 then 7 else 0, env' =? 3, env');
  action_space_n := fun env => 18;
|}.

(** An agent that plays the actions of a script, then action 0. *)
#[export] Instance script : Agent Z (list Z) (list Z) := {|
  AgentClass := [];
  agent_call := fun self observation reward g => (hd 0 self, tl self, g);
  clone := fun self => self;
|}.

(** A process that has just started, with the draws to come. *)
Definition start (g : list Z) : Process (list Z) Z (list Z) :=
  {| random_state := g; files := ∅; agent_files := ∅; calls := [] |}.

(** A configuration with one fold, whose budget of rounds is bound or not. *)
Definition parms_with (max_rounds : option Z) : BenchmarkParms :=
  {| num_folds := 1;
     max_turns_w_no_reward := 10000;
     seed := 0%Q;
     folds := [Some ["Pong-v0"%string]];
     max_rounds_per_game := max_rounds |}.

(** An evaluation run on Pong of the agent with the script [actions]. *)
Definition test_run (actions : list Z) (max_rounds : Z)
  : TestRun Z (list Z) :=
  {| TestRun_agent := actions;
     TestRun_game := 0;
     TestRun_parms := parms_with (Some max_rounds);
     TestRun_result := BenchmarkResult_init actions (Some "Pong-v0"%string) |}.

(** A training run with the table [rounds_left], an environment for each
    game of the table, and the attribute [result] bound or not. *)
Definition training_run (rounds_left : list (string * Z))
    (result : option (BenchmarkResult (list Z)))
  : TrainingRun Z (list Z) :=
  {| TrainingRun_agent := [];
     TrainingRun_training_set := list_to_set rounds_left.*1;
     TrainingRun_parms := parms_with None;
     TrainingRun_envs := gset_to_gmap 0 (list_to_set rounds_left.*1);
     TrainingRun_game_rounds_left := rounds_left;
     TrainingRun_trace_result := BenchmarkResult_init [] None;
     TrainingRun_result := result |}.

(** The table of rounds left in which Pong has none and Breakout five, in
    that order. *)
Definition pong_exhausted : list (string * Z) :=
  [("Pong-v0"%string, 0); ("Breakout-v0"%string, 5)].

End Tape.

(** ** Further concrete collaborators

    A generator whose [randint(a, b)] always draws [b], and a benchmark
    in which the one game of the suite has its game agent. *)

Module Bench.

Import Tape.

Definition upper_randint (a b : Z) (g : list Z) : Z * list Z := (b, g).

(** Not an instance: it is given where it is meant. *)
Definition upper_end : Random (list Z) := {|
  random := tape_random;
  randint := upper_randint;
  sample := tape_sample;
|}.

(** The suite of one game. *)
Definition pong_only : list string := ["pong"%string].

(** A benchmark on the configuration of one fold, in which Pong has an
    agent, and in which it has none. *)
Definition fresh : TransferBenchmark (list Z) :=
  TransferBenchmark_init (parms_with None) None "2016-11-04_12.00"%string.

Definition with_pong_agent : TransferBenchmark (list Z) :=
  set_game_agents {[ "Pong-v0"%string := [] ]} fresh.

(** A training run on Pong and Breakout with the cap [cap] on the turns
    without reward, and the attribute [result] bound. *)
Definition capped_run (cap : Z) (rounds_left : list (string * Z))
  : TrainingRun Z (list Z) :=
  {| TrainingRun_agent := [];
     TrainingRun_training_set := list_to_set rounds_left.*1;
     TrainingRun_parms :=
       {| num_folds := 1; max_turns_w_no_reward := cap; seed := 0%Q;
          folds := [Some ["Pong-v0"%string]]; max_rounds_per_game := None |};
     TrainingRun_envs := gset_to_gmap 0 (list_to_set rounds_left.*1);
     TrainingRun_game_rounds_left := rounds_left;
     TrainingRun_trace_result := BenchmarkResult_init [] None;
     TrainingRun_result := Some (BenchmarkResult_init [] None) |}.

End Bench.

(** * Properties *)

(** ** Loops *)

(** A [for] loop whose body keeps an invariant, indexed by the number of
    rounds made, runs to its end and leaves the invariant at the length of
    the list. *)
Lemma for_invariant {S X L} (I : nat -> L -> S -> Prop) (xs : list X)
    (body : X -> L -> M S L) (l : L) (s : S) :
  I 0%nat l s ->
  (forall i x l s, xs !! i = Some x -> I i l s ->
     exists l' s', body x l s = (Ok l', s') /\ I (Datatypes.S i) l' s') ->
  exists l' s', for_ xs body l s = (Ok l', s') /\ I (length xs) l' s'.
Proof.
  revert I l s. induction xs as [|x xs IH]; intros I l s H0 Hstep.
  - exists l, s. split; [reflexivity | exact H0].
  - destruct (Hstep 0%nat x l s eq_refl H0) as (l1 & s1 & Hb & H1).
    destruct (IH (fun i => I (Datatypes.S i)) l1 s1 H1) as (l2 & s2 & Hf & H2).
    { intros i y l' s' Hy Hi. apply (Hstep (Datatypes.S i) y l' s' Hy Hi). }
    exists l2, s2. split; [|exact H2].
    cbn [for_]. unfold bind. rewrite Hb. exact Hf.
Qed.

(** ** The fold partition *)

(** [ceil_div n k] is the ceiling of [n / k] for a positive [k]. *)
Lemma ceil_div_spec n k :
  0 < k -> k * (ceil_div n k - 1) < n <= k * ceil_div n k.
Proof.
  intros Hk. unfold ceil_div.
  pose proof (Z.div_mod (n + k - 1) k ltac:(lia)).
  pose proof (Z.mod_pos_bound (n + k - 1) k Hk). lia.
Qed.

(** The folds that take one game of the remainder have the ceiling for
    size. *)
Lemma fold_size_at_ceil n k i :
  0 < k -> Z.of_nat i < n mod k -> fold_size_at n k i = ceil_div n k.
Proof.
  intros Hk Hi. unfold fold_size_at, ceil_div.
  destruct (Z.ltb_spec (Z.of_nat i) (n mod k)) as [_|]; [|lia].
  pose proof (Z.div_mod n k ltac:(lia)) as Hn.
  pose proof (Z.mod_pos_bound n k Hk) as Hr.
  apply (Z.div_unique _ _ _ (n mod k - 1)); lia.
Qed.

Section Partition.

Context {G Obs E A : Type}.
Context `{!Random G} `{!RandomLaws G} `{!Gym Obs E} `{!Agent Obs G A}.

Lemma py_sample_ok (X : gset string) (k : Z) (p : Process G Obs A) :
  0 <= k <= Z.of_nat (size X) ->
  exists l g,
    py_sample X k p = (Ok l, set_random_state g p) /\
    NoDup l /\ length l = Z.to_nat k /\ (forall x, x ∈ l -> x ∈ X).
Proof.
  intros Hk. unfold py_sample.
  assert (Hn : (Z.to_nat k <= size X)%nat) by lia.
  destruct (Z.leb_spec 0 k); [|lia].
  destruct (Z.leb_spec k (Z.of_nat (size X))); [|lia].
  cbn [andb].
  pose proof (sample_NoDup X _ (random_state p) Hn) as H1.
  pose proof (sample_length X _ (random_state p) Hn) as H2.
  pose proof (fun x => sample_subseteq X _ (random_state p) x Hn) as H3.
  destruct (sample X (Z.to_nat k) (random_state p)) as [l g].
  exists l, g. auto.
Qed.

Lemma partition_inv_step suite n k i st (p : Process G Obs A) :
  0 < k -> 0 <= n -> Z.of_nat i < k ->
  partition_inv suite n k i st ->
  exists st' p',
    draw_fold (n / k) (n mod k) (Z.of_nat i) st p = (Ok st', p') /\
    partition_inv suite n k (Datatypes.S i) st'.
Proof.
  intros Hk Hn Hi (fs & Hfolds & Hlen & Hsize & Hdisj & Hgone & Hcover & Hleft).
  destruct st as [folds games]. cbn [fst snd] in *.
  pose proof (Z.div_mod n k ltac:(lia)) as Hdm.
  pose proof (Z.mod_pos_bound n k Hk) as Hr.
  assert (Hq : 0 <= n / k) by (apply Z.div_pos; lia).
  assert (Hfit : 0 <= fold_size_at n k i <= Z.of_nat (size games)).
  { unfold fold_size_at. rewrite Hleft.
    destruct (Z.ltb_spec (Z.of_nat i) (n mod k)); nia. }
  destruct (py_sample_ok games _ p Hfit) as (l & g & Hs & Hnd & Hl & Hsub).
  exists (<[i := Some l]> folds, games ∖ list_to_set l), (set_random_state g p).
  split.
  - unfold draw_fold, bind.
    replace (if Z.of_nat i <? n mod k
             then py_sample games (n / k + 1) else py_sample games (n / k))
      with (py_sample (Obs:=Obs) (A:=A) games (fold_size_at n k i))
      by (unfold fold_size_at; destruct (Z.of_nat i <? n mod k); reflexivity).
    rewrite Hs. unfold ret. by rewrite Nat2Z.id.
  - exists (fs ++ [l]). cbn [fst snd]. repeat split.
    + rewrite Hfolds.
      rewrite insert_app_r_alt by (rewrite length_fmap; lia).
      rewrite length_fmap, Hlen, Nat.sub_diag.
      replace (Z.to_nat k - i)%nat with (Datatypes.S (Z.to_nat k - Datatypes.S i)) by lia.
      cbn. rewrite fmap_app. cbn. by rewrite <- app_assoc.
    + rewrite length_app. cbn. lia.
    + apply lookup_app_Some in H as [H | [Hge H]].
      * by apply (Hsize j f).
      * apply list_lookup_singleton_Some in H as [_ <-]. done.
    + apply lookup_app_Some in H as [H | [Hge H]].
      * by apply (Hsize j f).
      * apply list_lookup_singleton_Some in H as [Hj <-].
        rewrite Hl. assert (j = i) as -> by lia. lia.
    + intros j1 j2 f1 f2 Hlt H1 H2 x Hx1 Hx2.
      apply lookup_app_Some in H2 as [H2 | [Hge H2]].
      * assert (Hj1 : fs !! j1 = Some f1).
        { apply lookup_app_Some in H1 as [H1 | [Hge1 _]]; [done|].
          apply lookup_lt_Some in H2. lia. }
        exact (Hdisj j1 j2 f1 f2 Hlt Hj1 H2 x Hx1 Hx2).
      * apply list_lookup_singleton_Some in H2 as [Hj2 <-].
        assert (Hj1 : fs !! j1 = Some f1).
        { apply lookup_app_Some in H1 as [H1 | [Hge1 _]]; [done|lia]. }
        apply (Hgone f1 x); [by eapply list_elem_of_lookup_2 | done | auto].
    + intros f x Hf Hx. rewrite elem_of_difference, elem_of_list_to_set.
      intros [Hg Hnl].
      apply elem_of_app in Hf as [Hf | Hf].
      * exact (Hgone f x Hf Hx Hg).
      * apply list_elem_of_singleton in Hf as ->. done.
    + intros Hx. apply Hcover in Hx as [Hx | (f & Hf & Hx)].
      * destruct (decide (x ∈ l)) as [Hin | Hout].
        -- right. exists l. split; [|done]. apply elem_of_app. right.
           by apply list_elem_of_singleton.
        -- left. rewrite elem_of_difference, elem_of_list_to_set. done.
      * right. exists f. split; [|done]. apply elem_of_app. by left.
    + intros [Hx | (f & Hf & Hx)].
      * apply Hcover. left.
        rewrite elem_of_difference in Hx. tauto.
      * apply elem_of_app in Hf as [Hf | Hf].
        -- apply Hcover. right. eauto.
        -- apply list_elem_of_singleton in Hf as ->.
           apply Hcover. left. auto.
    + rewrite size_difference by
        (intros x Hx; apply elem_of_list_to_set in Hx; auto).
      rewrite size_list_to_set by done.
      assert (Hle : (length l <= size games)%nat) by lia.
      rewrite Nat2Z.inj_sub by exact Hle. rewrite Hleft, Hl.
      unfold fold_size_at in *.
      destruct (Z.ltb_spec (Z.of_nat i) (n mod k)); lia.
Qed.

Lemma partition_inv_start (GAMES : list string) k :
  0 < k -> NoDup (GAME_NAMES GAMES) ->
  partition_inv (GAME_NAMES GAMES) (NUM_GAMES GAMES) k 0
    (replicate (Z.to_nat k) None, list_to_set (GAME_NAMES GAMES)).
Proof.
  intros Hk Hnd. exists []. cbn [fst snd]. repeat split.
  - cbn. by rewrite Nat.sub_0_r.
  - by rewrite lookup_nil in H.
  - by rewrite lookup_nil in H.
  - intros j1 j2 f1 f2 _ Hf. by rewrite lookup_nil in Hf.
  - intros f x Hf. by apply not_elem_of_nil in Hf.
  - intros Hx. left. by apply elem_of_list_to_set.
  - intros [Hx | (f & Hf & _)].
    + by apply elem_of_list_to_set in Hx.
    + by apply not_elem_of_nil in Hf.
  - rewrite size_list_to_set by done.
    unfold NUM_GAMES, GAME_NAMES. rewrite length_map.
    pose proof (Z.mod_pos_bound (Z.of_nat (length GAMES)) k Hk). lia.
Qed.

(** The run of [__init__] for at least one fold: it comes to its end, with
    as many folds as asked for, and the invariant of the loop holds of
    them with no game left to draw. *)
Lemma BenchmarkParms_init_folds (GAMES : list string) (k m r : Z)
    (s : option Q) (p : Process G Obs A) :
  NoDup (GAME_NAMES GAMES) -> 1 <= k ->
  exists parms p' games,
    BenchmarkParms_init GAMES k m s r p = (Ok parms, p') /\
    num_folds parms = k /\
    max_rounds_per_game parms = None /\
    size games = 0%nat /\
    partition_inv (GAME_NAMES GAMES) (NUM_GAMES GAMES) k (Z.to_nat k)
      (folds parms, games).
Proof.
  intros Hnd Hk. unfold BenchmarkParms_init.
  assert (Hseed : exists x p0,
    (match s with None => py_random | Some s => ret s end) p = (Ok x, p0)).
  { destruct s as [x|]; [by exists x, p|].
    unfold py_random. destruct (random (random_state p)) as [x g]. eauto. }
  destruct Hseed as (x & p0 & Hseed).
  unfold bind at 1. rewrite Hseed.
  unfold floordiv, mod_. destruct (Z.eqb_spec k 0) as [|_]; [lia|].
  unfold bind at 1. unfold ret at 1.
  unfold bind at 1. unfold ret at 1.
  set (n := NUM_GAMES GAMES).
  assert (Hn : 0 <= n) by (unfold n, NUM_GAMES; lia).
  destruct (for_invariant
    (fun i st (_ : Process G Obs A) =>
       partition_inv (GAME_NAMES GAMES) n k i st)
    (range k) (draw_fold (n / k) (n mod k))
    (replicate (Z.to_nat k) None, list_to_set (GAME_NAMES GAMES)) p0)
    as (st & p1 & Hloop & Hinv).
  { apply partition_inv_start; [lia | done]. }
  { intros i y st p' Hy Hinv. unfold range in Hy.
    apply lookup_seqZ in Hy as [-> Hi].
    apply partition_inv_step; [lia | lia | lia | done]. }
  unfold range in Hinv. rewrite length_seqZ in Hinv.
  unfold bind at 1. unfold draw_fold in Hloop. rewrite Hloop.
  assert (Hsz : size st.2 = 0%nat).
  { destruct Hinv as (fs & _ & _ & _ & _ & _ & _ & Hleft).
    pose proof (Z.div_mod n k ltac:(lia)).
    pose proof (Z.mod_pos_bound n k ltac:(lia)).
    rewrite Z2Nat.id in Hleft by lia. lia. }
  unfold bind, assert, ret. rewrite Hsz. cbn.
  eexists _, p1, st.2. split; [reflexivity|]. cbn.
  repeat split; [done|]. by destruct st.
Qed.

End Partition.

(** ** The evaluation loop *)

Section Evaluation.

Context {G Obs E A : Type}.
Context `{!Random G} `{!Gym Obs E} `{!Agent Obs G A}.

Lemma TestRun_round_spec (i : Z) (self : TestRun E A) (o : Obs) (r : Z)
    (p : Process G Obs A) :
  exists c n r1 (d : bool) self' o' p',
    TestRun_round i (self, o, r) p = (Ok (self', o', r1), p') /\
    candidate c /\ action_count n /\
    calls p' = calls p ++ AgentCall o r c :: GameStep n (map_action c n) r1 d
                 :: (if d then [GameReset] else []) /\
    TestRun_parms self' = TestRun_parms self /\
    rewards (TestRun_result self') = rewards (TestRun_result self) ++ [r1] /\
    dones (TestRun_result self') =
      dones (TestRun_result self) ++ (if d then [i] else []) /\
    games (TestRun_result self') = games (TestRun_result self).
Proof.
  unfold TestRun_round, bind, ask_agent, step_game, reset_game.
  destruct (agent_call (TestRun_agent self) o r (random_state p))
    as [[c a'] g] eqn:Hc.
  cbn [fst snd].
  destruct (env_step (TestRun_game self)
              (map_action c (action_space_n (TestRun_game self))))
    as [[[o1 r1] d] e1] eqn:Hs.
  exists c, (action_space_n (TestRun_game self)), r1, d.
  assert (Hcand : candidate c).
  { exists (TestRun_agent self), o, r, (random_state p). by rewrite Hc. }
  assert (Hn : action_count (action_space_n (TestRun_game self))) by by eexists.
  destruct d; cbn.
  - eexists _, _, _. split; [reflexivity|]. cbn.
    rewrite <- !app_assoc. cbn. rewrite ?app_nil_r. repeat split; assumption || reflexivity.
  - eexists _, _, _. split; [reflexivity|]. cbn.
    rewrite <- !app_assoc. cbn. rewrite ?app_nil_r. repeat split; assumption || reflexivity.
Qed.

Lemma TestRun_rounds_spec (k : nat) (i : Z) (self : TestRun E A) (o : Obs)
    (r : Z) (p : Process G Obs A) :
  exists self' o' r' p' cs rs ds,
    for_ (seqZ i (Z.of_nat k)) TestRun_round (self, o, r) p
      = (Ok (self', o', r'), p') /\
    played i r cs rs ds r' /\
    length rs = k /\
    calls p' = calls p ++ cs /\
    TestRun_parms self' = TestRun_parms self /\
    rewards (TestRun_result self') = rewards (TestRun_result self) ++ rs /\
    dones (TestRun_result self') = dones (TestRun_result self) ++ ds /\
    games (TestRun_result self') = games (TestRun_result self).
Proof.
  revert i self o r p. induction k as [|k IH]; intros i self o r p.
  - exists self, o, r, p, [], [], []. cbn. rewrite !app_nil_r.
    repeat split; constructor.
  - rewrite seqZ_cons by lia. cbn [for_].
    destruct (TestRun_round_spec i self o r p)
      as (c & n & r1 & d & self1 & o1 & p1 & Hr & Hc & Hn & Hcalls & Hp & Hrew & Hd & Hg).
    replace (Z.pred (Z.of_nat (Datatypes.S k))) with (Z.of_nat k) by lia.
    destruct (IH (Z.succ i) self1 o1 r1 p1)
      as (self2 & o2 & r2 & p2 & cs & rs & ds & Hf & Hpl & Hlen & Hcalls2 & Hp2 & Hrew2 & Hd2 & Hg2).
    exists self2, o2, r2, p2,
      (AgentCall o r c :: GameStep n (map_action c n) r1 d
         :: (if d then [GameReset] else []) ++ cs),
      (r1 :: rs), ((if d then [i] else []) ++ ds).
    split; [unfold bind; by rewrite Hr|].
    split; [constructor; auto|].
    split; [cbn; lia|].
    split; [rewrite Hcalls2, Hcalls, <- app_assoc; reflexivity|].
    split; [congruence|].
    split; [rewrite Hrew2, Hrew, <- app_assoc; reflexivity|].
    split; [rewrite Hd2, Hd, <- app_assoc; reflexivity|].
    congruence.
Qed.

(** [TestRun.__init__] always leaves with [AttributeError]: [create_env]
    reads [self.parms], which [__init__] binds on the line after the call.
    The properties below are about [__call__] on any object with the four
    attributes bound. *)
Lemma TestRun_init_raises (agent : A) (game_name : string)
    (parms : BenchmarkParms) (p : Process G Obs A) :
  TestRun_init (E:=E) agent game_name parms p = (Raise AttributeError, p).
Proof. reflexivity. Qed.

(** [TestRun.__call__] on a configuration that holds no budget of rounds,
    as [BenchmarkParms.__init__] leaves it: the game is reset and
    [AttributeError] leaves before the first round. *)
Lemma TestRun_call_unbound_budget (self : TestRun E A)
    (p : Process G Obs A) :
  max_rounds_per_game (TestRun_parms self) = None ->
  TestRun_call self p = (Raise AttributeError, log GameReset p).
Proof.
  intros Hnone. unfold TestRun_call, bind, reset_game.
  cbn [TestRun_parms]. by rewrite Hnone.
Qed.

(** [TestRun.__call__] on a configuration that holds a budget of rounds. *)
Lemma TestRun_call_spec (self : TestRun E A) (max_rounds : Z)
    (p : Process G Obs A) :
  max_rounds_per_game (TestRun_parms self) = Some max_rounds ->
  exists self' p' cs rs ds r',
    TestRun_call self p = (Ok (TestRun_result self', self'), p') /\
    played 0 0 cs rs ds r' /\
    length rs = Z.to_nat max_rounds /\
    calls p' = calls p ++ GameReset :: cs /\
    rewards (TestRun_result self') = rewards (TestRun_result self) ++ rs /\
    dones (TestRun_result self') = dones (TestRun_result self) ++ ds /\
    games (TestRun_result self') = games (TestRun_result self).
Proof.
  intros Hmax. unfold TestRun_call.
  unfold bind at 1. unfold reset_game at 1.
  destruct (env_reset (TestRun_game self)) as [o e] eqn:Hreset.
  cbn [fst snd TestRun_parms]. rewrite Hmax.
  unfold bind at 1. unfold getattr, ret at 1.
  set (self0 := {| TestRun_agent := TestRun_agent self; TestRun_game := e;
                   TestRun_parms := TestRun_parms self;
                   TestRun_result := TestRun_result self |}).
  destruct (TestRun_rounds_spec (Z.to_nat max_rounds) 0 self0 o 0
              (log GameReset p))
    as (self' & o' & r' & p' & cs & rs & ds & Hf & Hpl & Hlen & Hcalls & _ & Hrew & Hd & Hg).
  assert (Hrange : range max_rounds = seqZ 0 (Z.of_nat (Z.to_nat max_rounds))).
  { unfold range. destruct (Z.le_gt_cases 0 max_rounds).
    - by rewrite Z2Nat.id.
    - replace (Z.to_nat max_rounds) with 0%nat by lia.
      unfold seqZ. by replace (Z.to_nat max_rounds) with 0%nat by lia. }
  rewrite Hrange. unfold bind. rewrite Hf. cbn.
  exists self', p', cs, rs, ds, r'.
  split; [reflexivity|]. split; [done|]. split; [done|].
  split; [rewrite Hcalls; cbn; by rewrite <- app_assoc|].
  auto.
Qed.

(** The steps of played rounds give the rewards recorded, in order. *)
Lemma played_rewards i r cs rs ds r' :
  played i r cs rs ds r' -> step_reward <$> omap stepped cs = rs.
Proof.
  induction 1 as [|i r o c n r1 d cs rs ds r' _ _ _ IH]; [reflexivity|].
  cbn. f_equal. destruct d; cbn; exact IH.
Qed.

(** One question and one step a round. *)
Lemma played_asked_length i r cs rs ds r' :
  played i r cs rs ds r' -> length (omap asked cs) = length rs.
Proof.
  induction 1 as [|i r o c n r1 d cs rs ds r' _ _ _ IH]; [reflexivity|].
  cbn. f_equal. destruct d; cbn; exact IH.
Qed.

(** The game is reset once for every round recorded as done. *)
Lemma played_resets i r cs rs ds r' :
  played i r cs rs ds r' -> length (omap was_reset cs) = length ds.
Proof.
  induction 1 as [|i r o c n r1 d cs rs ds r' _ _ _ IH]; [reflexivity|].
  cbn. destruct d; cbn; by rewrite IH.
Qed.

(** The step of a round is made with the action of its question, mapped. *)
Lemma played_mapped i r cs rs ds r' :
  played i r cs rs ds r' ->
  Forall2 (fun q s => candidate (query_action q) /\ action_count (step_n s) /\
                      step_action s = map_action (query_action q) (step_n s))
    (omap asked cs) (omap stepped cs).
Proof.
  induction 1 as [|i r o c n r1 d cs rs ds r' Hc Hn _ IH]; [constructor|].
  cbn. constructor; [by cbn|]. destruct d; cbn; exact IH.
Qed.

(** The reward a question carries is the one of the step before it, and
    the one the loop started with for the first question: nothing sets the
    variable [reward] when a round is done and the game is reset. *)
Lemma played_query_rewards i r cs rs ds r' :
  played i r cs rs ds r' ->
  (query_reward <$> omap asked cs) ++ [r'] = r :: rs.
Proof.
  induction 1 as [|i r o c n r1 d cs rs ds r' _ _ _ IH]; [reflexivity|].
  cbn. f_equal. destruct d; cbn; exact IH.
Qed.

(** The rounds recorded as done are those whose step gave [done]. *)
Lemma played_dones i r cs rs ds r' :
  played i r cs rs ds r' ->
  forall j : Z,
    j ∈ ds <->
    i <= j /\ exists s, omap stepped cs !! Z.to_nat (j - i) = Some s
                        /\ step_done s = true.
Proof.
  induction 1 as [|i r o c n r1 d cs rs ds r' _ _ _ IH]; intros j.
  - split; [by intros ?%not_elem_of_nil|].
    intros (_ & s & Hs & _). cbn in Hs. by rewrite lookup_nil in Hs.
  - assert (Hsteps : omap stepped
        (AgentCall o r c :: GameStep n (map_action c n) r1 d
           :: (if d then [GameReset] else []) ++ cs)
      = {| step_n := n; step_action := map_action c n;
           step_reward := r1; step_done := d |} :: omap stepped cs)
      by (destruct d; reflexivity).
    rewrite Hsteps. clear Hsteps.
    rewrite elem_of_app, IH. split.
    + intros [Hj | (Hj & s & Hs & Hd)].
      * destruct d; [|by apply not_elem_of_nil in Hj].
        apply list_elem_of_singleton in Hj as ->.
        split; [lia|]. rewrite Z.sub_diag. eexists. split; [reflexivity|done].
      * split; [lia|]. exists s. split; [|done].
        replace (Z.to_nat (j - i)) with (Datatypes.S (Z.to_nat (j - (i + 1))))
          by lia. exact Hs.
    + intros (Hj & s & Hs & Hd).
      destruct (decide (j = i)) as [->|Hne].
      * left. rewrite Z.sub_diag in Hs. cbn in Hs.
        injection Hs as <-. cbn in Hd. subst d. by apply list_elem_of_singleton.
      * right. split; [lia|]. exists s. split; [|done].
        replace (Z.to_nat (j - i)) with (Datatypes.S (Z.to_nat (j - (i + 1))))
          in Hs by lia. exact Hs.
Qed.

(** The first call of played rounds is a question that carries the reward
    the loop holds. *)
Lemma played_head i r cs rs ds r' :
  played i r cs rs ds r' ->
  forall c', cs !! 0%nat = Some c' -> exists o c, c' = AgentCall o r c.
Proof.
  destruct 1 as [|i r o c n r1 d cs rs ds r' _ _ _]; intros c' Hc'.
  - by rewrite lookup_nil in Hc'.
  - cbn in Hc'. injection Hc' as <-. by eexists _, _.
Qed.

(** As many steps as rounds. *)
Lemma played_stepped_length i r cs rs ds r' :
  played i r cs rs ds r' -> length (omap stepped cs) = length rs.
Proof.
  intros Hpl. rewrite <- (played_rewards _ _ _ _ _ _ Hpl).
  by rewrite length_fmap.
Qed.

(** What comes after a step in the calls of played rounds. A step that gave
    [done] is followed at once by a reset of the game, and the call after
    that reset, when the loop goes on, is a question that carries the
    reward of the step; after a step that did not give [done] the next call,
    when the loop goes on, is such a question, never a reset. *)
Lemma played_after_step i r cs rs ds r' :
  played i r cs rs ds r' ->
  forall (k : nat) n a r1 (d : bool),
    cs !! k = Some (GameStep n a r1 d) ->
    (d = true ->
       cs !! Datatypes.S k = Some GameReset /\
       forall c', cs !! Datatypes.S (Datatypes.S k) = Some c' ->
                  exists o c, c' = AgentCall o r1 c) /\
    (d = false ->
       forall c', cs !! Datatypes.S k = Some c' ->
                  exists o c, c' = AgentCall o r1 c).
Proof.
  induction 1 as [|i r o c n0 r0 d0 cs rs ds r' _ _ Hpl IH];
    intros k n a r1 d Hk.
  - by rewrite lookup_nil in Hk.
  - pose proof (played_head _ _ _ _ _ _ Hpl) as Hhead.
    destruct k as [|[|k]].
    + discriminate Hk.
    + cbn in Hk. injection Hk as <- <- <- <-.
      destruct d0; cbn.
      * split; [|intros [=]]. intros _. split; [reflexivity | exact Hhead].
      * split; [intros [=]|]. intros _. exact Hhead.
    + destruct d0.
      * destruct k as [|k]; [discriminate Hk|]. exact (IH k n a r1 d Hk).
      * exact (IH k n a r1 d Hk).
Qed.

(** A candidate action at or above the number of actions is sent as the
    no-op, one below it is sent as it is. *)
Lemma map_action_noop (c n : Z) : n <= c -> map_action c n = 0.
Proof. unfold map_action. destruct (Z.geb_spec c n); [done | lia]. Qed.

Lemma map_action_same (c n : Z) : c < n -> map_action c n = c.
Proof. unfold map_action. destruct (Z.geb_spec c n); [lia | done]. Qed.


(** C10 -- The reward carried over an end of episode. On a configuration
    that holds a budget of rounds, [TestRun.__call__] puts one question to
    the agent in each round of the budget. The first question carries the
    reward 0. The question of every later round carries the reward of the
    step of the round before it; in particular, when that step gave [done],
    the game is reset at once and the next call, which is the question of
    the round that follows, carries the reward of that last step of the
    episode: the reset does not touch the reward. *)
Theorem TestRun_reward_carried_over (self : TestRun E A) (max_rounds : Z)
    (p : Process G Obs A) :
  max_rounds_per_game (TestRun_parms self) = Some max_rounds ->
  exists result self' p' cs,
    TestRun_call self p = (Ok (result, self'), p') /\
    calls p' = calls p ++ cs /\
    Z.of_nat (length (omap asked cs)) = Z.max 0 max_rounds /\
    Z.of_nat (length (omap stepped cs)) = Z.max 0 max_rounds /\
    (0 < max_rounds ->
     exists q, omap asked cs !! 0%nat = Some q /\ query_reward q = 0) /\
    (forall (j : nat) s,
       omap stepped cs !! j = Some s ->
       Z.of_nat (Datatypes.S j) < max_rounds ->
       exists q, omap asked cs !! Datatypes.S j = Some q /\
                 query_reward q = step_reward s) /\
    (forall (k : nat) n a r,
       cs !! k = Some (GameStep n a r true) ->
       cs !! Datatypes.S k = Some GameReset /\
       forall c', cs !! Datatypes.S (Datatypes.S k) = Some c' ->
                  exists o c, c' = AgentCall o r c).
Proof.
  intros Hmax.
  destruct (TestRun_call_spec self max_rounds p Hmax)
    as (self' & p' & cs & rs & ds & r' & Hcall & Hpl & Hlen & Hcalls & _).
  exists (TestRun_result self'), self', p', (GameReset :: cs).
  split; [done|]. split; [done|].
  pose proof (played_query_rewards _ _ _ _ _ _ Hpl) as Hq.
  pose proof (played_rewards _ _ _ _ _ _ Hpl) as Hs.
  pose proof (played_asked_length _ _ _ _ _ _ Hpl) as Hla.
  pose proof (played_stepped_length _ _ _ _ _ _ Hpl) as Hls.
  change (omap asked (GameReset :: cs)) with (omap asked cs).
  change (omap stepped (GameReset :: cs)) with (omap stepped cs).
  assert (Hat : forall (k : nat), (k < length (omap asked cs))%nat ->
            exists q, omap asked cs !! k = Some q /\
                      (0 :: rs) !! k = Some (query_reward q)).
  { intros k Hk. destruct (lookup_lt_is_Some_2 _ _ Hk) as [q Hqk].
    exists q. split; [exact Hqk|]. rewrite <- Hq.
    rewrite lookup_app_l by (by rewrite length_fmap).
    by rewrite list_lookup_fmap, Hqk. }
  split; [lia|]. split; [lia|]. split; [|split].
  - intros Hpos. destruct (Hat 0%nat ltac:(lia)) as (q & Hq0 & Hr0).
    exists q. split; [exact Hq0|]. cbn in Hr0. congruence.
  - intros j s Hj Hin.
    destruct (Hat (Datatypes.S j) ltac:(lia)) as (q & Hq1 & Hr1).
    exists q. split; [exact Hq1|].
    change ((0 :: rs) !! Datatypes.S j) with (rs !! j) in Hr1.
    rewrite <- Hs, list_lookup_fmap, Hj in Hr1. cbn in Hr1. congruence.
  - intros k n a r Hk. destruct k as [|k]; [discriminate Hk|].
    change ((GameReset :: cs) !! Datatypes.S k) with (cs !! k) in Hk.
    destruct (played_after_step _ _ _ _ _ _ Hpl k n a r true Hk) as [Hdone _].
    exact (Hdone eq_refl).
Qed.

(** X11 --
    Episode boundaries of an evaluation run: with a result that has no
    round recorded as done yet, the rounds that [TestRun.__call__] records
    as done are exactly the rounds of the run whose step gave [done]. *)
Lemma TestRun_dones (self : TestRun E A) (max_rounds : Z)
    (p : Process G Obs A) :
  max_rounds_per_game (TestRun_parms self) = Some max_rounds ->
  dones (TestRun_result self) = [] ->
  exists result self' p' cs,
    TestRun_call self p = (Ok (result, self'), p') /\
    calls p' = calls p ++ cs /\
    forall j : Z,
      j ∈ dones result <->
      0 <= j /\ exists s, omap stepped cs !! Z.to_nat j = Some s
                          /\ step_done s = true.
Proof.
  intros Hmax Hfresh.
  destruct (TestRun_call_spec self max_rounds p Hmax)
    as (self' & p' & cs & rs & ds & r' & Hcall & Hpl & _ & Hcalls & _ & Hd & _).
  exists (TestRun_result self'), self', p', (GameReset :: cs).
  split; [done|]. split; [done|].
  intros j. rewrite Hd, Hfresh. cbn [app].
  change (omap stepped (GameReset :: cs)) with (omap stepped cs).
  rewrite (played_dones _ _ _ _ _ _ Hpl j). by rewrite Z.sub_0_r.
Qed.

End Evaluation.

Section PartitionClaims.

Context {G Obs E A : Type}.
Context `{!Random G} `{!RandomLaws G} `{!Gym Obs E} `{!Agent Obs G A}.

(** C2 -- Fold partition. For raw names [GAMES] whose game names are
    distinct and at least one fold, [BenchmarkParms.__init__] comes to its
    end with exactly [k] folds, which are pairwise disjoint, which cover the
    game names and nothing else, and of which fold [i] has [ceil_div n k]
    games when [i < n mod k] and [n / k] games otherwise, for
    [n = NUM_GAMES]. *)
Theorem fold_partition (GAMES : list string) (k m r : Z) (s : option Q)
    (p : Process G Obs A) :
  NoDup (GAME_NAMES GAMES) ->
  1 <= k ->
  exists parms p' fs,
    BenchmarkParms_init GAMES k m s r p = (Ok parms, p') /\
    folds parms = Some <$> fs /\
    length fs = Z.to_nat k /\
    (forall i j fi fj, i <> j -> fs !! i = Some fi -> fs !! j = Some fj ->
       forall x, x ∈ fi -> x ∉ fj) /\
    (forall x, x ∈ GAME_NAMES GAMES <-> exists f, f ∈ fs /\ x ∈ f) /\
    (forall i f, fs !! i = Some f ->
       NoDup f /\
       Z.of_nat (length f) =
         if Z.of_nat i <? NUM_GAMES GAMES mod k
         then ceil_div (NUM_GAMES GAMES) k
         else NUM_GAMES GAMES / k).
Proof.
  intros Hnd Hk.
  destruct (BenchmarkParms_init_folds GAMES k m r s p Hnd Hk)
    as (parms & p' & games & Hinit & _ & _ & Hsz & Hinv).
  destruct Hinv as (fs & Hfolds & Hlen & Hsize & Hdisj & Hgone & Hcover & _).
  cbn [fst snd] in *. rewrite Nat.sub_diag in Hfolds. cbn in Hfolds.
  rewrite app_nil_r in Hfolds.
  exists parms, p', fs. repeat split; try done.
  - intros i j fi fj Hne Hi Hj x Hxi Hxj.
    destruct (Nat.lt_total i j) as [Hlt | [Heq | Hgt]]; [|done|].
    + exact (Hdisj i j fi fj Hlt Hi Hj x Hxi Hxj).
    + exact (Hdisj j i fj fi Hgt Hj Hi x Hxj Hxi).
  - intros Hx. apply Hcover in Hx as [Hx | Hx]; [|done].
    apply size_empty_inv in Hsz. set_solver.
  - intros Hx. apply Hcover. by right.
  - by apply (Hsize i f).
  - destruct (Hsize i f H) as [_ ->]. unfold fold_size_at.
    destruct (Z.ltb_spec (Z.of_nat i) (NUM_GAMES GAMES mod k)); [|done].
    rewrite <- (fold_size_at_ceil _ _ i) by lia. unfold fold_size_at.
    destruct (Z.ltb_spec (Z.of_nat i) (NUM_GAMES GAMES mod k)); [done|lia].
Qed.

(** The process after a draw depends on the process before it through the
    generator only, and so does the outcome. *)
Lemma py_sample_generator (X : gset string) (k : Z) (p1 p2 : Process G Obs A) :
  random_state p1 = random_state p2 ->
  (py_sample X k p1).1 = (py_sample X k p2).1 /\
  random_state (py_sample X k p1).2 = random_state (py_sample X k p2).2.
Proof.
  intros Hg. unfold py_sample. rewrite Hg.
  destruct ((0 <=? k) && (k <=? Z.of_nat (size X))); [|done].
  by destruct (sample X (Z.to_nat k) (random_state p2)).
Qed.

Lemma draw_fold_generator fold_size remainder i st (p1 p2 : Process G Obs A) :
  random_state p1 = random_state p2 ->
  (draw_fold fold_size remainder i st p1).1
    = (draw_fold fold_size remainder i st p2).1 /\
  random_state (draw_fold fold_size remainder i st p1).2
    = random_state (draw_fold fold_size remainder i st p2).2.
Proof.
  intros Hg. destruct st as [folds games]. unfold draw_fold, bind.
  set (k := if i <? remainder then fold_size + 1 else fold_size).
  replace (if i <? remainder
           then py_sample games (fold_size + 1) else py_sample games fold_size)
    with (py_sample (Obs:=Obs) (A:=A) games k)
    by (unfold k; destruct (i <? remainder); reflexivity).
  destruct (py_sample_generator games k p1 p2 Hg) as [Ho Hs].
  destruct (py_sample games k p1) as [o1 q1], (py_sample games k p2) as [o2 q2].
  cbn [fst snd] in *. subst o2. destruct o1; cbn; auto.
Qed.

Lemma for_generator {X L} (body : X -> L -> M (Process G Obs A) L)
    (xs : list X) :
  (forall x l p1 p2, random_state p1 = random_state p2 ->
     (body x l p1).1 = (body x l p2).1 /\
     random_state (body x l p1).2 = random_state (body x l p2).2) ->
  forall l p1 p2, random_state p1 = random_state p2 ->
    (for_ xs body l p1).1 = (for_ xs body l p2).1 /\
    random_state (for_ xs body l p1).2 = random_state (for_ xs body l p2).2.
Proof.
  intros Hbody. induction xs as [|x xs IH]; intros l p1 p2 Hg; [done|].
  cbn [for_]. unfold bind.
  destruct (Hbody x l p1 p2 Hg) as [Ho Hs].
  destruct (body x l p1) as [o1 q1], (body x l p2) as [o2 q2].
  cbn [fst snd] in *. subst o2. destruct o1; cbn; auto.
Qed.

(** [__init__] with a seed given, step by step. *)
Lemma BenchmarkParms_init_seeded (GAMES : list string) (k m r : Z) (s : Q)
    (p : Process G Obs A) :
  BenchmarkParms_init GAMES k m (Some s) r p =
  if k =? 0 then (Raise ZeroDivisionError, p)
  else
    match for_ (range k)
            (draw_fold (NUM_GAMES GAMES / k) (NUM_GAMES GAMES mod k))
            (replicate (Z.to_nat k) None, list_to_set (GAME_NAMES GAMES)) p
    with
    | (Ok st, p') =>
        if Z.of_nat (size st.2) =? 0
        then (Ok {| num_folds := k; max_turns_w_no_reward := m; seed := s;
                    folds := st.1; max_rounds_per_game := None |}, p')
        else (Raise AssertionError, p')
    | (Raise e, p') => (Raise e, p')
    | (OutOfFuel, p') => (OutOfFuel, p')
    end.
Proof.
  unfold BenchmarkParms_init, draw_fold, floordiv, mod_, assert.
  unfold bind, ret, raise.
  destruct (k =? 0); [reflexivity|].
  match goal with
  | |- context [for_ ?a ?b ?c ?d] => destruct (for_ a b c d) as [[st| |] q]
  end; try reflexivity.
  destruct (Z.of_nat (size st.2) =? 0); reflexivity.
Qed.

(** [__init__] with no seed given: the seed is drawn, and the rest is
    [__init__] with that seed, from the generator as the draw leaves it. *)
Lemma BenchmarkParms_init_unseeded (GAMES : list string) (k m r : Z)
    (p : Process G Obs A) :
  BenchmarkParms_init GAMES k m None r p =
  BenchmarkParms_init GAMES k m (Some (random (random_state p)).1) r
    (set_random_state (random (random_state p)).2 p).
Proof.
  unfold BenchmarkParms_init. unfold bind at 1. unfold py_random.
  destruct (random (random_state p)) as [x g]. reflexivity.
Qed.

(** With a seed given, the folds, or the exception, follow from the
    generator alone. *)
Lemma folds_follow_generator_seeded (GAMES : list string)
    (k m1 m2 r1 r2 : Z) (s1 s2 : Q) (p1 p2 : Process G Obs A) :
  random_state p1 = random_state p2 ->
  outcome_map folds (BenchmarkParms_init GAMES k m1 (Some s1) r1 p1).1
  = outcome_map folds (BenchmarkParms_init GAMES k m2 (Some s2) r2 p2).1.
Proof.
  intros Hg. rewrite !BenchmarkParms_init_seeded.
  destruct (k =? 0); [reflexivity|].
  destruct (for_generator (draw_fold (NUM_GAMES GAMES / k) (NUM_GAMES GAMES mod k))
              (range k) (draw_fold_generator _ _)
              (replicate (Z.to_nat k) None, list_to_set (GAME_NAMES GAMES))
              p1 p2 Hg) as [Ho _].
  destruct (for_ _ _ _ p1) as [o1 q1], (for_ _ _ _ p2) as [o2 q2].
  cbn [fst snd] in Ho. subst o2. destruct o1 as [st| |]; [|reflexivity..].
  destruct (Z.of_nat (size st.2) =? 0); reflexivity.
Qed.

(** C3, as the code has it -- The fold assignment follows the generator.
    Two constructions with the same raw names and the same number of folds
    that start from the same state of the generator of [random], and that
    are both given a seed or both given none, give the same folds (or fail
    alike), whatever the seeds and the other arguments are: a seed that is
    given is stored and nothing more, and when none is given the seed is
    itself drawn from the generator, before the folds, by both. *)
Theorem folds_follow_generator (GAMES : list string) (k m1 m2 r1 r2 : Z)
    (s1 s2 : option Q) (p1 p2 : Process G Obs A) :
  random_state p1 = random_state p2 ->
  (is_Some s1 <-> is_Some s2) ->
  outcome_map folds (BenchmarkParms_init GAMES k m1 s1 r1 p1).1
  = outcome_map folds (BenchmarkParms_init GAMES k m2 s2 r2 p2).1.
Proof.
  intros Hg Hboth. destruct s1 as [s1|], s2 as [s2|].
  - by apply folds_follow_generator_seeded.
  - destruct Hboth as [Hboth _].
    destruct (Hboth ltac:(by eexists)) as [x [=]].
  - destruct Hboth as [_ Hboth].
    destruct (Hboth ltac:(by eexists)) as [x [=]].
  - rewrite !BenchmarkParms_init_unseeded.
    apply folds_follow_generator_seeded. cbn [random_state set_random_state].
    by rewrite Hg.
Qed.

(** C8 -- A configuration built by [__init__] cannot be saved: the
    attribute [max_rounds_per_game] that [save] reads was never bound, the
    exception leaves before the file is opened, and no file is written
    that [load_from_file] could read back. *)
Theorem save_after_init_raises (GAMES : list string) (k m r : Z)
    (s : option Q) (filename : string) (p p' : Process G Obs A)
    (parms : BenchmarkParms) :
  BenchmarkParms_init GAMES k m s r p = (Ok parms, p') ->
  BenchmarkParms_save parms filename p' = (Raise AttributeError, p').
Proof.
  intros Hinit.
  assert (Hnone : max_rounds_per_game parms = None).
  { unfold BenchmarkParms_init, bind, assert, ret in Hinit.
    repeat match type of Hinit with
           | (let (_, _) := ?x in _) = _ => destruct x as [[?| |] ?]
           | (match ?x with _ => _ end) = _ => destruct x
           end; try discriminate.
    all: try (injection Hinit as <- _; reflexivity). }
  unfold BenchmarkParms_save, bind. by rewrite Hnone.
Qed.

(** X8 --
    With the attribute bound, as [load_from_file] leaves it, the round
    trip holds: [save] then [load_from_file] gives back the folds,
    the seed and the two budgets. *)
Lemma save_load_roundtrip (GAMES : list string) (filename : string)
    (parms : BenchmarkParms) (rounds : Z) (p : Process G Obs A) :
  NoDup (GAME_NAMES GAMES) ->
  max_rounds_per_game parms = Some rounds ->
  exists parms' p',
    bind (BenchmarkParms_save parms filename)
      (fun _ => BenchmarkParms_load_from_file GAMES filename) p
      = (Ok parms', p') /\
    folds parms' = folds parms /\
    seed parms' = seed parms /\
    max_turns_w_no_reward parms' = max_turns_w_no_reward parms /\
    max_rounds_per_game parms' = max_rounds_per_game parms.
Proof.
  intros Hnd Hmax.
  unfold BenchmarkParms_save, BenchmarkParms_load_from_file.
  unfold bind at 1 2. rewrite Hmax. cbn [getattr]. unfold ret at 1.
  unfold modify. unfold bind at 1. unfold get.
  cbn [files write_file]. rewrite lookup_insert_eq.
  match goal with
  | |- context [write_file ?f ?d p] => set (q := write_file f d p)
  end.
  destruct (BenchmarkParms_init_folds GAMES 5 10000 100000 None q Hnd
              ltac:(lia)) as (parms0 & p0 & _ & Hinit & _).
  unfold bind. rewrite Hinit. cbn.
  eexists _, _. split; [reflexivity|]. cbn. by rewrite ?Hmax.
Qed.

End PartitionClaims.

(** ** The training loop *)

Section Training.

Context {G Obs E A : Type}.
Context `{!Random G} `{!Gym Obs E} `{!Agent Obs G A}.

(** [TrainingRun.__init__] on a training set that is not empty: the first
    quota it reads is an attribute that is not bound. *)
Lemma TrainingRun_init_raises (agent : A) (training_set : gset string)
    (parms : BenchmarkParms) (p : Process G Obs A) :
  training_set ≠ ∅ ->
  TrainingRun_init (E:=E) agent training_set parms p
    = (Raise AttributeError, p).
Proof.
  intros Hne. unfold TrainingRun_init.
  destruct (elements training_set) as [|game games] eqn:Hel.
  - apply elements_empty_inv in Hel. by apply leibniz_equiv in Hel.
  - reflexivity.
Qed.

(** A visit of the outer loop by an object whose attribute [result] is not
    bound: an exception leaves before any call to the agent or to a game. *)
Lemma TrainingRun_visit_raises (self : TrainingRun E A) (round : Z)
    (p : Process G Obs A) :
  TrainingRun_result self = None ->
  exists e p',
    TrainingRun_visit (self, round) p = (Raise e, p') /\
    calls p' = calls p.
Proof.
  intros Hnone. unfold TrainingRun_visit, bind, sample_env, bind, py_randint.
  destruct (total_rounds_left self <? 0); [by eauto|].
  destruct (randint 0 (total_rounds_left self) (random_state p))
    as [threshold g].
  destruct (scan threshold (TrainingRun_game_rounds_left self) 0 None)
    as [game|]; [|by eexists _, _].
  unfold envs_getitem.
  destruct (TrainingRun_envs self !! game) as [env|]; [|by eexists _, _].
  cbn. rewrite Hnone. by eexists _, _.
Qed.

(** C4 -- The training loop as written plays no turn. For an object whose
    attributes are those [__init__] binds (so [result] is not bound) and
    that has rounds left, [TrainingRun.__call__] leaves with an exception in
    its first visit, whatever budget of visits the model is given, and no
    call was made to the agent or to a game: no turn of the quotas is
    played. *)
Theorem TrainingRun_call_raises (fuel : nat) (self : TrainingRun E A)
    (p : Process G Obs A) :
  TrainingRun_result self = None ->
  0 < total_rounds_left self ->
  exists e p',
    TrainingRun_call (Datatypes.S fuel) self p = (Raise e, p') /\
    calls p' = calls p.
Proof.
  intros Hnone Hleft.
  destruct (TrainingRun_visit_raises self 0 p Hnone) as (e & p' & Hv & Hc).
  exists e, p'. split; [|exact Hc].
  unfold TrainingRun_call, bind. cbn [TrainingRun_loop fst].
  destruct (Z.gtb_spec (total_rounds_left self) 0); [|lia].
  unfold bind. by rewrite Hv.
Qed.

(** The table of rounds left after a turn of the game [k]. *)
Lemma rounds_left_decr_getitem (t : list (string * Z)) (k : string) (v : Z) :
  rounds_left_getitem t k = Some v ->
  rounds_left_getitem (rounds_left_decr t k) k = Some (v - 1).
Proof.
  induction t as [|[k' v'] t IH]; [done|]. cbn.
  destruct (String.eqb k' k) eqn:Hk; cbn; rewrite Hk; [congruence | exact IH].
Qed.

(** The inner loop never uses up a budget of turns that is at least the
    quota of the game: the budget of the model does not cut it short. *)
Lemma TrainingRun_turns_enough_fuel (fuel : nat) (game_name : string) :
  forall (t : Turn Obs E A) (p : Process G Obs A),
    (forall v,
       rounds_left_getitem
         (TrainingRun_game_rounds_left (turn_self t)) game_name = Some v ->
       (Z.to_nat v <= fuel)%nat) ->
    (TrainingRun_turns fuel game_name t p).1 <> OutOfFuel.
Proof.
  induction fuel as [|fuel IH]; intros t p Hfuel.
  - cbn [TrainingRun_turns]. unfold bind.
    destruct (rounds_left_getitem _ game_name) as [v|] eqn:Hv; [|done].
    unfold ret at 1. specialize (Hfuel v eq_refl).
    destruct (Z.gtb_spec v 0); [lia|]. done.
  - cbn [TrainingRun_turns]. unfold bind at 1.
    destruct (rounds_left_getitem _ game_name) as [v|] eqn:Hv; [|done].
    unfold ret at 1. specialize (Hfuel v eq_refl).
    destruct ((v >? 0) && negb (turn_done t) &&
              (turn_no_reward_turns t
                 <? max_turns_w_no_reward (TrainingRun_parms (turn_self t))));
      [|done].
    unfold bind at 1. unfold ask_agent at 1.
    destruct (agent_call _ _ _ _) as [[c a'] g].
    unfold bind at 1. unfold step_game at 1.
    destruct (env_step _ _) as [[[o1 r1] d] e1].
    unfold bind at 1. cbn [TrainingRun_result set_envs set_agent].
    destruct (TrainingRun_result (turn_self t)) as [result|]; [|done].
    cbn [getattr]. unfold ret at 1.
    apply IH. intros v' Hv'.
    cbn [turn_self TrainingRun_game_rounds_left set_game_rounds_left
         set_result set_envs set_agent] in Hv'.
    rewrite (rounds_left_decr_getitem _ _ _ Hv) in Hv'.
    injection Hv' as <-. lia.
Qed.

(** The scan of [sample_env] with a threshold of at least 1 that the
    quotas reach, none of them negative: the game it stops at has rounds
    left. *)
Lemma scan_positive_threshold (threshold : Z) (items : list (string * Z))
    (cumulative_sum : Z) (game : option string) (g : string) :
  cumulative_sum < threshold ->
  threshold <= cumulative_sum + fold_right Z.add 0 (map snd items) ->
  Forall (fun item => 0 <= item.2) items ->
  scan threshold items cumulative_sum game = Some g ->
  exists rounds_left, (g, rounds_left) ∈ items /\ 0 < rounds_left.
Proof.
  revert cumulative_sum game.
  induction items as [|[g' q] items IH]; intros c game Hc Ht Hq Hs.
  - cbn in Ht. lia.
  - cbn [scan] in Hs. cbn in Ht. inversion Hq as [|? ? Hq0 Hq']; subst.
    cbn in Hq0.
    destruct (Z.geb_spec (c + q) threshold) as [Hge | Hlt].
    + injection Hs as <-. exists q. split; [left | lia].
    + destruct (IH (c + q) (Some g')) as (q' & Hin & Hpos);
        [lia | lia | done | done |].
      exists q'. split; [by right | done].
Qed.

(** The scan with a threshold of 0 stops at the first game of the table,
    whatever its quota. *)
Lemma scan_zero_threshold (g : string) (rounds_left : Z)
    (items : list (string * Z)) :
  0 <= rounds_left ->
  scan 0 ((g, rounds_left) :: items) 0 None = Some g.
Proof.
  intros Hq. cbn [scan].
  by destruct (Z.geb_spec (0 + rounds_left) 0); [|lia].
Qed.

End Training.

(** ** The cross-validation driver *)

Section CrossValidation.

Context {G Obs E A : Type}.
Context `{!Random G} `{!Gym Obs E} `{!Agent Obs G A}.

(** [ensure_game_agents] with a game that has no agent yet: the first such
    game makes it call [self.test], which does not exist; nothing has been
    done to the process by then. *)
Lemma ensure_game_agents_raises (GAMES : list string)
    (self : TransferBenchmark A) (p : Process G Obs A) :
  (exists game_name,
     game_name ∈ GAME_NAMES GAMES /\ game_agents self !! game_name = None) ->
  ensure_game_agents GAMES self p = (Raise AttributeError, p).
Proof.
  unfold ensure_game_agents.
  induction (GAME_NAMES GAMES) as [|name names IH];
    intros (game_name & Hin & Hnone).
  - by apply not_elem_of_nil in Hin.
  - cbn [for_]. unfold bind at 1.
    destruct (game_agents self !! name) as [a|] eqn:Hname.
    + unfold ret at 1. apply IH. exists game_name. split; [|done].
      apply elem_of_cons in Hin as [-> | Hin]; [congruence | done].
    + reflexivity.
Qed.

(** [do_folds] starts with [ensure_game_agents]. *)
Lemma do_folds_raises (GAMES : list string) (self : TransferBenchmark A)
    (p : Process G Obs A) :
  (exists game_name,
     game_name ∈ GAME_NAMES GAMES /\ game_agents self !! game_name = None) ->
  do_folds GAMES self p = (Raise AttributeError, p).
Proof.
  intros Hmiss. unfold do_folds, bind.
  by rewrite (ensure_game_agents_raises GAMES self p Hmiss).
Qed.

(** C1 -- [do_folds] on a benchmark that has just been built, for the games
    of the module: it leaves with [AttributeError] from
    [ensure_game_agents], before the loop over the folds is entered; no
    agent is trained, no game is played and no result is recorded. *)
Theorem do_folds_fresh (parms : BenchmarkParms) (dir : option string)
    (time : string) (p : Process G Obs A) :
  do_folds Atari.GAMES (TransferBenchmark_init parms dir time) p
  = (Raise AttributeError, p).
Proof.
  apply do_folds_raises. exists "AirRaid-v0"%string. split.
  - apply elem_of_cons. by left.
  - apply lookup_empty.
Qed.

(** Past [ensure_game_agents], that is with an agent for every game
    already there, the loop over the folds of a benchmark that has just
    been built fails in its first round: [fold_agents] is an empty list and
    the loop assigns to its slot [fold_num]. *)
Lemma training_set_ok (self : TransferBenchmark A) (test_index : Z)
    (p : Process G Obs A) :
  Forall is_Some (folds (parms self)) ->
  exists games, training_set self test_index p = (Ok games, p).
Proof.
  unfold training_set, enumerate.
  generalize (∅ : gset string) as acc.
  generalize 0 as start.
  induction (folds (parms self)) as [|fold fs IH]; intros start acc Hall.
  - by exists acc.
  - inversion Hall as [|? ? [f ->] Hall']; subst.
    cbn [length]. rewrite Nat2Z.inj_succ, seqZ_cons by lia.
    rewrite Z.pred_succ. cbn [zip zip_with for_]. unfold bind, ret at 1.
    apply IH, Hall'.
Qed.

(** X18 --
    With a game agent for every game and a list [fold_agents] that is
    empty, as [__init__] leaves it, [do_folds] raises [IndexError] in the
    first round of its loop, at [self.fold_agents[fold_num] = fold_agent],
    and the process is as it was. *)
Lemma do_folds_first_fold (GAMES : list string)
    (self : TransferBenchmark A) (p : Process G Obs A) :
  (forall game_name,
     game_name ∈ GAME_NAMES GAMES -> is_Some (game_agents self !! game_name)) ->
  folds (parms self) ≠ [] ->
  Forall is_Some (folds (parms self)) ->
  fold_agents self = [] ->
  do_folds GAMES self p = (Raise IndexError, p).
Proof.
  intros Hall Hne Hsome Hnil. unfold do_folds.
  assert (Hens : ensure_game_agents GAMES self p = (Ok self, p)).
  { unfold ensure_game_agents.
    induction (GAME_NAMES GAMES) as [|name names IH]; [done|].
    cbn [for_]. unfold bind.
    destruct (Hall name ltac:(by left)) as [a ->]. unfold ret at 1.
    apply IH. intros g Hg. apply Hall. by right. }
  unfold bind at 1. rewrite Hens.
  destruct (folds (parms self)) as [|f fs] eqn:Hf; [done|].
  unfold range. cbn [length]. rewrite Nat2Z.inj_succ, seqZ_cons by lia.
  cbn [for_]. unfold bind at 1. unfold bind at 1.
  destruct (training_set_ok self 0 p) as [games ->]; [by rewrite Hf|].
  unfold bind at 1. rewrite Hnil. reflexivity.
Qed.

End CrossValidation.

(** * Further properties of the library *)

(** ** Training sets and test sets *)

Section Sets.

Context {G Obs E A : Type}.
Context `{!Random G} `{!RandomLaws G} `{!Gym Obs E} `{!Agent Obs G A}.

(** The loop of [training_set] over folds that are all filled, from any
    index and any set gathered so far. *)
Lemma training_set_loop (fs : list (list string)) (start test_index : Z)
    (acc : gset string) (p : Process G Obs A) :
  exists games : gset string,
    for_ (zip (seqZ start (Z.of_nat (length fs))) (Some <$> fs))
      (fun '(i, fold) (acc : gset string) =>
         match fold with
         | Some fold =>
             ret (if i =? test_index then acc else acc ∪ list_to_set fold)
         | None => raise TypeError
         end) acc p = (Ok games, p) /\
    forall x, x ∈ games <->
      x ∈ acc \/
      exists (j : nat) f,
        fs !! j = Some f /\ start + Z.of_nat j <> test_index /\ x ∈ f.
Proof.
  revert start acc. induction fs as [|f fs IH]; intros start acc.
  - exists acc. split; [reflexivity|]. intros x. split; [by left|].
    intros [Hx | (j & f & Hj & _)]; [done | by rewrite lookup_nil in Hj].
  - cbn [length fmap list_fmap]. rewrite Nat2Z.inj_succ, seqZ_cons by lia.
    rewrite Z.pred_succ. cbn [zip zip_with for_]. unfold bind, ret at 1.
    destruct (IH (Z.succ start)
                (if start =? test_index then acc else acc ∪ list_to_set f))
      as (games & Hrun & Hgames).
    exists games. split; [exact Hrun|]. intros x. rewrite Hgames. split.
    + intros [Hx | (j & f' & Hj & Hne & Hx)].
      * destruct (Z.eqb_spec start test_index) as [Heq | Hne]; [by left|].
        apply elem_of_union in Hx as [Hx | Hx]; [by left|].
        right. exists 0%nat, f. rewrite elem_of_list_to_set in Hx.
        split; [done|]. split; [lia | done].
      * right. exists (Datatypes.S j), f'. split; [done|]. split; [lia | done].
    + intros [Hx | (j & f' & Hj & Hne & Hx)].
      * left. destruct (start =? test_index); [done|].
        apply elem_of_union. by left.
      * destruct j as [|j].
        -- cbn in Hj. injection Hj as <-. left.
           destruct (Z.eqb_spec start test_index) as [Heq | _]; [lia|].
           apply elem_of_union. right. by apply elem_of_list_to_set.
        -- right. exists j, f'. split; [done|]. split; [lia | done].
Qed.

(** [training_set] on folds that are all filled: it returns, for every
    index, the games of the folds at the other indices; it raises nothing
    and leaves the process as it was. *)
Lemma training_set_spec (self : TransferBenchmark A) (fs : list (list string))
    (test_index : Z) (p : Process G Obs A) :
  folds (parms self) = Some <$> fs ->
  exists games : gset string,
    training_set self test_index p = (Ok games, p) /\
    forall x, x ∈ games <->
      exists (j : nat) f,
        fs !! j = Some f /\ Z.of_nat j <> test_index /\ x ∈ f.
Proof.
  intros Hfolds. unfold training_set, enumerate. rewrite Hfolds.
  rewrite length_fmap.
  destruct (training_set_loop fs 0 test_index ∅ p) as (games & Hrun & Hgames).
  exists games. split; [exact Hrun|]. intros x. rewrite Hgames.
  split.
  - intros [Hx | (j & f & Hj & Hne & Hx)]; [set_solver|].
    exists j, f. split; [done|]. split; [lia | done].
  - intros (j & f & Hj & Hne & Hx). right.
    exists j, f. split; [done|]. split; [lia | done].
Qed.

(** [test_set] at an index of the list of folds. *)
Lemma test_set_spec (self : TransferBenchmark A) (fs : list (list string))
    (i : nat) (f : list string) (p : Process G Obs A) :
  folds (parms self) = Some <$> fs ->
  fs !! i = Some f ->
  test_set self (Z.of_nat i) p = (Ok (list_to_set f), p).
Proof.
  intros Hfolds Hi. unfold test_set, getitem, index, bind.
  rewrite Hfolds, length_fmap.
  pose proof (lookup_lt_Some _ _ _ Hi) as Hlt.
  destruct (Z.leb_spec 0 (Z.of_nat i)); [|lia].
  destruct (Z.ltb_spec (Z.of_nat i) (Z.of_nat (length fs))); [|lia].
  cbn [andb]. rewrite Nat2Z.id, list_lookup_fmap, Hi. reflexivity.
Qed.

(** X13 --
    The training set and the test set of a fold of a configuration that
    [BenchmarkParms.__init__] built share no game, and together they are
    the whole suite: for distinct game names and [k >= 1] folds, for every
    fold index [i] below [k]. *)
Theorem training_and_test_sets_split (GAMES : list string) (k m r : Z)
    (s : option Q) (p p' : Process G Obs A) (config : BenchmarkParms)
    (self : TransferBenchmark A) (i : Z) (q : Process G Obs A) :
  NoDup (GAME_NAMES GAMES) ->
  1 <= k ->
  BenchmarkParms_init GAMES k m s r p = (Ok config, p') ->
  parms self = config ->
  0 <= i < k ->
  exists training test : gset string,
    training_set self i q = (Ok training, q) /\
    test_set self i q = (Ok test, q) /\
    training ∩ test = ∅ /\
    training ∪ test = list_to_set (GAME_NAMES GAMES).
Proof.
  intros Hnd Hk Hinit Hparms Hi.
  destruct (BenchmarkParms_init_folds GAMES k m r s p Hnd Hk)
    as (config' & p'' & games & Hinit' & _ & _ & Hsz & Hinv).
  rewrite Hinit in Hinit'. injection Hinit' as <- <-.
  destruct Hinv as (fs & Hfolds & Hlen & _ & Hdisj & _ & Hcover & _).
  cbn [fst snd] in *. rewrite Nat.sub_diag in Hfolds. cbn in Hfolds.
  rewrite app_nil_r in Hfolds. rewrite <- Hparms in Hfolds.
  apply size_empty_inv in Hsz.
  destruct (training_set_spec self fs i q Hfolds) as (training & Htr & Htraining).
  destruct (lookup_lt_is_Some_2 fs (Z.to_nat i)) as [f Hf]; [lia|].
  pose proof (test_set_spec self fs (Z.to_nat i) f q Hfolds Hf) as Hte.
  rewrite Z2Nat.id in Hte by lia.
  exists training, (list_to_set f). split; [done|]. split; [done|].
  split.
  - apply set_eq. intros x. rewrite elem_of_intersection, elem_of_list_to_set.
    split; [|by intros ?%not_elem_of_empty].
    intros [(j & f' & Hj & Hne & Hx)%Htraining Hxf]. exfalso.
    destruct (Nat.lt_total j (Z.to_nat i)) as [Hlt | [Heq | Hgt]]; [|lia|].
    + exact (Hdisj _ _ _ _ Hlt Hj Hf x Hx Hxf).
    + exact (Hdisj _ _ _ _ Hgt Hf Hj x Hxf Hx).
  - apply set_eq. intros x.
    rewrite elem_of_union, !elem_of_list_to_set, Htraining, Hcover.
    split.
    + intros [(j & f' & Hj & _ & Hx) | Hx].
      * right. exists f'. split; [by eapply list_elem_of_lookup_2 | done].
      * right. exists f. split; [by eapply list_elem_of_lookup_2 | done].
    + intros [Hx | (f' & Hf' & Hx)]; [set_solver|].
      apply list_elem_of_lookup in Hf' as [j Hj].
      destruct (decide (Z.of_nat j = i)) as [Heq | Hne].
      * right. assert (j = Z.to_nat i) as -> by lia. congruence.
      * left. exists j, f'. done.
Qed.

(** X14 --
    A negative index keeps nothing out of the training set:
    [training_set] compares the index with the positions 0, 1, ... only,
    while [test_set] reads [folds[test_index]], where a negative index
    counts from the end. So for a negative index within the list the test
    set is a fold of the configuration and every game of it is in the
    training set too. *)
Theorem training_set_negative_index (self : TransferBenchmark A)
    (fs : list (list string)) (test_index : Z) (f : list string)
    (p : Process G Obs A) :
  folds (parms self) = Some <$> fs ->
  - Z.of_nat (length fs) <= test_index < 0 ->
  fs !! Z.to_nat (Z.of_nat (length fs) + test_index) = Some f ->
  exists training : gset string,
    training_set self test_index p = (Ok training, p) /\
    test_set self test_index p = (Ok (list_to_set f), p) /\
    list_to_set f ⊆ training.
Proof.
  intros Hfolds Hi Hf.
  destruct (training_set_spec self fs test_index p Hfolds)
    as (training & Htr & Htraining).
  exists training. split; [done|]. split.
  - unfold test_set, getitem, index, bind.
    rewrite Hfolds, length_fmap.
    destruct (Z.leb_spec 0 test_index); [lia|]. cbn [andb].
    destruct (Z.leb_spec (- Z.of_nat (length fs)) test_index); [|lia].
    destruct (Z.ltb_spec test_index 0); [|lia]. cbn [andb].
    rewrite list_lookup_fmap, Hf. reflexivity.
  - intros x Hx. apply elem_of_list_to_set in Hx. apply Htraining.
    exists (Z.to_nat (Z.of_nat (length fs) + test_index)), f.
    split; [done|]. split; [lia | done].
Qed.

End Sets.

(** ** The driver, past the claims *)

Section Driver.

Context {G Obs E A : Type}.
Context `{!Random G} `{!Gym Obs E} `{!Agent Obs G A}.

(** [ensure_game_agents] either finds an agent for every game, and then
    it returns the benchmark as it was, or it meets a game without an
    agent, and then it leaves with [AttributeError]; the process is
    untouched either way. *)
Lemma ensure_game_agents_spec (GAMES : list string)
    (self : TransferBenchmark A) (p : Process G Obs A) :
  ensure_game_agents GAMES self p =
  if decide (Forall (fun game_name => is_Some (game_agents self !! game_name))
               (GAME_NAMES GAMES))
  then (Ok self, p)
  else (Raise AttributeError, p).
Proof.
  unfold ensure_game_agents.
  induction (GAME_NAMES GAMES) as [|name names IH].
  - by rewrite decide_True by constructor.
  - cbn [for_]. unfold bind at 1.
    destruct (game_agents self !! name) as [a|] eqn:Hname.
    + unfold ret at 1. rewrite IH.
      destruct (decide (Forall _ names)) as [Hall | Hnot].
      * rewrite decide_True; [done|]. constructor; [by rewrite Hname | done].
      * rewrite decide_False; [done|]. intros Hall. apply Hnot.
        by inversion Hall.
    + rewrite decide_False; [done|].
      intros Hall. inversion Hall as [|? ? [a Ha] _]; subst. congruence.
Qed.

(** X16 --
    On a benchmark that has an agent for every game, [ensure_game_agents]
    changes nothing, neither the benchmark nor the process, so it can be
    run again and again, as its docstring says. *)
Theorem ensure_game_agents_complete (GAMES : list string)
    (self : TransferBenchmark A) (p : Process G Obs A) :
  Forall (fun game_name => is_Some (game_agents self !! game_name))
    (GAME_NAMES GAMES) ->
  ensure_game_agents GAMES self p = (Ok self, p) /\
  bind (ensure_game_agents GAMES self) (ensure_game_agents GAMES) p
    = (Ok self, p).
Proof.
  intros Hall.
  assert (Hone : ensure_game_agents GAMES self p = (Ok self, p))
    by (by rewrite ensure_game_agents_spec, decide_True).
  split; [exact Hone|]. unfold bind. by rewrite Hone.
Qed.

(** [training_set] returns a set or leaves with [TypeError], and keeps the
    process. *)
Lemma training_set_outcome (self : TransferBenchmark A) (test_index : Z)
    (p : Process G Obs A) :
  (exists games, training_set self test_index p = (Ok games, p)) \/
  training_set self test_index p = (Raise TypeError, p).
Proof.
  unfold training_set, enumerate.
  generalize (∅ : gset string) as acc.
  generalize 0 as start.
  induction (folds (parms self)) as [|fold fs IH]; intros start acc.
  - left. by exists acc.
  - cbn [length]. rewrite Nat2Z.inj_succ, seqZ_cons by lia.
    rewrite Z.pred_succ. cbn [zip zip_with for_]. unfold bind.
    destruct fold as [f|]; [|by right].
    unfold ret at 1. apply IH.
Qed.

(** [TrainingRun.__init__] returns only for an empty training set, and
    keeps the process. *)
Lemma TrainingRun_init_outcome (agent : A) (training_set : gset string)
    (config : BenchmarkParms) (p : Process G Obs A) :
  (exists run, TrainingRun_init (E:=E) agent training_set config p = (Ok run, p)) \/
  TrainingRun_init (E:=E) agent training_set config p
    = (Raise AttributeError, p).
Proof.
  unfold TrainingRun_init.
  destruct (elements training_set) as [|game games]; [left | right].
  - by eexists.
  - reflexivity.
Qed.

(** X17 --
    [do_folds] never gets through a fold: on a benchmark whose
    configuration has at least one fold it always leaves with an
    exception, whatever the benchmark holds, and the process is as it was
    (no agent was saved, no game was played). *)
Theorem do_folds_no_fold_completes (GAMES : list string)
    (self : TransferBenchmark A) (p : Process G Obs A) :
  folds (parms self) <> [] ->
  exists e, do_folds GAMES self p = (Raise e, p).
Proof.
  intros Hne. unfold do_folds. unfold bind at 1.
  rewrite ensure_game_agents_spec.
  destruct (decide _) as [_|_]; [|by eexists].
  destruct (folds (parms self)) as [|f fs] eqn:Hf; [done|].
  unfold range. cbn [length]. rewrite Nat2Z.inj_succ, seqZ_cons by lia.
  cbn [for_]. unfold bind at 1. unfold bind at 1.
  destruct (training_set_outcome self 0 p) as [[games ->] | ->];
    [|by eexists].
  unfold bind at 1. unfold setitem.
  destruct (index (fold_agents self) 0) as [j|]; [|by eexists].
  unfold ret at 1. unfold bind at 1.
  cbn [parms set_fold_agents].
  destruct (TrainingRun_init_outcome (clone (untrained_agent self)) games
              (parms self) p) as [[run ->] | ->]; [|by eexists].
  by eexists.
Qed.

(** With no fold at all and an agent for every game, [do_folds] returns
    and changes nothing. *)
Lemma do_folds_without_folds (GAMES : list string)
    (self : TransferBenchmark A) (p : Process G Obs A) :
  Forall (fun game_name => is_Some (game_agents self !! game_name))
    (GAME_NAMES GAMES) ->
  folds (parms self) = [] ->
  do_folds GAMES self p = (Ok self, p).
Proof.
  intros Hall Hnil. unfold do_folds, bind.
  rewrite ensure_game_agents_spec, decide_True by done.
  by rewrite Hnil.
Qed.

End Driver.

(** ** Evaluation runs, past the claims *)

Section EvaluationMore.

Context {G Obs E A : Type}.
Context `{!Random G} `{!Gym Obs E} `{!Agent Obs G A}.

(** [TestRun.__call__] on a configuration that holds a budget of rounds:
    what it returns is the result of the object, whose configuration is
    kept, and the rewards and rounds of this call come after those the
    result held. *)
Lemma TestRun_call_appends (self : TestRun E A) (max_rounds : Z)
    (p : Process G Obs A) :
  max_rounds_per_game (TestRun_parms self) = Some max_rounds ->
  exists self' p' cs rs ds r',
    TestRun_call self p = (Ok (TestRun_result self', self'), p') /\
    played 0 0 cs rs ds r' /\
    length rs = Z.to_nat max_rounds /\
    TestRun_parms self' = TestRun_parms self /\
    rewards (TestRun_result self') = rewards (TestRun_result self) ++ rs /\
    dones (TestRun_result self') = dones (TestRun_result self) ++ ds /\
    games (TestRun_result self') = games (TestRun_result self).
Proof.
  intros Hmax. unfold TestRun_call.
  unfold bind at 1. unfold reset_game at 1.
  destruct (env_reset (TestRun_game self)) as [o e] eqn:Hreset.
  cbn [fst snd TestRun_parms]. rewrite Hmax.
  unfold bind at 1. unfold getattr, ret at 1.
  set (self0 := {| TestRun_agent := TestRun_agent self; TestRun_game := e;
                   TestRun_parms := TestRun_parms self;
                   TestRun_result := TestRun_result self |}).
  destruct (TestRun_rounds_spec (Z.to_nat max_rounds) 0 self0 o 0
              (log GameReset p))
    as (self' & o' & r' & p' & cs & rs & ds & Hf & Hpl & Hlen & _ & Hp & Hrew & Hd & Hg).
  assert (Hrange : range max_rounds = seqZ 0 (Z.of_nat (Z.to_nat max_rounds))).
  { unfold range. destruct (Z.le_gt_cases 0 max_rounds).
    - by rewrite Z2Nat.id.
    - replace (Z.to_nat max_rounds) with 0%nat by lia.
      unfold seqZ. by replace (Z.to_nat max_rounds) with 0%nat by lia. }
  rewrite Hrange. unfold bind. rewrite Hf. cbn.
  exists self', p', cs, rs, ds, r'. auto 10.
Qed.

(** X10 --
    The result of a [TestRun] is never emptied: a second call of
    [__call__] on the object returns the rewards of the first call followed
    by as many new ones, twice the budget in all for a result that was
    empty, and the schedule of games is the one the result had. *)
Theorem TestRun_call_twice (self : TestRun E A) (max_rounds : Z)
    (p : Process G Obs A) :
  max_rounds_per_game (TestRun_parms self) = Some max_rounds ->
  0 <= max_rounds ->
  rewards (TestRun_result self) = [] ->
  exists result1 self1 p1 result2 self2 p2 rs,
    TestRun_call self p = (Ok (result1, self1), p1) /\
    TestRun_call self1 p1 = (Ok (result2, self2), p2) /\
    rewards result2 = rewards result1 ++ rs /\
    Z.of_nat (length (rewards result1)) = max_rounds /\
    Z.of_nat (length (rewards result2)) = 2 * max_rounds /\
    games result2 = games (TestRun_result self).
Proof.
  intros Hmax Hpos Hfresh.
  destruct (TestRun_call_appends self max_rounds p Hmax)
    as (self1 & p1 & cs1 & rs1 & ds1 & r1 & Hc1 & _ & Hl1 & Hp1 & Hr1 & _ & Hg1).
  rewrite <- Hp1 in Hmax.
  destruct (TestRun_call_appends self1 max_rounds p1 Hmax)
    as (self2 & p2 & cs2 & rs2 & ds2 & r2 & Hc2 & _ & Hl2 & _ & Hr2 & _ & Hg2).
  exists (TestRun_result self1), self1, p1, (TestRun_result self2), self2, p2, rs2.
  split; [done|]. split; [done|]. split; [done|].
  rewrite Hr2, Hr1, Hfresh, Hg2, Hg1. cbn [app].
  rewrite length_app. repeat split; lia.
Qed.

(** The rounds recorded by played rounds are within the rounds played and
    in increasing order. *)
Lemma played_dones_sorted i r cs rs ds r' :
  played (Obs:=Obs) (E:=E) (A:=A) i r cs rs ds r' ->
  Forall (fun j => i <= j < i + Z.of_nat (length rs)) ds /\
  StronglySorted Z.lt ds.
Proof.
  induction 1 as [|i r o c n r1 d cs rs ds r' _ _ _ [IHb IHs]].
  - split; constructor.
  - assert (Hb : Forall (fun j => i + 1 <= j < i + Z.of_nat (length (r1 :: rs))) ds).
    { eapply Forall_impl; [exact IHb|]. cbn. intros j Hj. lia. }
    destruct d; cbn [app].
    + split.
      * constructor; [cbn; lia|].
        eapply Forall_impl; [exact Hb|]. cbn. intros j Hj. lia.
      * constructor; [exact IHs|].
        eapply Forall_impl; [exact Hb|]. cbn. intros j Hj. lia.
    + split; [|exact IHs].
      eapply Forall_impl; [exact Hb|]. cbn. intros j Hj. lia.
Qed.

(** X12 --
    The episode boundaries of an evaluation run are rounds of the run, in
    increasing order and without repetition: for a result that had none,
    every round in [dones] is at least 0 and below the budget, and each is
    above the one before it. *)
Theorem TestRun_dones_increasing (self : TestRun E A) (max_rounds : Z)
    (p : Process G Obs A) :
  max_rounds_per_game (TestRun_parms self) = Some max_rounds ->
  dones (TestRun_result self) = [] ->
  exists result self' p',
    TestRun_call self p = (Ok (result, self'), p') /\
    Forall (fun j => 0 <= j < max_rounds) (dones result) /\
    StronglySorted Z.lt (dones result).
Proof.
  intros Hmax Hfresh.
  destruct (TestRun_call_appends self max_rounds p Hmax)
    as (self' & p' & cs & rs & ds & r' & Hcall & Hpl & Hlen & _ & _ & Hd & _).
  exists (TestRun_result self'), self', p'. split; [done|].
  rewrite Hd, Hfresh. cbn [app].
  destruct (played_dones_sorted _ _ _ _ _ _ Hpl) as [Hb Hs].
  split; [|exact Hs].
  eapply Forall_impl; [exact Hb|]. cbn. intros j Hj. lia.
Qed.

End EvaluationMore.

Section EvaluationUnbound.

Context {G Obs E A : Type}.
Context `{!Random G} `{!Gym Obs E} `{!Agent Obs G A}.

(** A configuration that [__init__] returns has no budget of rounds. *)
Lemma BenchmarkParms_init_no_budget (GAMES : list string) (k m r : Z)
    (s : option Q) (p p' : Process G Obs A) (config : BenchmarkParms) :
  BenchmarkParms_init GAMES k m s r p = (Ok config, p') ->
  max_rounds_per_game config = None.
Proof.
  intros Hinit.
  unfold BenchmarkParms_init, bind, assert, ret in Hinit.
  repeat match type of Hinit with
         | (let (_, _) := ?x in _) = _ => destruct x as [[?| |] ?]
         | (match ?x with _ => _ end) = _ => destruct x
         end; try discriminate.
  all: try (injection Hinit as <- _; reflexivity).
Qed.

(** X9 --
    An evaluation run cannot use a configuration as [BenchmarkParms(...)]
    builds it: [__call__] resets the game and leaves with
    [AttributeError] before the agent is asked anything, because
    [__init__] never binds [max_rounds_per_game]. *)
Theorem TestRun_call_after_init_raises (GAMES : list string) (k m r : Z)
    (s : option Q) (p p' : Process G Obs A) (config : BenchmarkParms)
    (self : TestRun E A) (q : Process G Obs A) :
  BenchmarkParms_init GAMES k m s r p = (Ok config, p') ->
  TestRun_parms self = config ->
  TestRun_call self q = (Raise AttributeError, log GameReset q).
Proof.
  intros Hinit Hparms.
  apply TestRun_call_unbound_budget. rewrite Hparms.
  exact (BenchmarkParms_init_no_budget _ _ _ _ _ _ _ _ Hinit).
Qed.

(** C6 -- No round is played on a configuration that the class builds.
    Whatever budget of rounds [BenchmarkParms(...)] is asked for, the
    configuration it returns holds none, and an evaluation run cannot be
    made with it: [TestRun(agent, game_name, config)] raises
    [AttributeError], and [__call__] on an object whose four attributes
    are bound, with that configuration, resets the game once and raises
    [AttributeError]; the agent is not asked, the game is not stepped, and
    no trace is returned. *)
Theorem TestRun_plays_no_round (GAMES : list string) (k m max_rounds : Z)
    (s : option Q) (p p' : Process G Obs A) (config : BenchmarkParms)
    (agent : A) (game_name : string) (self : TestRun E A)
    (q : Process G Obs A) :
  BenchmarkParms_init GAMES k m s max_rounds p = (Ok config, p') ->
  TestRun_parms self = config ->
  TestRun_init (E:=E) agent game_name config q = (Raise AttributeError, q) /\
  exists q',
    TestRun_call self q = (Raise AttributeError, q') /\
    calls q' = calls q ++ [GameReset] /\
    omap asked (calls q') = omap asked (calls q) /\
    omap stepped (calls q') = omap stepped (calls q).
Proof.
  intros Hinit Hparms. split; [apply TestRun_init_raises|].
  exists (log GameReset q). split.
  - apply TestRun_call_unbound_budget. rewrite Hparms.
    exact (BenchmarkParms_init_no_budget _ _ _ _ _ _ _ _ Hinit).
  - cbn [calls log]. split; [reflexivity|].
    rewrite !omap_app. cbn. by rewrite !app_nil_r.
Qed.

End EvaluationUnbound.

(** ** Training runs, past the claims *)

(** *** The table of rounds left *)

Lemma fold_left_add (l : list Z) (a : Z) :
  fold_left Z.add l a = a + fold_right Z.add 0 l.
Proof.
  revert a. induction l as [|x l IH]; intros a; cbn; [lia|].
  rewrite IH. lia.
Qed.

Lemma rounds_left_getitem_In (t : list (string * Z)) (k : string) (v : Z) :
  rounds_left_getitem t k = Some v -> (k, v) ∈ t.
Proof.
  induction t as [|[k' v'] t IH]; [done|]. cbn.
  destruct (String.eqb_spec k' k) as [-> | Hne].
  - intros [= ->]. by left.
  - intros Hv. right. by apply IH.
Qed.

Lemma rounds_left_getitem_NoDup (t : list (string * Z)) (k : string) (v : Z) :
  NoDup t.*1 -> (k, v) ∈ t -> rounds_left_getitem t k = Some v.
Proof.
  induction t as [|[k' v'] t IH]; intros Hnd Hin;
    [by apply not_elem_of_nil in Hin|].
  cbn in *. inversion Hnd as [|? ? Hnotin Hnd']; subst.
  destruct (String.eqb_spec k' k) as [-> | Hne].
  - apply elem_of_cons in Hin as [[= ->] | Hin]; [done|].
    exfalso. apply Hnotin. apply list_elem_of_fmap. by exists (k, v).
  - apply elem_of_cons in Hin as [[= -> ->] | Hin]; [done|]. by apply IH.
Qed.

Lemma rounds_left_getitem_is_Some (t : list (string * Z)) (k : string) :
  k ∈ t.*1 -> is_Some (rounds_left_getitem t k).
Proof.
  induction t as [|[k' v'] t IH]; [by intros ?%not_elem_of_nil|]. cbn.
  destruct (String.eqb_spec k' k) as [-> | Hne]; [by eexists|].
  intros [Heq | Hin]%elem_of_cons; [done | by apply IH].
Qed.

Lemma rounds_left_decr_other (t : list (string * Z)) (k k' : string) :
  k' <> k ->
  rounds_left_getitem (rounds_left_decr t k) k' = rounds_left_getitem t k'.
Proof.
  intros Hne. induction t as [|[k0 v0] t IH]; [done|]. cbn.
  destruct (String.eqb_spec k0 k) as [-> | Hk]; cbn.
  - destruct (String.eqb_spec k k'); [congruence | done].
  - destruct (String.eqb k0 k'); [done | exact IH].
Qed.

Lemma rounds_left_decr_keys (t : list (string * Z)) (k : string) :
  (rounds_left_decr t k).*1 = t.*1.
Proof.
  induction t as [|[k0 v0] t IH]; [done|]. cbn.
  destruct (String.eqb k0 k); cbn; [done | by rewrite IH].
Qed.

Lemma rounds_left_decr_total (t : list (string * Z)) (k : string) (v : Z) :
  rounds_left_getitem t k = Some v ->
  fold_right Z.add 0 (map snd (rounds_left_decr t k))
  = fold_right Z.add 0 (map snd t) - 1.
Proof.
  induction t as [|[k0 v0] t IH]; [done|]. cbn.
  destruct (String.eqb k0 k); cbn.
  - intros _. lia.
  - intros Hv. rewrite (IH Hv). lia.
Qed.

Lemma rounds_left_decr_nonneg (t : list (string * Z)) (k : string) (v : Z) :
  rounds_left_getitem t k = Some v -> 0 < v ->
  Forall (fun item => 0 <= item.2) t ->
  Forall (fun item => 0 <= item.2) (rounds_left_decr t k).
Proof.
  induction t as [|[k0 v0] t IH]; [done|]. cbn.
  intros Hv Hpos Hall. inversion Hall as [|? ? H0 Hall']; subst.
  destruct (String.eqb k0 k); cbn.
  - injection Hv as ->. constructor; [cbn; lia | done].
  - constructor; [done | by apply IH].
Qed.

(** The scan of a table that is not empty stops at a game of the table. *)
Lemma scan_in_table (threshold : Z) (items : list (string * Z))
    (cumulative_sum : Z) (game : option string) :
  items <> [] ->
  exists g, scan threshold items cumulative_sum game = Some g /\ g ∈ items.*1.
Proof.
  revert cumulative_sum game.
  induction items as [|[g q] items IH]; intros c game Hne; [done|].
  cbn [scan]. destruct (c + q >=? threshold).
  - exists g. split; [done | by left].
  - destruct items as [|item items'].
    + exists g. split; [done | by left].
    + destruct (IH (c + q) (Some g) ltac:(done)) as (g' & Hs & Hin).
      exists g'. split; [done | by right].
Qed.

Section TrainingMore.

Context {G Obs E A : Type}.
Context `{!Random G} `{!RandomLaws G} `{!Gym Obs E} `{!Agent Obs G A}.

Lemma total_rounds_left_sum (self : TrainingRun E A) :
  total_rounds_left self
  = fold_right Z.add 0 (map snd (TrainingRun_game_rounds_left self)).
Proof. unfold total_rounds_left. by rewrite fold_left_add. Qed.

(** X20 --
    [sample_env] when the draw is at least 1: with rounds left in total,
    no negative quota and an environment for every game of the table, it
    returns a game of the table that has rounds left, with its
    environment. *)
Theorem sample_env_positive_threshold (self : TrainingRun E A)
    (p : Process G Obs A) :
  NoDup (TrainingRun_game_rounds_left self).*1 ->
  Forall (fun item => 0 <= item.2) (TrainingRun_game_rounds_left self) ->
  (forall g, g ∈ (TrainingRun_game_rounds_left self).*1 ->
             is_Some (TrainingRun_envs self !! g)) ->
  0 < total_rounds_left self ->
  1 <= (randint 0 (total_rounds_left self) (random_state p)).1 ->
  exists game env rounds_left p',
    sample_env self p = (Ok (game, env), p') /\
    TrainingRun_envs self !! game = Some env /\
    rounds_left_getitem (TrainingRun_game_rounds_left self) game
      = Some rounds_left /\
    0 < rounds_left.
Proof.
  intros Hnd Hnonneg Henvs Htotal Hdraw.
  pose proof (randint_range 0 (total_rounds_left self) (random_state p)
                ltac:(lia)) as [_ Hle].
  unfold sample_env, bind, py_randint.
  destruct (Z.ltb_spec (total_rounds_left self) 0); [lia|].
  destruct (randint 0 (total_rounds_left self) (random_state p))
    as [threshold g] eqn:Hr. cbn [fst] in *.
  assert (Hne : TrainingRun_game_rounds_left self <> []).
  { intros Hnil. rewrite total_rounds_left_sum, Hnil in Htotal. cbn in Htotal. lia. }
  destruct (scan_in_table threshold _ 0 None Hne) as (game & Hscan & Hin).
  rewrite Hscan.
  destruct (scan_positive_threshold threshold
              (TrainingRun_game_rounds_left self) 0 None game)
    as (q & Hq & Hpos);
    [lia | rewrite <- total_rounds_left_sum; lia | done | done |].
  destruct (Henvs game Hin) as [env Henv].
  unfold envs_getitem. rewrite Henv. cbn.
  exists game, env, q, (set_random_state g p).
  split; [done|]. split; [done|]. split; [|done].
  by apply rounds_left_getitem_NoDup.
Qed.

End TrainingMore.

Section TrainingLoop.

Context {G Obs E A : Type}.
Context `{!Random G} `{!Gym Obs E} `{!Agent Obs G A}.

(** The inner loop, one test of its condition at a time. *)
Lemma TrainingRun_turns_eq (fuel : nat) (game_name : string)
    (t : Turn Obs E A) :
  TrainingRun_turns fuel game_name t =
  let self := turn_self t in
  bind (match rounds_left_getitem (TrainingRun_game_rounds_left self) game_name with
        | Some v => ret v
        | None => raise KeyError
        end)
    (fun rounds_left =>
       if (rounds_left >? 0) && negb (turn_done t)
          && (turn_no_reward_turns t
                <? max_turns_w_no_reward (TrainingRun_parms self))
       then
         match fuel with
         | O => out_of_fuel
         | Datatypes.S fuel' =>
             bind (ask_agent (TrainingRun_agent self)
                     (turn_observation t) (turn_reward t))
               (fun r =>
                  let self := set_agent r.2 self in
                  let action := map_action r.1 (action_space_n (turn_game t)) in
                  bind (step_game (turn_game t) action)
                    (fun s =>
                       let '(observation, reward, done, game) := s in
                       let self :=
                         set_envs (<[game_name := game]> (TrainingRun_envs self))
                           self in
                       bind (getattr (TrainingRun_result self))
                         (fun result =>
                            let self :=
                              set_result (record_reward result reward) self in
                            let no_reward_turns :=
                              if reward >? 0 then 0
                              else turn_no_reward_turns t + 1 in
                            let self :=
                              set_game_rounds_left
                                (rounds_left_decr
                                   (TrainingRun_game_rounds_left self) game_name)
                                self in
                            TrainingRun_turns fuel' game_name
                              {| turn_self := self;
                                 turn_round := turn_round t + 1;
                                 turn_game := game;
                                 turn_observation := observation;
                                 turn_reward := reward;
                                 turn_done := done;
                                 turn_no_reward_turns := no_reward_turns |})))
         end
       else ret t).
Proof. destruct fuel; reflexivity. Qed.

(** The inner loop of [TrainingRun.__call__] on a game of the table, for
    an object whose attribute [result] is bound: it comes to its end after
    at most as many turns as the game has rounds left; every turn takes one
    round from the quota of that game and from no other, adds one to the
    round counter and one reward to the result; and it ends because the
    quota is used up, the episode is over, or the turns without reward
    have reached the cap. *)
Lemma TrainingRun_turns_spec (fuel : nat) (game_name : string) :
  forall (t : Turn Obs E A) (p : Process G Obs A) (q : Z)
         (result : BenchmarkResult A),
    TrainingRun_result (turn_self t) = Some result ->
    rounds_left_getitem
      (TrainingRun_game_rounds_left (turn_self t)) game_name = Some q ->
    (Z.to_nat q <= fuel)%nat ->
    exists (t' : Turn Obs E A) p' cs result' rs,
      TrainingRun_turns fuel game_name t p = (Ok t', p') /\
      calls p' = calls p ++ cs /\
      length (omap stepped cs) = length rs /\
      Z.of_nat (length rs) <= Z.max 0 q /\
      turn_round t' = turn_round t + Z.of_nat (length rs) /\
      rounds_left_getitem
        (TrainingRun_game_rounds_left (turn_self t')) game_name
        = Some (q - Z.of_nat (length rs)) /\
      (forall g, g <> game_name ->
         rounds_left_getitem (TrainingRun_game_rounds_left (turn_self t')) g
         = rounds_left_getitem (TrainingRun_game_rounds_left (turn_self t)) g) /\
      (TrainingRun_game_rounds_left (turn_self t')).*1
        = (TrainingRun_game_rounds_left (turn_self t)).*1 /\
      fold_right Z.add 0 (map snd (TrainingRun_game_rounds_left (turn_self t')))
        = fold_right Z.add 0 (map snd (TrainingRun_game_rounds_left (turn_self t)))
          - Z.of_nat (length rs) /\
      (Forall (fun item => 0 <= item.2)
         (TrainingRun_game_rounds_left (turn_self t)) ->
       Forall (fun item => 0 <= item.2)
         (TrainingRun_game_rounds_left (turn_self t'))) /\
      TrainingRun_result (turn_self t') = Some result' /\
      rewards result' = rewards result ++ rs /\
      dones result' = dones result /\
      games result' = games result /\
      TrainingRun_parms (turn_self t') = TrainingRun_parms (turn_self t) /\
      (forall g, is_Some (TrainingRun_envs (turn_self t) !! g) ->
                 is_Some (TrainingRun_envs (turn_self t') !! g)) /\
      (q - Z.of_nat (length rs) <= 0 \/ turn_done t' = true \/
       max_turns_w_no_reward (TrainingRun_parms (turn_self t))
         <= turn_no_reward_turns t') /\
      (0 < q -> turn_done t = false ->
       turn_no_reward_turns t
         < max_turns_w_no_reward (TrainingRun_parms (turn_self t)) ->
       (1 <= length rs)%nat) /\
      (q <= 0 \/ turn_done t = true \/
       max_turns_w_no_reward (TrainingRun_parms (turn_self t))
         <= turn_no_reward_turns t ->
       rs = []).
Proof.
  induction fuel as [|fuel IH]; intros t p q result Hres Hq Hfuel;
    rewrite TrainingRun_turns_eq; cbn zeta; unfold bind at 1;
    rewrite Hq; unfold ret at 1.
  all: destruct ((q >? 0) && negb (turn_done t) &&
                 (turn_no_reward_turns t
                    <? max_turns_w_no_reward (TrainingRun_parms (turn_self t))))
         eqn:Hcond.
  all: try solve [
    (* the condition is false: no turn is played *)
    exists t, p, [], result, []; cbn [length app omap];
    rewrite ?app_nil_r, ?Z.sub_0_r, ?Z.add_0_r;
    repeat (split; [first [done | lia]|]);
    repeat match goal with
    | |- _ /\ _ => split
    | |- _ \/ _ =>
        apply andb_false_iff in Hcond as [[Hc | Hc]%andb_false_iff | Hc];
        [ left; lia
        | right; left; by destruct (turn_done t)
        | right; right; lia ]
    | |- _ -> _ -> _ -> (1 <= 0)%nat =>
        intros ? Hd ?; rewrite Hd in Hcond; lia
    | |- _ -> [] = [] => done
    end ].
  all: try solve [exfalso; lia].
  apply andb_true_iff in Hcond as [[Hpos Hnd]%andb_true_iff Hcap].
    assert (0 < q) by (destruct (Z.gtb_spec q 0); [lia | done]).
    unfold bind at 1. unfold ask_agent at 1.
    destruct (agent_call _ _ _ _) as [[c a'] g] eqn:Hc. cbn [fst snd].
    unfold bind at 1. unfold step_game at 1.
    destruct (env_step _ _) as [[[o1 r1] d] e1] eqn:Hs.
    unfold bind at 1.
    cbn [TrainingRun_result set_envs set_agent]. rewrite Hres.
    cbn [getattr]. unfold ret at 1.
    match goal with
    | |- context [TrainingRun_turns fuel game_name ?t1 ?p1] =>
        destruct (IH t1 p1 (q - 1) (record_reward result r1))
          as (t' & p' & cs & result' & rs & Hrun & Hcalls & Hsteps & Hle
              & Hround & Hquota & Hother & Hkeys & Hsum & Hnonneg & Hres'
              & Hrew & Hdones & Hgames & Hparms & Henvs & Hexit & _ & _)
    end.
    { reflexivity. }
    { cbn [turn_self TrainingRun_game_rounds_left set_game_rounds_left
           set_result set_envs set_agent].
      by apply rounds_left_decr_getitem. }
    { lia. }
    cbn [turn_self TrainingRun_game_rounds_left set_game_rounds_left
         TrainingRun_parms TrainingRun_envs TrainingRun_result turn_round
         set_result set_envs set_agent calls log set_random_state] in *.
    exists t', p',
      (AgentCall (turn_observation t) (turn_reward t) c
         :: GameStep (action_space_n (turn_game t))
              (map_action c (action_space_n (turn_game t))) r1 d :: cs),
      result', (r1 :: rs).
    split; [exact Hrun|].
    split; [rewrite Hcalls, <- !app_assoc; reflexivity|].
    split; [cbn; by rewrite Hsteps|].
    cbn [length]. rewrite Nat2Z.inj_succ.
    split; [lia|]. split; [lia|].
    split; [rewrite Hquota; f_equal; lia|].
    split; [intros g' Hg'; rewrite Hother by done;
            by apply rounds_left_decr_other|].
    split; [by rewrite Hkeys, rounds_left_decr_keys|].
    split; [rewrite Hsum, (rounds_left_decr_total _ _ _ Hq); lia|].
    split; [intros Hall; apply Hnonneg;
            by apply (rounds_left_decr_nonneg _ _ q)|].
    split; [exact Hres'|].
    split; [rewrite Hrew; cbn; by rewrite <- app_assoc|].
    split; [by rewrite Hdones|]. split; [by rewrite Hgames|].
    split; [exact Hparms|].
    split.
    { intros g' Hg'. apply Henvs.
      destruct (decide (game_name = g')) as [<- | Hne].
      - rewrite lookup_insert_eq. by eexists.
      - by rewrite lookup_insert_ne. }
    split.
    { destruct Hexit as [Hx | [Hx | Hx]];
        [left; lia | by right; left | by right; right]. }
    split; [intros _ _ _; lia|].
    intros [Hx | [Hx | Hx]]; exfalso.
    - lia.
    - rewrite Hx in Hnd. done.
    - destruct (Z.ltb_spec (turn_no_reward_turns t)
                  (max_turns_w_no_reward (TrainingRun_parms (turn_self t))));
        [lia | done].
Qed.

End TrainingLoop.

Lemma sum_nonneg (t : list (string * Z)) :
  Forall (fun item => 0 <= item.2) t -> 0 <= fold_right Z.add 0 (map snd t).
Proof. induction 1 as [|[g q] t Hq _ IH]; cbn in *; lia. Qed.

Lemma sum_zero (t : list (string * Z)) :
  Forall (fun item => 0 <= item.2) t ->
  fold_right Z.add 0 (map snd t) <= 0 ->
  Forall (fun item => item.2 = 0) t.
Proof.
  induction 1 as [|[g q] t Hq Hall IH]; cbn in *; [constructor|].
  intros Hsum. pose proof (sum_nonneg t Hall).
  constructor; [cbn; lia | apply IH; lia].
Qed.

Section TrainingVisits.

Context {G Obs E A : Type}.
Context `{!Random G} `{!RandomLaws G} `{!Gym Obs E} `{!Agent Obs G A}.

(** [sample_env] on a trainable object with rounds left returns a game of
    the table with its environment, and calls no collaborator. *)
Lemma sample_env_returns (self : TrainingRun E A) (p : Process G Obs A) :
  trainable self ->
  0 < total_rounds_left self ->
  exists game env q p1,
    sample_env self p = (Ok (game, env), p1) /\
    calls p1 = calls p /\
    rounds_left_getitem (TrainingRun_game_rounds_left self) game = Some q /\
    (1 <= (randint 0 (total_rounds_left self) (random_state p)).1 -> 0 < q).
Proof.
  intros (_ & Hnd & Hnonneg & Henvs) Htotal.
  pose proof (randint_range 0 (total_rounds_left self) (random_state p)
                ltac:(lia)) as [_ Hle].
  unfold sample_env, bind, py_randint.
  destruct (Z.ltb_spec (total_rounds_left self) 0); [lia|].
  destruct (randint 0 (total_rounds_left self) (random_state p))
    as [threshold g] eqn:Hr. cbn [fst] in *.
  assert (Hne : TrainingRun_game_rounds_left self <> []).
  { intros Hnil. rewrite total_rounds_left_sum, Hnil in Htotal.
    cbn in Htotal. lia. }
  destruct (scan_in_table threshold _ 0 None Hne) as (game & Hscan & Hin).
  rewrite Hscan. destruct (Henvs game Hin) as [env Henv].
  unfold envs_getitem. rewrite Henv. cbn.
  destruct (rounds_left_getitem_is_Some _ _ Hin) as [q Hq].
  exists game, env, q, (set_random_state g p).
  split; [done|]. split; [done|]. split; [done|].
  intros Hdraw.
  destruct (scan_positive_threshold threshold
              (TrainingRun_game_rounds_left self) 0 None game)
    as (q' & Hq' & Hpos);
    [lia | rewrite <- total_rounds_left_sum; lia | done | done |].
  rewrite (rounds_left_getitem_NoDup _ _ _ Hnd Hq') in Hq. congruence.
Qed.

(** A visit of the outer loop on a trainable object with rounds left: it
    comes to its end, the object is still trainable, and the turns it
    played are as many as the steps made, as the rounds taken from the
    total, as the rewards added, and as the round counter went up. It
    plays at least one turn when the draw is at least 1 and the cap on
    turns without reward is at least 1, and none when the cap is 0 or
    less. *)
Lemma TrainingRun_visit_spec (self : TrainingRun E A) (round : Z)
    (p : Process G Obs A) :
  trainable self ->
  0 < total_rounds_left self ->
  exists self' p' cs (n : nat),
    TrainingRun_visit (self, round) p = (Ok (self', round + Z.of_nat n), p') /\
    trainable self' /\
    calls p' = calls p ++ cs /\
    length (omap stepped cs) = n /\
    total_rounds_left self' = total_rounds_left self - Z.of_nat n /\
    rewards_recorded self' = (rewards_recorded self + n)%nat /\
    TrainingRun_parms self' = TrainingRun_parms self /\
    (1 <= (randint 0 (total_rounds_left self) (random_state p)).1 ->
     1 <= max_turns_w_no_reward (TrainingRun_parms self) ->
     (1 <= n)%nat) /\
    (max_turns_w_no_reward (TrainingRun_parms self) <= 0 -> n = 0%nat).
Proof.
  intros Htr Htotal.
  destruct (sample_env_returns self p Htr Htotal)
    as (game & env & q & p1 & Hsample & Hcalls1 & Hq & Hpos).
  destruct Htr as ([result Hres] & Hnd & Hnonneg & Henvs).
  unfold TrainingRun_visit. unfold bind at 1. rewrite Hsample.
  cbv iota beta. rewrite Hres. unfold bind at 1. cbn [getattr].
  unfold ret at 1. unfold bind at 1. unfold reset_game at 1.
  destruct (env_reset env) as [o e0] eqn:Hreset. cbn [fst snd].
  cbn [TrainingRun_game_rounds_left set_envs set_result]. rewrite Hq.
  change (default 0 (Some q)) with q. unfold bind at 1.
  match goal with
  | |- context [TrainingRun_turns _ game ?t0 ?p0] =>
      destruct (TrainingRun_turns_spec (Z.to_nat q) game t0 p0 q
                  (record_game result game round))
        as (t' & p' & cs & result' & rs & Hrun & Hcalls & Hsteps & Hle
            & Hround & Hquota & Hother & Hkeys & Hsum & Hnn & Hres'
            & Hrew & Hdones & Hgames & Hparms & Henvs' & Hexit & Hprog & Hnone);
        [reflexivity | exact Hq | lia |]
  end.
  cbn [turn_self turn_round turn_done turn_no_reward_turns
       TrainingRun_game_rounds_left TrainingRun_parms TrainingRun_envs
       TrainingRun_result set_result set_envs calls log] in *.
  rewrite Hrun.
  unfold bind, getattr, ret. rewrite Hres'.
  exists (set_result (record_done result' (turn_round t')) (turn_self t')),
    p', (GameReset :: cs), (length rs).
  split; [by rewrite Hround|].
  split.
  { split; [by eexists|]. cbn [TrainingRun_game_rounds_left set_result
                                  TrainingRun_envs].
    split; [by rewrite Hkeys|]. split; [by apply Hnn|].
    intros g Hg. rewrite Hkeys in Hg. apply Henvs'.
    destruct (decide (game = g)) as [<- | Hne].
    - rewrite lookup_insert_eq. by eexists.
    - rewrite lookup_insert_ne by done. by apply Henvs. }
  split; [rewrite Hcalls, Hcalls1, <- app_assoc; reflexivity|].
  split; [exact Hsteps|].
  split.
  { rewrite !total_rounds_left_sum.
    cbn [TrainingRun_game_rounds_left set_result]. exact Hsum. }
  split.
  { unfold rewards_recorded. cbn [TrainingRun_result set_result].
    rewrite Hres. cbn [rewards record_done]. rewrite Hrew.
    cbn [rewards record_game]. by rewrite length_app. }
  split; [exact Hparms|].
  split.
  - intros Hdraw Hcap. apply Hprog; [by apply Hpos | done | lia].
  - intros Hcap. rewrite Hnone; [done|]. right. right. lia.
Qed.

(** The outer loop, when it comes to its end. *)
Lemma TrainingRun_loop_spec (fuel : nat) :
  forall (self : TrainingRun E A) (round : Z) (p : Process G Obs A)
         (self' : TrainingRun E A) (round' : Z) (p' : Process G Obs A),
    trainable self ->
    TrainingRun_loop fuel (self, round) p = (Ok (self', round'), p') ->
    trainable self' /\
    total_rounds_left self' = 0 /\
    round' = round + total_rounds_left self /\
    Z.of_nat (rewards_recorded self')
      = Z.of_nat (rewards_recorded self) + total_rounds_left self /\
    exists cs,
      calls p' = calls p ++ cs /\
      Z.of_nat (length (omap stepped cs)) = total_rounds_left self.
Proof.
  induction fuel as [|fuel IH]; intros self round p self' round' p' Htr Hrun;
    cbn [TrainingRun_loop fst] in Hrun;
    destruct (Z.gtb_spec (total_rounds_left self) 0) as [Hpos | Hzero].
  - discriminate.
  - injection Hrun as <- <- <-.
    assert (total_rounds_left self = 0).
    { pose proof (sum_nonneg _ (proj1 (proj2 (proj2 Htr)))).
      rewrite total_rounds_left_sum in *. lia. }
    split; [done|]. split; [done|]. split; [lia|]. split; [lia|].
    exists []. rewrite app_nil_r. split; [done | cbn; lia].
  - destruct (TrainingRun_visit_spec self round p Htr ltac:(lia))
      as (self1 & p1 & cs1 & n & Hv & Htr1 & Hc1 & Hs1 & Ht1 & Hr1 & _).
    unfold bind in Hrun. rewrite Hv in Hrun.
    destruct (IH _ _ _ _ _ _ Htr1 Hrun)
      as (Htr' & Hzero & Hround & Hrew & cs & Hc & Hs).
    split; [done|]. split; [done|]. split; [lia|]. split; [lia|].
    exists (cs1 ++ cs). split; [by rewrite Hc, Hc1, app_assoc|].
    rewrite omap_app, length_app. lia.
  - injection Hrun as <- <- <-.
    assert (total_rounds_left self = 0).
    { pose proof (sum_nonneg _ (proj1 (proj2 (proj2 Htr)))).
      rewrite total_rounds_left_sum in *. lia. }
    split; [done|]. split; [done|]. split; [lia|]. split; [lia|].
    exists []. rewrite app_nil_r. split; [done | cbn; lia].
Qed.

(** X21 --
    The accounts of a training run that comes to its end. For an object
    whose attribute [result] is bound, with distinct games, no negative
    quota and an environment for each game: if [__call__] returns, every
    quota is 0, and the turns played, counted by the steps asked of the
    games or by the rewards added to the result, are as many as the rounds
    the table held at the start. *)
Theorem TrainingRun_call_accounts (fuel : nat) (self self' : TrainingRun E A)
    (p p' : Process G Obs A) :
  trainable self ->
  TrainingRun_call fuel self p = (Ok self', p') ->
  Forall (fun item => item.2 = 0) (TrainingRun_game_rounds_left self') /\
  Z.of_nat (rewards_recorded self')
    = Z.of_nat (rewards_recorded self) + total_rounds_left self /\
  exists cs,
    calls p' = calls p ++ cs /\
    Z.of_nat (length (omap stepped cs)) = total_rounds_left self.
Proof.
  intros Htr Hcall. unfold TrainingRun_call, bind in Hcall.
  destruct (TrainingRun_loop fuel (self, 0) p) as [[[self1 round1]| |] p1] eqn:Hloop;
    try discriminate.
  injection Hcall as <- <-.
  destruct (TrainingRun_loop_spec fuel _ _ _ _ _ _ Htr Hloop)
    as (Htr' & Hzero & _ & Hrew & cs & Hc & Hs).
  split; [|split; [exact Hrew | by exists cs]].
  apply sum_zero; [exact (proj1 (proj2 (proj2 Htr')))|].
  rewrite <- total_rounds_left_sum. lia.
Qed.

(** When the threshold drawn is never 0 and the cap on turns without
    reward is at least 1, every visit plays a turn, and a budget of as many
    visits as there are rounds left is enough for the loop to end. *)
Lemma TrainingRun_loop_ends (fuel : nat) :
  forall (self : TrainingRun E A) (round : Z) (p : Process G Obs A),
    (forall total g, 1 <= total -> 1 <= (randint 0 total g).1) ->
    1 <= max_turns_w_no_reward (TrainingRun_parms self) ->
    trainable self ->
    (Z.to_nat (total_rounds_left self) <= fuel)%nat ->
    exists self' round' p',
      TrainingRun_loop fuel (self, round) p = (Ok (self', round'), p').
Proof.
  induction fuel as [|fuel IH]; intros self round p Hdraw Hcap Htr Hfuel;
    cbn [TrainingRun_loop fst];
    destruct (Z.gtb_spec (total_rounds_left self) 0) as [Hpos | Hzero];
    try lia; try (by eexists _, _, _).
  destruct (TrainingRun_visit_spec self round p Htr ltac:(lia))
    as (self1 & p1 & cs1 & n & Hv & Htr1 & _ & _ & Ht1 & _ & Hp1 & Hprog & _).
  specialize (Hprog (Hdraw (total_rounds_left self) (random_state p)
                       ltac:(lia)) Hcap).
  unfold bind. rewrite Hv. apply IH; [done | by rewrite Hp1 | exact Htr1 | lia].
Qed.

(** X22 --
    Termination of a training run and its count of turns. For a trainable
    object, a generator that never draws the threshold 0 and a cap on turns
    without reward of at least 1, [__call__] returns within as many visits
    as there are rounds left, having played exactly that many turns. *)
Theorem TrainingRun_call_terminates (self : TrainingRun E A)
    (p : Process G Obs A) :
  (forall total g, 1 <= total -> 1 <= (randint 0 total g).1) ->
  1 <= max_turns_w_no_reward (TrainingRun_parms self) ->
  trainable self ->
  exists self' p' cs,
    TrainingRun_call (Z.to_nat (total_rounds_left self)) self p
      = (Ok self', p') /\
    calls p' = calls p ++ cs /\
    Z.of_nat (length (omap stepped cs)) = total_rounds_left self /\
    total_rounds_left self' = 0.
Proof.
  intros Hdraw Hcap Htr.
  destruct (TrainingRun_loop_ends (Z.to_nat (total_rounds_left self)) self 0 p
              Hdraw Hcap Htr ltac:(lia)) as (self' & round' & p' & Hloop).
  destruct (TrainingRun_loop_spec _ _ _ _ _ _ _ Htr Hloop)
    as (_ & Hzero & _ & _ & cs & Hc & Hs).
  exists self', p', cs. split; [|done].
  unfold TrainingRun_call, bind. by rewrite Hloop.
Qed.

(** With a cap on turns without reward of 0 or less no visit plays a turn:
    the table never changes and the loop goes on for ever. Whatever budget
    of visits the model is given is used up, and no game is stepped. *)
Lemma TrainingRun_loop_zero_cap (fuel : nat) :
  forall (self : TrainingRun E A) (round : Z) (p : Process G Obs A),
    max_turns_w_no_reward (TrainingRun_parms self) <= 0 ->
    trainable self ->
    0 < total_rounds_left self ->
    exists p',
      TrainingRun_loop fuel (self, round) p = (OutOfFuel, p') /\
      omap stepped (calls p') = omap stepped (calls p).
Proof.
  induction fuel as [|fuel IH]; intros self round p Hcap Htr Hpos;
    cbn [TrainingRun_loop fst];
    destruct (Z.gtb_spec (total_rounds_left self) 0) as [_ | Hzero];
    try lia.
  - by exists p.
  - destruct (TrainingRun_visit_spec self round p Htr Hpos)
      as (self1 & p1 & cs1 & n & Hv & Htr1 & Hc1 & Hs1 & Ht1 & _ & Hp1 & _ & Hnone).
    specialize (Hnone Hcap).
    destruct (IH self1 (round + Z.of_nat n) p1) as (p' & Hloop & Hsteps);
      [by rewrite Hp1 | exact Htr1 | lia |].
    exists p'. unfold bind. rewrite Hv. split; [exact Hloop|].
    rewrite Hsteps, Hc1, omap_app. rewrite Hnone in Hs1.
    apply length_zero_iff_nil in Hs1. rewrite Hs1. by rewrite app_nil_r.
Qed.

(** X23 --
    A training run whose cap on turns without reward is 0 or less never
    comes to its end when there are rounds left: every budget of visits is
    used up, and no game is ever stepped. *)
Theorem TrainingRun_call_zero_cap (fuel : nat) (self : TrainingRun E A)
    (p : Process G Obs A) :
  max_turns_w_no_reward (TrainingRun_parms self) <= 0 ->
  trainable self ->
  0 < total_rounds_left self ->
  exists p',
    TrainingRun_call fuel self p = (OutOfFuel, p') /\
    omap stepped (calls p') = omap stepped (calls p).
Proof.
  intros Hcap Htr Hpos.
  destruct (TrainingRun_loop_zero_cap fuel self 0 p Hcap Htr Hpos)
    as (p' & Hloop & Hsteps).
  exists p'. split; [|done]. unfold TrainingRun_call, bind. by rewrite Hloop.
Qed.

End TrainingVisits.

(** ** Configurations, past the claims *)

(** A list with a repetition makes a set smaller than the list. *)
Lemma size_list_to_set_le (l : list string) :
  (size (list_to_set (C:=gset string) l) <= length l)%nat.
Proof.
  induction l as [|x l IH]; cbn [list_to_set length foldr].
  - by rewrite size_empty.
  - rewrite size_union_alt, size_singleton.
    pose proof (subseteq_size (list_to_set (C:=gset string) l ∖ {[x]})
                  (list_to_set l)) as Hle.
    assert (list_to_set (C:=gset string) l ∖ {[x]} ⊆ list_to_set l)
      by (intros y Hy; apply elem_of_difference in Hy; tauto).
    specialize (Hle ltac:(assumption)). lia.
Qed.

Lemma size_list_to_set_dup (l : list string) :
  ~ NoDup l -> (size (list_to_set (C:=gset string) l) < length l)%nat.
Proof.
  induction l as [|x l IH]; intros Hdup.
  - exfalso. apply Hdup. constructor.
  - cbn [list_to_set length foldr].
    destruct (decide (x ∈ l)) as [Hin | Hnotin].
    + replace ({[x]} ∪ list_to_set l) with (list_to_set (C:=gset string) l)
        by (apply leibniz_equiv; intros y;
            rewrite elem_of_union, elem_of_singleton, !elem_of_list_to_set;
            split; [tauto | intros [-> | ?]; done]).
      pose proof (size_list_to_set_le l). lia.
    + assert (Hl : ~ NoDup l) by (intros Hnd; apply Hdup; by constructor).
      specialize (IH Hl).
      rewrite size_union by set_solver. rewrite size_singleton. lia.
Qed.

Section ConfigurationsMore.

Context {G Obs E A : Type}.
Context `{!Random G} `{!RandomLaws G} `{!Gym Obs E} `{!Agent Obs G A}.

(** [__init__] with any seed, step by step: the seed is fixed first, by a
    draw when none is given. *)
Lemma BenchmarkParms_init_eq (GAMES : list string) (k m r : Z)
    (s : option Q) (p : Process G Obs A) :
  exists (x : Q) (p0 : Process G Obs A),
    (match s with None => py_random | Some s => ret s end) p = (Ok x, p0) /\
    BenchmarkParms_init GAMES k m s r p =
    if k =? 0 then (Raise ZeroDivisionError, p0)
    else
      match for_ (range k)
              (draw_fold (NUM_GAMES GAMES / k) (NUM_GAMES GAMES mod k))
              (replicate (Z.to_nat k) None, list_to_set (GAME_NAMES GAMES)) p0
      with
      | (Ok st, p') =>
          if Z.of_nat (size st.2) =? 0
          then (Ok {| num_folds := k; max_turns_w_no_reward := m; seed := x;
                      folds := st.1; max_rounds_per_game := None |}, p')
          else (Raise AssertionError, p')
      | (Raise e, p') => (Raise e, p')
      | (OutOfFuel, p') => (OutOfFuel, p')
      end.
Proof.
  assert (Hseed : exists x p0,
    (match s with None => py_random | Some s => ret s end) p = (Ok x, p0)).
  { destruct s as [x|]; [by exists x, p|].
    unfold py_random. destruct (random (random_state p)) as [x g]. eauto. }
  destruct Hseed as (x & p0 & Hseed). exists x, p0. split; [exact Hseed|].
  unfold BenchmarkParms_init. unfold bind at 1. rewrite Hseed.
  unfold draw_fold, floordiv, mod_, assert. unfold bind, ret, raise.
  destruct (k =? 0); [reflexivity|].
  match goal with
  | |- context [for_ ?a ?b ?c ?d] => destruct (for_ a b c d) as [[st| |] q]
  end; try reflexivity.
  destruct (Z.of_nat (size st.2) =? 0); reflexivity.
Qed.

(** X4 --
    A number of folds that is not positive: 0 makes the division of
    [__init__] raise, and a negative number leaves the loop with nothing to
    do, so that the games are all still there when the assertion is
    reached. *)
Theorem BenchmarkParms_init_no_positive_fold_count (GAMES : list string)
    (k m r : Z) (s : option Q) (p : Process G Obs A) :
  k <= 0 ->
  GAMES <> [] ->
  exists p',
    BenchmarkParms_init GAMES k m s r p
    = (Raise (if k =? 0 then ZeroDivisionError else AssertionError), p').
Proof.
  intros Hk Hne.
  destruct (BenchmarkParms_init_eq GAMES k m r s p) as (x & p0 & _ & ->).
  destruct (Z.eqb_spec k 0) as [-> | Hk0]; [by eexists|].
  unfold range. replace (seqZ 0 k) with (@nil Z)
    by (unfold seqZ; by replace (Z.to_nat k) with 0%nat by lia).
  cbn [for_]. unfold ret. cbn [snd].
  destruct GAMES as [|game GAMES]; [done|]. cbn [GAME_NAMES map list_to_set foldr].
  destruct (Z.eqb_spec (Z.of_nat (size ({[game_name game game]}
              ∪ list_to_set (map (fun g => game_name g g) GAMES) : gset string))) 0)
    as [Hsz | _]; [|by eexists].
  exfalso. assert (Hsz' : size ({[game_name game game]}
              ∪ list_to_set (map (fun g => game_name g g) GAMES) : gset string)
              = 0%nat) by lia.
  apply size_empty_inv in Hsz'. set_solver.
Qed.

(** The loop of [__init__] when the games left are fewer than the folds
    still to draw ask for: some draw asks [random.sample] for more games
    than there are. *)
Lemma draw_folds_short (n k : Z) (cnt : nat) :
  forall (i : nat) (st : list (option (list string)) * gset string)
         (p : Process G Obs A),
    0 < k -> 0 <= n ->
    (i + cnt)%nat = Z.to_nat k ->
    Z.of_nat (size st.2) + Z.of_nat i * (n / k) + Z.min (Z.of_nat i) (n mod k)
      < n ->
    exists p',
      for_ (seqZ (Z.of_nat i) (Z.of_nat cnt)) (draw_fold (n / k) (n mod k)) st p
      = (Raise ValueError, p').
Proof.
  induction cnt as [|cnt IH]; intros i [folds games] p Hk Hn Hi Hshort;
    cbn [snd] in *.
  - exfalso. pose proof (Z.div_mod n k ltac:(lia)).
    pose proof (Z.mod_pos_bound n k Hk).
    assert (Z.of_nat i = k) by lia. nia.
  - rewrite Nat2Z.inj_succ, seqZ_cons by lia. rewrite Z.pred_succ.
    cbn [for_]. unfold bind at 1. unfold draw_fold at 1. unfold bind at 1.
    pose proof (Z.div_mod n k ltac:(lia)).
    pose proof (Z.mod_pos_bound n k Hk).
    assert (Hq : 0 <= n / k) by (apply Z.div_pos; lia).
    replace (if Z.of_nat i <? n mod k
             then py_sample games (n / k + 1) else py_sample games (n / k))
      with (py_sample (Obs:=Obs) (A:=A) games (fold_size_at n k i))
      by (unfold fold_size_at; destruct (Z.of_nat i <? n mod k); reflexivity).
    destruct (Z.le_gt_cases (fold_size_at n k i) (Z.of_nat (size games)))
      as [Hfit | Hmore].
    + assert (Hfit' : 0 <= fold_size_at n k i <= Z.of_nat (size games)).
      { split; [|done]. unfold fold_size_at.
        destruct (Z.of_nat i <? n mod k); lia. }
      destruct (py_sample_ok games _ p Hfit')
        as (l & g & -> & Hnd & Hl & Hsub).
      unfold ret at 1.
      replace (Z.succ (Z.of_nat i)) with (Z.of_nat (Datatypes.S i)) by lia.
      apply IH; [done | done | lia |]. cbn [snd].
      rewrite size_difference
        by (intros y Hy; apply elem_of_list_to_set in Hy; auto).
      rewrite size_list_to_set by done.
      assert ((length l <= size games)%nat) by lia.
      rewrite Nat2Z.inj_sub by done. rewrite Hl.
      unfold fold_size_at in *.
      destruct (Z.ltb_spec (Z.of_nat i) (n mod k)); lia.
    + unfold py_sample.
      destruct (Z.leb_spec (fold_size_at n k i) (Z.of_nat (size games)));
        [lia|]. rewrite andb_false_r. by eexists.
Qed.

(** X5 --
    Game names that are not distinct make [__init__] raise [ValueError],
    for any number of folds that is at least 1: the set of games is then
    smaller than [NUM_GAMES], and a draw asks for more games than are left.
    With the partition of distinct names this shows that the final
    assertion never fails for a positive number of folds. *)
Theorem BenchmarkParms_init_repeated_names (GAMES : list string) (k m r : Z)
    (s : option Q) (p : Process G Obs A) :
  ~ NoDup (GAME_NAMES GAMES) ->
  1 <= k ->
  exists p', BenchmarkParms_init GAMES k m s r p = (Raise ValueError, p').
Proof.
  intros Hdup Hk.
  destruct (BenchmarkParms_init_eq GAMES k m r s p) as (x & p0 & _ & ->).
  destruct (Z.eqb_spec k 0) as [-> | _]; [lia|].
  destruct (draw_folds_short (NUM_GAMES GAMES) k (Z.to_nat k) 0
              (replicate (Z.to_nat k) None, list_to_set (GAME_NAMES GAMES)) p0)
    as (p' & Hloop); [lia | unfold NUM_GAMES; lia | lia | |].
  - cbn [snd]. pose proof (size_list_to_set_dup _ Hdup) as Hlt.
    unfold GAME_NAMES in Hlt. rewrite length_map in Hlt.
    pose proof (Z.mod_pos_bound (NUM_GAMES GAMES) k ltac:(lia)).
    unfold NUM_GAMES, GAME_NAMES in *. lia.
  - rewrite Z2Nat.id in Hloop by lia. change (Z.of_nat 0) with 0 in Hloop.
    unfold range. rewrite Hloop. by exists p'.
Qed.

(** X7 --
    [load_from_file] on a file that is there returns the document of the
    file: its folds, its seed and its two budgets, with a number of folds
    that is the length of the list of folds. On the way it builds a default
    configuration, and the process is left as that construction leaves
    it: a draw for the seed and the draws of five folds have been taken
    from the generator. A file that is not there makes it raise [IOError]
    before anything is drawn. *)
Theorem load_from_file_spec (GAMES : list string) (filename : string)
    (p : Process G Obs A) :
  NoDup (GAME_NAMES GAMES) ->
  match files p !! filename with
  | None =>
      BenchmarkParms_load_from_file GAMES filename p = (Raise IOError, p)
  | Some filedata =>
      exists default p',
        BenchmarkParms_init GAMES 5 10000 None 100000 p = (Ok default, p') /\
        BenchmarkParms_load_from_file GAMES filename p =
        (Ok {| num_folds := Z.of_nat (length (file_folds filedata));
               max_turns_w_no_reward := file_max_turns_w_no_reward filedata;
               seed := file_seed filedata;
               folds := file_folds filedata;
               max_rounds_per_game := Some (file_max_rounds_per_game filedata) |},
         p')
  end.
Proof.
  intros Hnd. unfold BenchmarkParms_load_from_file, bind, get.
  destruct (files p !! filename) as [filedata|]; [|reflexivity].
  destruct (BenchmarkParms_init_folds GAMES 5 10000 100000 None p Hnd ltac:(lia))
    as (default & p' & _ & Hinit & _).
  exists default, p'. split; [exact Hinit|]. by rewrite Hinit.
Qed.

End ConfigurationsMore.

(** ** What a construction leaves alone, and [main] *)

(** A loop whose body keeps a relation between the state before and the
    state after keeps it, whatever its outcome. *)
Lemma for_preserves {S X L} (R : S -> S -> Prop) (xs : list X)
    (body : X -> L -> M S L) :
  (forall s, R s s) ->
  (forall a b c, R a b -> R b c -> R a c) ->
  (forall x l s, R s (body x l s).2) ->
  forall l s, R s (for_ xs body l s).2.
Proof.
  intros Hrefl Htrans Hbody.
  induction xs as [|x xs IH]; intros l s; cbn [for_].
  - apply Hrefl.
  - unfold bind. pose proof (Hbody x l s) as Hx.
    destruct (body x l s) as [[l1| |] s1]; cbn [snd] in *; try exact Hx.
    eapply Htrans; [exact Hx | apply IH].
Qed.

Section Frames.

Context {G Obs E A : Type}.
Context `{!Random G} `{!Gym Obs E} `{!Agent Obs G A}.

Lemma py_sample_frame (X : gset string) (k : Z) (p : Process G Obs A) :
  same_but_generator p (py_sample X k p).2.
Proof.
  unfold py_sample.
  destruct ((0 <=? k) && (k <=? Z.of_nat (size X))); [|done].
  by destruct (sample X (Z.to_nat k) (random_state p)).
Qed.

Lemma BenchmarkParms_init_frame (GAMES : list string) (k m r : Z)
    (s : option Q) (p : Process G Obs A) :
  same_but_generator p (BenchmarkParms_init GAMES k m s r p).2.
Proof.
  assert (Hseed : same_but_generator p
            ((match s with None => py_random | Some s => ret s end) p).2).
  { destruct s; [by cbn|]. unfold py_random.
    by destruct (random (random_state p)). }
  unfold BenchmarkParms_init. unfold bind at 1.
  destruct ((match s with None => py_random | Some s => ret s end) p)
    as [[x| |] p0]; cbn [snd] in Hseed; [|exact Hseed|exact Hseed].
  unfold floordiv, mod_. destruct (k =? 0); [exact Hseed|].
  unfold bind at 1. unfold ret at 1. unfold bind at 1. unfold ret at 1.
  unfold bind at 1.
  match goal with
  | |- context [for_ ?xs ?body ?l p0] =>
      assert (Hloop : same_but_generator p0 (for_ xs body l p0).2);
      [ apply (for_preserves same_but_generator xs body) |
        destruct (for_ xs body l p0) as [[st| |] p1]; cbn [snd] in Hloop ]
  end.
  - by intros a.
  - intros a b c (?&?&?) (?&?&?); repeat split; congruence.
  - intros i [folds games] q. unfold bind.
    destruct (i <? NUM_GAMES GAMES mod k).
    + pose proof (py_sample_frame games (NUM_GAMES GAMES / k + 1) q) as Hs.
      by destruct (py_sample games (NUM_GAMES GAMES / k + 1) q) as [[l| |] q'].
    + pose proof (py_sample_frame games (NUM_GAMES GAMES / k) q) as Hs.
      by destruct (py_sample games (NUM_GAMES GAMES / k) q) as [[l| |] q'].
  - unfold bind, assert, ret, raise.
    destruct (Z.of_nat (size st.2) =? 0); cbn [snd];
      destruct Hseed as (?&?&?), Hloop as (?&?&?); repeat split; congruence.
  - cbn [snd]. destruct Hseed as (?&?&?), Hloop as (?&?&?);
      repeat split; congruence.
  - cbn [snd]. destruct Hseed as (?&?&?), Hloop as (?&?&?);
      repeat split; congruence.
Qed.

(** X6 --
    Building a configuration and loading one, whatever they are given and
    whatever comes of them, draw from the generator and do nothing else:
    no file is written, no agent is saved, and neither an agent nor a game
    is called. *)
Theorem configurations_only_draw (GAMES : list string) (k m r : Z)
    (s : option Q) (filename : string) (p : Process G Obs A) :
  (let p' := (BenchmarkParms_init GAMES k m s r p).2 in
   files p' = files p /\ agent_files p' = agent_files p /\
   calls p' = calls p) /\
  (let p' := (BenchmarkParms_load_from_file GAMES filename p).2 in
   files p' = files p /\ agent_files p' = agent_files p /\
   calls p' = calls p).
Proof.
  split; cbv zeta; [apply BenchmarkParms_init_frame|].
  unfold BenchmarkParms_load_from_file, bind, get.
  destruct (files p !! filename) as [d|]; [|done].
  pose proof (BenchmarkParms_init_frame GAMES 5 10000 100000 None p) as Hf.
  by destruct (BenchmarkParms_init GAMES 5 10000 None 100000 p) as [[c| |] p'].
Qed.

End Frames.

Section Main.

Context {G Obs E A : Type}.
Context `{!Random G} `{!RandomLaws G} `{!Gym Obs E} `{!Agent Obs G A}.

(** X24 --
    [main()] builds the default configuration and then raises [NameError]:
    the benchmark is to be built from [parms], and the configuration was
    bound to [bp]. The draws of the configuration have been taken from the
    generator; no benchmark is built, no game is made or played, no agent
    is asked or saved. *)
Theorem main_raises (GAMES : list string) (time : string)
    (p : Process G Obs A) :
  NoDup (GAME_NAMES GAMES) ->
  exists bp p',
    BenchmarkParms_init GAMES 5 10000 None 100000 p = (Ok bp, p') /\
    main (E:=E) GAMES time p = (Raise NameError, p') /\
    calls p' = calls p /\ agent_files p' = agent_files p /\
    files p' = files p.
Proof.
  intros Hnd.
  destruct (BenchmarkParms_init_folds GAMES 5 10000 100000 None p Hnd ltac:(lia))
    as (bp & p' & _ & Hinit & _).
  exists bp, p'. split; [exact Hinit|]. split.
  - unfold main. unfold bind at 1. by rewrite Hinit.
  - pose proof (BenchmarkParms_init_frame GAMES 5 10000 100000 None p) as Hf.
    rewrite Hinit in Hf. destruct Hf as (? & ? & ?). auto.
Qed.

End Main.

(** ** Names: folds, games, files *)

Lemma append_cons (c : ascii) (s t : string) :
  String.append (String c s) t = String c (String.append s t).
Proof. reflexivity. Qed.

Lemma append_nil_l (s : string) : String.append EmptyString s = s.
Proof. reflexivity. Qed.

(** The characters of a string put after another. *)
Lemma list_ascii_of_string_append (s t : string) :
  list_ascii_of_string (String.append s t)
  = list_ascii_of_string s ++ list_ascii_of_string t.
Proof.
  induction s as [|c s IH]; simpl; [done | by rewrite IH].
Qed.

Lemma append_inv_head (s a b : string) :
  String.append s a = String.append s b -> a = b.
Proof.
  induction s as [|c s IH]; simpl; [done | intros [= H]; auto].
Qed.

(** [str(n)] is made of digits and of the sign: the characters that
    [pretty_N_go] puts before its accumulator are digits. *)
Lemma pretty_N_char_digit (x : N) : pretty_N_char x <> "_"%char.
Proof. unfold pretty_N_char. by repeat case_match. Qed.

Lemma pretty_N_go_chars (x : N) :
  forall s, exists t,
    pretty_N_go x s = String.append t s /\
    (x <> 0%N -> t <> EmptyString) /\
    forall c, c ∈ list_ascii_of_string t ->
              exists d, c = pretty_N_char d.
Proof.
  induction (N.lt_wf_0 x) as [x _ IH]; intros s.
  assert (x = 0 \/ 0 < x)%N as [-> | Hx] by lia.
  - exists EmptyString. rewrite pretty_N_go_0. split; [done|].
    split; [done|]. cbn. intros c Hc. by apply not_elem_of_nil in Hc.
  - rewrite pretty_N_go_step by done.
    destruct (IH (x `div` 10)%N ltac:(by apply N.div_lt)
                (String (pretty_N_char (x `mod` 10)) s)) as (t & -> & _ & Ht).
    exists (String.append t (String (pretty_N_char (x `mod` 10)) EmptyString)).
    split; [|split].
    + clear. generalize (pretty_N_char (x `mod` 10)). intros d.
      induction t as [|c t IHt]; [done|]. by rewrite !append_cons, IHt.
    + intros _. by destruct t.
    + intros c. rewrite list_ascii_of_string_append. cbn.
      rewrite elem_of_app, list_elem_of_singleton.
      intros [Hc | ->]; [by apply Ht | by eexists].
Qed.

Lemma str_chars (n : Z) :
  str n <> EmptyString /\
  "_"%char ∉ list_ascii_of_string (str n).
Proof.
  unfold str, pretty, pretty_Z.
  assert (Hpos : forall p : positive,
            pretty p <> EmptyString /\
            "_"%char ∉ list_ascii_of_string (pretty p)).
  { intros p. unfold pretty, pretty_positive, pretty, pretty_N.
    destruct (decide (N.pos p = 0%N)) as [|_]; [done|].
    destruct (pretty_N_go_chars (N.pos p) EmptyString) as (t & -> & Hne & Ht).
    replace (String.append t EmptyString) with t
      by (clear; induction t as [|c t IHt];
          [done | by rewrite append_cons, <- IHt]).
    split; [by apply Hne|].
    intros Hin. destruct (Ht _ Hin) as (d & Hd).
    symmetry in Hd. by apply pretty_N_char_digit in Hd. }
  destruct n as [|p|p].
  - split; [done|]. cbn; repeat (rewrite not_elem_of_cons; split; [discriminate|]);
    apply not_elem_of_nil.
  - apply Hpos.
  - split; [done|]. destruct (Hpos p) as [_ Hp].
    change ("_"%char ∉ "-"%char :: list_ascii_of_string (pretty p)).
    rewrite not_elem_of_cons. split; [done | exact Hp].
Qed.

(** The 26 letters are distinct. *)
Lemma ascii_uppercase_get (i j : nat) (c : ascii) :
  String.get i ascii_uppercase = Some c ->
  String.get j ascii_uppercase = Some c ->
  i = j.
Proof.
  intros Hi Hj.
  assert (Hlt : forall k d, String.get k ascii_uppercase = Some d ->
                            (k < 26)%nat).
  { intros k d Hk. destruct (decide (k < 26)%nat) as [|Hge]; [done|].
    exfalso.
    do 26 (destruct k as [|k]; [lia|]). by cbn in Hk. }
  pose proof (Hlt i c Hi). pose proof (Hlt j c Hj).
  assert (Hcode : forall k d, (k < 26)%nat ->
            String.get k ascii_uppercase = Some d ->
            nat_of_ascii d = (65 + k)%nat).
  { intros k d Hk Hd.
    do 26 (destruct k as [|k]; [by injection Hd as <-|]). lia. }
  pose proof (Hcode i c ltac:(done) Hi). pose proof (Hcode j c ltac:(done) Hj).
  lia.
Qed.

Lemma ascii_uppercase_get_Some (num : Z) :
  exists c, String.get (Z.to_nat (num mod 26)) ascii_uppercase = Some c.
Proof.
  pose proof (Z.mod_pos_bound num 26 ltac:(lia)) as Hm.
  assert (Hlt : (Z.to_nat (num mod 26) < 26)%nat) by lia.
  revert Hlt. generalize (Z.to_nat (num mod 26)). intros k Hk.
  do 26 (destruct k as [|k]; [by eexists|]). lia.
Qed.

(** X1 --
    [fold_name] gives different names to different folds, for the
    non-negative numbers that folds have: up to 25 the name is the letter
    alone, and past 25 it is a letter followed by the decimal numeral of
    [num - 25], which alone tells [num]. *)
Theorem fold_name_injective (a b : Z) :
  0 <= a -> 0 <= b -> a <> b -> fold_name a <> fold_name b.
Proof.
  intros Ha Hb Hab. unfold fold_name.
  destruct (ascii_uppercase_get_Some a) as (ca & Hca).
  destruct (ascii_uppercase_get_Some b) as (cb & Hcb).
  rewrite Hca, Hcb. rewrite !append_cons, !append_nil_l.
  destruct (Z.gtb_spec a 25) as [Ha25 | Ha25],
           (Z.gtb_spec b 25) as [Hb25 | Hb25].
  - intros [= _ Hstr]. unfold str in Hstr. apply (inj pretty) in Hstr. lia.
  - intros [= _ Hstr]. by destruct (str_chars (a - 25)) as [Hne _].
  - intros [= _ Hstr]. symmetry in Hstr.
    by destruct (str_chars (b - 25)) as [Hne _].
  - intros [= <-].
    pose proof (ascii_uppercase_get _ _ _ Hca Hcb) as Heq.
    pose proof (Z.mod_pos_bound a 26 ltac:(lia)).
    pose proof (Z.mod_pos_bound b 26 ltac:(lia)).
    rewrite (Z.mod_small a 26), (Z.mod_small b 26) in Heq by lia. lia.
Qed.

(** A name of [GAME_NAMES] has no underscore: the raw name is split at
    its underscores, and neither [capitalize] nor the suffix brings one. *)
Lemma split_no_sep (sep : ascii) (s : string) :
  Forall (fun w => sep ∉ list_ascii_of_string w) (split sep s).
Proof.
  induction s as [|c s IH]; cbn [split].
  - repeat constructor. apply not_elem_of_nil.
  - destruct (Ascii.eqb_spec c sep) as [-> | Hne].
    + constructor; [apply not_elem_of_nil | exact IH].
    + destruct (split sep s) as [|w ws].
      * repeat constructor. cbn. rewrite not_elem_of_cons.
        split; [congruence | apply not_elem_of_nil].
      * inversion IH as [|? ? Hw Hws]; subst. constructor; [|exact Hws].
        cbn. rewrite not_elem_of_cons. split; [congruence | exact Hw].
Qed.

Lemma upper_underscore (c : ascii) : upper c = "_"%char -> c = "_"%char.
Proof.
  destruct c as [[] [] [] [] [] [] [] []]; vm_compute; congruence.
Qed.

Lemma lower_underscore (c : ascii) : lower c = "_"%char -> c = "_"%char.
Proof.
  destruct c as [[] [] [] [] [] [] [] []]; vm_compute; congruence.
Qed.

Lemma capitalize_no_underscore (w : string) :
  "_"%char ∉ list_ascii_of_string w ->
  "_"%char ∉ list_ascii_of_string (capitalize w).
Proof.
  destruct w as [|c w]; [done|]. cbn [capitalize list_ascii_of_string].
  rewrite !not_elem_of_cons. intros [Hc Hw]. split.
  - intros Hu. symmetry in Hu. apply upper_underscore in Hu. congruence.
  - clear Hc. induction w as [|d w IH];
      cbn [map_string list_ascii_of_string] in *; [apply not_elem_of_nil|].
    rewrite not_elem_of_cons in Hw. destruct Hw as [Hd Hw].
    rewrite not_elem_of_cons. split; [|by apply IH].
    intros Hl. symmetry in Hl. apply lower_underscore in Hl. congruence.
Qed.

(** X2 --
    No name that [game_name] builds has an underscore in it, whatever the
    raw name: the pieces between the underscores are capitalized and
    joined, and [-v0] is put after them. *)
Theorem game_name_no_underscore (game raw_name : string) :
  "_"%char ∉ list_ascii_of_string (game_name game raw_name).
Proof.
  unfold game_name. rewrite list_ascii_of_string_append.
  rewrite not_elem_of_app. split.
  2: { cbn; repeat (rewrite not_elem_of_cons; split; [discriminate|]);
    apply not_elem_of_nil. }
  pose proof (split_no_sep "_"%char game) as Hsplit.
  induction Hsplit as [|w ws Hw Hws IH]; cbn [map join fold_right].
  - apply not_elem_of_nil.
  - rewrite list_ascii_of_string_append, not_elem_of_app.
    split; [by apply capitalize_no_underscore | exact IH].
Qed.

(** Two strings with no underscore, each followed by an underscore and a
    rest: the first underscore tells where each ends. *)
Lemma append_underscore_inj (s t a b : string) :
  "_"%char ∉ list_ascii_of_string s ->
  "_"%char ∉ list_ascii_of_string t ->
  String.append s (String "_" a) = String.append t (String "_" b) ->
  s = t /\ a = b.
Proof.
  revert t. induction s as [|c s IH]; intros [|d t] Hs Ht; cbn.
  - intros [= ->]. done.
  - intros [= <- _]. cbn in Ht. rewrite not_elem_of_cons in Ht. tauto.
  - intros [= -> _]. cbn in Hs. rewrite not_elem_of_cons in Hs. tauto.
  - intros [= -> Heq]. cbn in Hs, Ht.
    rewrite not_elem_of_cons in Hs, Ht.
    destruct (IH t) as [-> ->]; [tauto | tauto | done | done].
Qed.

Section Filenames.

Context {G Obs E A : Type}.
Context `{!Random G} `{!Gym Obs E} `{!Agent Obs G A}.

(** X15 --
    The files of a benchmark: in one directory the three kinds of file
    have different names, and within a kind the name tells the game, the
    fold, or both. So no agent saved by the benchmark overwrites another. *)
Theorem filenames_distinct (self : TransferBenchmark A)
    (game1 game2 : string) (fold1 fold2 : Z) :
  game_agent_filename self game1 <> fold_agent_filename self fold1 /\
  game_agent_filename self game1 <> tested_agent_filename self fold2 game2 /\
  fold_agent_filename self fold1 <> tested_agent_filename self fold2 game2 /\
  (game_agent_filename self game1 = game_agent_filename self game2 <->
     game1 = game2) /\
  (fold_agent_filename self fold1 = fold_agent_filename self fold2 <->
     fold1 = fold2) /\
  (tested_agent_filename self fold1 game1
     = tested_agent_filename self fold2 game2 <->
     fold1 = fold2 /\ game1 = game2).
Proof.
  unfold game_agent_filename, fold_agent_filename, tested_agent_filename.
  repeat split.
  - intros Heq. apply append_inv_head in Heq. discriminate.
  - intros Heq. apply append_inv_head in Heq. discriminate.
  - intros Heq. apply append_inv_head in Heq. discriminate.
  - intros Heq. apply append_inv_head in Heq.
    by apply (append_inv_head "game_agent_") in Heq.
  - by intros ->.
  - intros Heq. apply append_inv_head in Heq.
    apply (append_inv_head "fold_agent_") in Heq.
    by apply (inj pretty) in Heq.
  - by intros ->.
  - apply append_inv_head in H.
    apply (append_inv_head "tested_agent_") in H.
    apply append_underscore_inj in H as [Hs _];
      [by apply (inj pretty) in Hs | apply str_chars | apply str_chars].
  - apply append_inv_head in H.
    apply (append_inv_head "tested_agent_") in H.
    apply append_underscore_inj in H as [_ Hg];
      [done | apply str_chars | apply str_chars].
  - by intros [-> ->].
Qed.

End Filenames.

(** ** [RandomAgent] under evaluation *)

Section RandomAgentRuns.

Context {G Obs E : Type}.
Context `{!Random G} `{!RandomLaws G} `{!Gym Obs E}.

(** X3 --
    An evaluation run of [RandomAgent] on a game with at least 18 actions:
    every action the agent gives is one of 0 to 17, as the class [Agent]
    asks, and the game is stepped with that very action, so that the rule
    that maps an invalid action to the no-op never applies. *)
Theorem RandomAgent_never_remapped (self : TestRun E unit) (max_rounds : Z)
    (p : Process G Obs unit) :
  (forall e : E, 18 <= action_space_n e) ->
  max_rounds_per_game (TestRun_parms self) = Some max_rounds ->
  exists result self' p' cs,
    TestRun_call (Agent0:=RandomAgent) self p = (Ok (result, self'), p') /\
    calls p' = calls p ++ cs /\
    Forall2 (fun q s => step_action s = query_action q /\
                        0 <= step_action s <= 17)
      (omap asked cs) (omap stepped cs).
Proof.
  intros Hgame Hbudget.
  destruct (TestRun_call_spec (Agent0:=RandomAgent) self max_rounds p Hbudget)
    as (self' & p' & cs & rs & ds & r' & Hcall & Hplayed & _ & Hcalls & _).
  exists (TestRun_result self'), self', p', (GameReset :: cs).
  split; [exact Hcall|]. split; [exact Hcalls|].
  change (omap asked (GameReset :: cs)) with (omap asked cs).
  change (omap stepped (GameReset :: cs)) with (omap stepped cs).
  pose proof (played_mapped (Agent0:=RandomAgent) _ _ _ _ _ _ Hplayed) as Hm.
  induction Hm as [|q s qs ss (Hc & Hn & Ha) _ IH]; constructor; [|exact IH].
  destruct Hc as (a & o & r & g & Hc). destruct Hn as (e & Hn).
  assert (Hrange : 0 <= query_action q <= 17).
  { rewrite Hc. cbn [agent_call RandomAgent].
    pose proof (randint_range 0 17 g ltac:(lia)) as Hr.
    by destruct (randint 0 17 g). }
  pose proof (Hgame e) as He.
  rewrite Ha. unfold map_action.
  destruct (Z.geb_spec (query_action q) (step_n s)); [lia|]. lia.
Qed.

End RandomAgentRuns.

(** ** [TrainingRun.__init__] *)

Section TrainingInit.

Context {G Obs E A : Type}.
Context `{!Random G} `{!Gym Obs E} `{!Agent Obs G A}.

(** X19 --
    [TrainingRun.__init__] returns for the empty training set only: on
    any other it raises [AttributeError] at the first game, reading
    [self.max_test_game_rounds]. The run it returns has no game in its
    table, and calling it returns at once, whatever the process: no game
    is sampled and no turn is played. *)
Theorem TrainingRun_init_empty_only (agent : A) (training_set : gset string)
    (config : BenchmarkParms) (p : Process G Obs A) :
  let run : TrainingRun E A :=
    {| TrainingRun_agent := agent;
       TrainingRun_training_set := ∅;
       TrainingRun_parms := config;
       TrainingRun_envs := ∅;
       TrainingRun_game_rounds_left := [];
       TrainingRun_trace_result := BenchmarkResult_init agent None;
       TrainingRun_result := None |} in
  TrainingRun_init agent training_set config p
    = (if decide (training_set = ∅) then Ok run else Raise AttributeError, p)
  /\ forall (fuel : nat) (q : Process G Obs A),
       TrainingRun_call fuel run q = (Ok run, q).
Proof.
  cbv zeta. split.
  - destruct (decide (training_set = ∅)) as [-> | Hne].
    + unfold TrainingRun_init. by rewrite elements_empty.
    + by apply TrainingRun_init_raises.
  - intros fuel q. by destruct fuel.
Qed.

End TrainingInit.

(** ** The tests of a fold *)

Section FoldTests.

Context {G Obs E A : Type}.
Context `{!Random G} `{!Gym Obs E} `{!Agent Obs G A}.

(** X25 --
    The loop of [do_folds] over the games of a test set can only run on an
    empty test set: for the first game of any other, [TestRun(...)] raises
    [AttributeError], because [create_env] reads [self.parms] before
    [__init__] has bound it. No game is reset, no agent is saved and no
    result is recorded. *)
Theorem do_fold_tests_empty_only (fold_num : Z) (fold_agent : A)
    (test_set : gset string) (self : TransferBenchmark A)
    (p : Process G Obs A) :
  do_fold_tests (E:=E) fold_num fold_agent test_set self p
  = (if decide (test_set = ∅) then Ok self else Raise AttributeError, p).
Proof.
  unfold do_fold_tests. destruct (decide (test_set = ∅)) as [-> | Hne].
  - by rewrite elements_empty.
  - destruct (elements test_set) as [|game_name rest] eqn:Hel.
    + apply elements_empty_inv in Hel. apply leibniz_equiv in Hel. done.
    + cbn [for_]. unfold bind. by rewrite TestRun_init_raises.
Qed.

End FoldTests.

(** ** On the concrete collaborators *)

Import Tape.
Local Open Scope string_scope.
Local Open Scope Z_scope.

Lemma tape_randint_range a b g :
  a <= b -> a <= (tape_randint a b g).1 <= b.
Proof.
  intros Hab. cbn [tape_randint fst].
  pose proof (Z.mod_pos_bound (hd 0 g) (b - a + 1)). lia.
Qed.

Lemma rotate_Permutation {X} n (l : list X) : rotate n l ≡ₚ l.
Proof.
  unfold rotate.
  rewrite Permutation_app_comm. by rewrite take_drop.
Qed.

Lemma tape_sample_NoDup X k g :
  (k <= size X)%nat -> NoDup (tape_sample X k g).1.
Proof.
  intros _. cbn [tape_sample fst].
  eapply sublist_NoDup; [|apply sublist_take].
  rewrite rotate_Permutation. apply NoDup_elements.
Qed.

Lemma tape_sample_length X k g :
  (k <= size X)%nat -> length (tape_sample X k g).1 = k.
Proof.
  intros Hk. cbn [tape_sample fst].
  rewrite length_take, length_rotate. unfold size, set_size in Hk.
  cbn in Hk. lia.
Qed.

Lemma tape_sample_subseteq X k g x :
  (k <= size X)%nat -> x ∈ (tape_sample X k g).1 -> x ∈ X.
Proof.
  intros _ Hx. cbn [tape_sample fst] in Hx.
  apply elem_of_elements.
  rewrite <- (elem_of_rotate _ (Z.to_nat (hd 0 g))).
  eapply elem_of_sublist; [exact Hx|apply sublist_take].
Qed.

#[global] Instance tape_laws : RandomLaws (list Z).
Proof.
  split.
  - exact tape_randint_range.
  - exact tape_sample_NoDup.
  - exact tape_sample_length.
  - exact tape_sample_subseteq.
Qed.

(** The 59 game names of the module are distinct. *)
Lemma GAME_NAMES_NoDup : NoDup (GAME_NAMES Atari.GAMES).
Proof. apply (bool_decide_unpack _). vm_compute. reflexivity. Defined.

(** The partition of the 59 games into the default 5 folds. *)
Lemma fold_partition_witness :
  NoDup (GAME_NAMES Atari.GAMES) /\ 1 <= 5 /\
  exists parms p' fs,
    BenchmarkParms_init Atari.GAMES 5 10000 None 100000 (start [3; 1; 4])
      = (Ok parms, p') /\
    folds parms = Some <$> fs /\
    length fs = 5%nat.
Proof.
  split; [exact GAME_NAMES_NoDup|]. split; [lia|].
  destruct (fold_partition Atari.GAMES 5 10000 100000 None (start [3; 1; 4])
              GAME_NAMES_NoDup ltac:(lia))
    as (parms & p' & fs & Hinit & Hfolds & Hlen & _).
  exists parms, p', fs. auto.
Defined.

(** C3, against the claim as stated: two constructions in one process
    with the same raw names, the same number of folds and the same seed,
    the second after the first, give different folds. *)
Lemma folds_differ_for_equal_seeds :
  exists parms1 p1 parms2 p2,
    BenchmarkParms_init ["a"; "b"; "c"] 2 10000 (Some 7%Q) 100000
      (start [0; 0; 1; 1]) = (Ok parms1, p1) /\
    BenchmarkParms_init ["a"; "b"; "c"] 2 10000 (Some 7%Q) 100000 p1
      = (Ok parms2, p2) /\
    num_folds parms1 = num_folds parms2 /\
    seed parms1 = seed parms2 /\
    folds parms1 <> folds parms2.
Proof.
  eexists _, _, _, _.
  split; [vm_compute; reflexivity|].
  split; [vm_compute; reflexivity|].
  split; [reflexivity|]. split; [reflexivity|].
  cbn [folds]. discriminate.
Qed.

(** From one state of the generator, a construction that is given no seed
    and one that is given a seed need not give the same folds: the first
    draws its seed before its folds. *)
Example folds_differ_when_seed_is_drawn :
  outcome_map folds
    (BenchmarkParms_init ["a"; "b"; "c"] 2 10000 None 100000 (start [1; 0])).1
  <> outcome_map folds
       (BenchmarkParms_init ["a"; "b"; "c"] 2 10000 (Some 7%Q) 100000
          (start [1; 0])).1.
Proof. vm_compute. discriminate. Qed.

(** Two processes with the same tape and no seed given to either: the
    same folds. *)
Lemma folds_follow_generator_witness :
  random_state (start [2; 7]) = random_state (log GameReset (start [2; 7])) /\
  (is_Some (None : option Q) <-> is_Some (None : option Q)) /\
  outcome_map folds
    (BenchmarkParms_init Atari.GAMES 5 10000 None 100000 (start [2; 7])).1
  = outcome_map folds
      (BenchmarkParms_init Atari.GAMES 5 50 None 60
         (log GameReset (start [2; 7]))).1.
Proof.
  split; [reflexivity|]. split; [reflexivity|].
  apply (folds_follow_generator Atari.GAMES 5 10000 50 100000 60 None None
           (start [2; 7]) (log GameReset (start [2; 7]))); reflexivity.
Defined.

(** An evaluation run of seven rounds on the game of three steps, for the
    script 5, -1, 20: the two terminations are at rounds 2 and 5, the
    action -1 is sent as it is, the action 20 is sent as 0, and the
    questions of rounds 3 and 6 carry the reward 7 of the steps before
    them. *)
Example TestRun_call_seven_rounds :
  exists result self' p',
    TestRun_call (test_run [5; -1; 20] 7) (start [])
      = (Ok (result, self'), p') /\
    rewards result = [0; 0; 7; 0; 0; 7; 0] /\
    dones result = [2; 5] /\
    calls p' =
      [GameReset;
       AgentCall 0 0 5; GameStep 18 5 0 false;
       AgentCall 1 0 (-1); GameStep 18 (-1) 0 false;
       AgentCall 2 0 20; GameStep 18 0 7 true; GameReset;
       AgentCall 0 7 0; GameStep 18 0 0 false;
       AgentCall 1 0 0; GameStep 18 0 0 false;
       AgentCall 2 0 0; GameStep 18 0 7 true; GameReset;
       AgentCall 0 7 0; GameStep 18 0 0 false].
Proof. eexists _, _, _. split; [vm_compute; reflexivity|]. by cbn. Qed.

(** A budget of three rounds asked of [BenchmarkParms], on the suite of
    one game: no round is played. *)
Lemma TestRun_plays_no_round_witness :
  exists config p',
    BenchmarkParms_init Bench.pong_only 1 10000 None 3 (start [])
      = (Ok config, p') /\
    TestRun_init (E:=Z) [] "Pong-v0" config (start [])
      = (Raise AttributeError, start []) /\
    exists q',
      TestRun_call
        {| TestRun_agent := []; TestRun_game := 0; TestRun_parms := config;
           TestRun_result := BenchmarkResult_init [] (Some "Pong-v0") |}
        (start [])
      = (Raise AttributeError, q') /\
      calls q' = [GameReset].
Proof.
  assert (Hbuilt : exists config p',
            BenchmarkParms_init Bench.pong_only 1 10000 None 3 (start [])
            = (Ok config, p')).
  { eexists _, _. vm_compute. reflexivity. }
  destruct Hbuilt as (config & p' & Hbuilt).
  exists config, p'. split; [exact Hbuilt|].
  destruct (TestRun_plays_no_round Bench.pong_only 1 10000 3 None (start [])
              p' config [] "Pong-v0"
              {| TestRun_agent := []; TestRun_game := 0;
                 TestRun_parms := config;
                 TestRun_result := BenchmarkResult_init [] (Some "Pong-v0") |}
              (start []) Hbuilt eq_refl)
    as (Hinit & q' & Hcall & Hcalls & _).
  split; [exact Hinit|]. exists q'. split; [exact Hcall | exact Hcalls].
Defined.



(** The run of seven rounds on the game of three steps: the questions of
    rounds 3 and 6 carry the reward 7 of the steps that ended an episode. *)
Lemma TestRun_reward_carried_over_witness :
  max_rounds_per_game (TestRun_parms (test_run [5; -1; 20] 7)) = Some 7 /\
  exists result self' p' cs,
    TestRun_call (test_run [5; -1; 20] 7) (start [])
      = (Ok (result, self'), p') /\
    calls p' = cs /\
    query_reward <$> omap asked cs = [0; 0; 0; 7; 0; 0; 7] /\
    step_reward <$> omap stepped cs = [0; 0; 7; 0; 0; 7; 0] /\
    step_done <$> omap stepped cs
      = [false; false; true; false; false; true; false] /\
    (forall (j : nat) s,
       omap stepped cs !! j = Some s ->
       Z.of_nat (Datatypes.S j) < 7 ->
       exists q, omap asked cs !! Datatypes.S j = Some q /\
                 query_reward q = step_reward s).
Proof.
  split; [reflexivity|].
  destruct (TestRun_reward_carried_over (test_run [5; -1; 20] 7) 7 (start [])
              eq_refl)
    as (result & self' & p' & cs & Hcall & Hcalls & _ & _ & _ & Hnext & _).
  destruct TestRun_call_seven_rounds as (r0 & s0 & p0 & Hrun & _ & _ & Hcs0).
  rewrite Hrun in Hcall. injection Hcall as <- <- <-.
  change (calls (start []) ++ cs)%list with cs in Hcalls.
  exists r0, s0, p0, cs. split; [exact Hrun|]. split; [exact Hcalls|].
  rewrite Hcs0 in Hcalls. subst cs.
  split; [reflexivity|]. split; [reflexivity|]. split; [reflexivity|].
  exact Hnext.
Defined.

(** The default configuration of the module cannot be saved. *)
Lemma save_after_init_raises_witness :
  exists parms p',
    BenchmarkParms_init Atari.GAMES 5 10000 None 100000 (start [])
      = (Ok parms, p') /\
    BenchmarkParms_save parms "plan.json" p' = (Raise AttributeError, p').
Proof.
  eexists _, _. split; [vm_compute; reflexivity|].
  apply (save_after_init_raises Atari.GAMES 5 10000 100000 None "plan.json"
           (start [])).
  vm_compute. reflexivity.
Defined.

(** A training run on Pong with three rounds left plays none. *)
Lemma TrainingRun_call_raises_witness :
  TrainingRun_result (training_run [("Pong-v0", 3)] None) = None /\
  0 < total_rounds_left (training_run [("Pong-v0", 3)] None) /\
  exists e p',
    TrainingRun_call 1 (training_run [("Pong-v0", 3)] None) (start [])
      = (Raise e, p') /\
    calls p' = [].
Proof.
  split; [reflexivity|]. split; [reflexivity|].
  apply (TrainingRun_call_raises 0 (training_run [("Pong-v0", 3)] None)
           (start []) eq_refl eq_refl).
Defined.

(** C5 -- [sample_env] gives a game with no round left: the total of the
    rounds left is 5, [randint(0, 5)] may draw the threshold 0, and the
    scan stops at Pong, the first game of the table, whose quota of 0
    reaches that threshold. *)
Theorem sample_env_exhausted_game :
  let self := training_run pong_exhausted None in
  total_rounds_left self = 5 /\
  rounds_left_getitem (TrainingRun_game_rounds_left self) "Pong-v0" = Some 0 /\
  (randint 0 (total_rounds_left self) [0]).1 = 0 /\
  scan 0 (TrainingRun_game_rounds_left self) 0 None = Some "Pong-v0" /\
  exists p', sample_env self (start [0]) = (Ok ("Pong-v0", 0), p').
Proof.
  cbn zeta. split; [reflexivity|]. split; [reflexivity|].
  split; [reflexivity|]. split; [reflexivity|].
  eexists. vm_compute. reflexivity.
Qed.

(** C9 -- [TrainingRun.__call__] with the attribute [result] bound, on
    Pong with one round left: the run comes to its end after one turn whose
    step did not give [done], and round 1 is recorded as done. *)
Theorem TrainingRun_records_round_without_done :
  exists self' p' result,
    TrainingRun_call 2
      (training_run [("Pong-v0", 1)] (Some (BenchmarkResult_init [] None)))
      (start []) = (Ok self', p') /\
    TrainingRun_result self' = Some result /\
    total_rounds_left self' = 0 /\
    omap stepped (calls p') =
      [{| step_n := 18; step_action := 0; step_reward := 0;
          step_done := false |}] /\
    dones result = [1].
Proof.
  eexists _, _, _. split; [vm_compute; reflexivity|].
  split; [reflexivity|]. split; [reflexivity|]. split; reflexivity.
Qed.

(** A visit of the outer loop, with the attribute [result] bound, when
    Pong has no round left, Breakout has one and the generator draws 0:
    the visit gives Pong, plays no turn and leaves the table and the
    round counter as they were. *)
Lemma TrainingRun_visit_exhausted (self : TrainingRun Z (list Z))
    (round : Z) (p : Process (list Z) Z (list Z)) :
  TrainingRun_game_rounds_left self = [("Pong-v0", 0); ("Breakout-v0", 1)] ->
  is_Some (TrainingRun_envs self !! "Pong-v0") ->
  is_Some (TrainingRun_result self) ->
  random_state p = [] ->
  exists self' p',
    TrainingRun_visit (self, round) p = (Ok (self', round), p') /\
    TrainingRun_game_rounds_left self' = TrainingRun_game_rounds_left self /\
    is_Some (TrainingRun_envs self' !! "Pong-v0") /\
    is_Some (TrainingRun_result self') /\
    random_state p' = [] /\
    omap stepped (calls p') = omap stepped (calls p).
Proof.
  intros Htable [env Henv] [result Hres] Hg.
  assert (Hsample : sample_env self p
                    = (Ok ("Pong-v0", env), set_random_state [] p)).
  { unfold sample_env, total_rounds_left. rewrite Htable.
    unfold bind, py_randint. rewrite Hg.
    change (fold_left Z.add (map snd [("Pong-v0", 0); ("Breakout-v0", 1)]) 0)
      with 1.
    change (randint 0 1 []) with (0, @nil Z).
    change (1 <? 0) with false. cbv iota beta.
    change (scan 0 [("Pong-v0", 0); ("Breakout-v0", 1)] 0 None)
      with (Some "Pong-v0").
    cbv iota beta. unfold envs_getitem. by rewrite Henv. }
  assert (Hquota : rounds_left_getitem
                     [("Pong-v0", 0); ("Breakout-v0", 1)] "Pong-v0" = Some 0)
    by reflexivity.
  eexists _, _. split.
  - unfold TrainingRun_visit. unfold bind at 1. rewrite Hsample.
    cbv iota beta. rewrite Hres. unfold bind at 1. cbn [getattr].
    unfold ret at 1. unfold bind at 1. unfold reset_game at 1.
    cbn [fst snd]. unfold bind at 1.
    cbn [TrainingRun_game_rounds_left set_envs set_result].
    rewrite Htable, Hquota.
    change (Z.to_nat (default 0 (Some 0))) with 0%nat.
    cbn [TrainingRun_turns turn_self
         TrainingRun_game_rounds_left set_envs set_result].
    rewrite Htable, Hquota.
    unfold bind at 1. unfold ret at 1.
    change (0 >? 0) with false. cbn [andb]. unfold ret at 1.
    cbn [turn_self turn_round TrainingRun_result set_envs set_result].
    unfold bind, getattr, ret. reflexivity.
  - cbn [TrainingRun_game_rounds_left TrainingRun_envs TrainingRun_result
         set_envs set_result random_state calls log set_random_state].
    split; [reflexivity|]. split; [by rewrite lookup_insert_eq|].
    split; [by eexists|]. split; [reflexivity|].
    rewrite !omap_app. cbn. by rewrite app_nil_r.
Qed.

(** So the outer loop of [TrainingRun.__call__] need not end: with a
    generator that keeps drawing 0, no budget of visits is enough, and no
    turn is ever played. *)
Lemma TrainingRun_loop_stuck (fuel : nat) :
  forall (self : TrainingRun Z (list Z)) (round : Z)
         (p : Process (list Z) Z (list Z)),
    TrainingRun_game_rounds_left self = [("Pong-v0", 0); ("Breakout-v0", 1)] ->
    is_Some (TrainingRun_envs self !! "Pong-v0") ->
    is_Some (TrainingRun_result self) ->
    random_state p = [] ->
    exists p',
      TrainingRun_loop fuel (self, round) p = (OutOfFuel, p') /\
      omap stepped (calls p') = omap stepped (calls p).
Proof.
  induction fuel as [|fuel IH]; intros self round p Htable Henv Hres Hg.
  - exists p. cbn [TrainingRun_loop fst]. unfold total_rounds_left.
    by rewrite Htable.
  - destruct (TrainingRun_visit_exhausted self round p Htable Henv Hres Hg)
      as (self' & p' & Hv & Htable' & Henv' & Hres' & Hg' & Hsteps).
    rewrite Htable in Htable'.
    destruct (IH self' round p' Htable' Henv' Hres' Hg') as (p'' & Hl & Hs).
    exists p''. split; [|congruence].
    cbn [TrainingRun_loop fst]. unfold total_rounds_left at 1.
    rewrite Htable. cbn [map snd fold_left].
    change (0 + 0 + 1 >? 0) with true. cbv iota.
    unfold bind. by rewrite Hv.
Qed.

(** The same for [__call__] from a process whose tape is empty. *)
Lemma TrainingRun_call_stuck (fuel : nat) :
  exists p',
    TrainingRun_call fuel
      (training_run [("Pong-v0", 0); ("Breakout-v0", 1)]
         (Some (BenchmarkResult_init [] None)))
      (start []) = (OutOfFuel, p') /\
    omap stepped (calls p') = [].
Proof.
  destruct (TrainingRun_loop_stuck fuel
              (training_run [("Pong-v0", 0); ("Breakout-v0", 1)]
                 (Some (BenchmarkResult_init [] None)))
              0 (start []))
    as (p' & Hl & Hs); [reflexivity | by eexists | by eexists | reflexivity |].
  exists p'. split; [|exact Hs].
  unfold TrainingRun_call, bind. by rewrite Hl.
Qed.

(** ** The further properties on the concrete collaborators *)

(** Folds 1 and 27 are B and B2. *)
Lemma fold_name_injective_witness :
  0 <= 1 /\ 0 <= 27 /\ 1 <> 27 /\ fold_name 1 <> fold_name 27.
Proof.
  split; [lia|]. split; [lia|]. split; [lia|].
  apply (fold_name_injective 1 27); lia.
Defined.

(** [RandomAgent] on the game of three steps, which has 18 actions. *)
Lemma RandomAgent_never_remapped_witness :
  (forall e : Z, 18 <= action_space_n e) /\
  exists result self' p' cs,
    TestRun_call (Agent0:=RandomAgent)
      {| TestRun_agent := tt; TestRun_game := 0;
         TestRun_parms := parms_with (Some 4);
         TestRun_result := BenchmarkResult_init tt (Some "Pong-v0") |}
      {| random_state := [40; 3; 17; 18]; files := ∅; agent_files := ∅;
         calls := [] |}
      = (Ok (result, self'), p') /\
    calls p' = cs /\
    Forall2 (fun q s => step_action s = query_action q /\
                        0 <= step_action s <= 17)
      (omap asked cs) (omap stepped cs).
Proof.
  assert (Hgame : forall e : Z, 18 <= action_space_n e) by (intros e; cbn; lia).
  split; [exact Hgame|].
  destruct (RandomAgent_never_remapped
              {| TestRun_agent := tt; TestRun_game := 0;
                 TestRun_parms := parms_with (Some 4);
                 TestRun_result := BenchmarkResult_init tt (Some "Pong-v0") |}
              4
              {| random_state := [40; 3; 17; 18]; files := ∅;
                 agent_files := ∅; calls := [] |}
              Hgame eq_refl)
    as (result & self' & p' & cs & Hcall & Hcalls & Hsame).
  exists result, self', p', cs. cbn in Hcalls. auto.
Defined.

(** Minus two folds of the 59 games. *)
Lemma BenchmarkParms_init_no_positive_fold_count_witness :
  -2 <= 0 /\ Atari.GAMES <> [] /\
  exists p',
    BenchmarkParms_init Atari.GAMES (-2) 10000 None 100000 (start [])
    = (Raise AssertionError, p').
Proof.
  split; [lia|]. split; [discriminate|].
  apply (BenchmarkParms_init_no_positive_fold_count Atari.GAMES (-2) 10000
           100000 None (start [])); [lia | discriminate].
Defined.

(** A suite in which Pong comes twice, for one fold. *)
Lemma BenchmarkParms_init_repeated_names_witness :
  ~ NoDup (GAME_NAMES ["pong"; "pong"]) /\ 1 <= 1 /\
  exists p',
    BenchmarkParms_init ["pong"; "pong"] 1 10000 None 100000 (start [])
    = (Raise ValueError, p').
Proof.
  assert (Hdup : ~ NoDup (GAME_NAMES ["pong"; "pong"])).
  { apply (bool_decide_unpack _). vm_compute. reflexivity. }
  split; [exact Hdup|]. split; [lia|].
  apply (BenchmarkParms_init_repeated_names ["pong"; "pong"] 1 10000 100000
           None (start []) Hdup). lia.
Defined.

(** A process in which the file plan.json holds a document of one fold. *)
Lemma load_from_file_spec_witness :
  NoDup (GAME_NAMES Bench.pong_only) /\
  exists default p',
    BenchmarkParms_init Bench.pong_only 5 10000 None 100000
      (write_file "plan.json"
         {| file_folds := [Some ["Pong-v0"]]; file_seed := 0%Q;
            file_max_turns_w_no_reward := 50;
            file_max_rounds_per_game := 7 |} (start []))
    = (Ok default, p') /\
    BenchmarkParms_load_from_file Bench.pong_only "plan.json"
      (write_file "plan.json"
         {| file_folds := [Some ["Pong-v0"]]; file_seed := 0%Q;
            file_max_turns_w_no_reward := 50;
            file_max_rounds_per_game := 7 |} (start []))
    = (Ok {| num_folds := 1; max_turns_w_no_reward := 50; seed := 0%Q;
             folds := [Some ["Pong-v0"]];
             max_rounds_per_game := Some 7 |}, p').
Proof.
  assert (Hnd : NoDup (GAME_NAMES Bench.pong_only)).
  { apply (bool_decide_unpack _). vm_compute. reflexivity. }
  split; [exact Hnd|].
  pose proof (load_from_file_spec Bench.pong_only "plan.json"
                (write_file "plan.json"
                   {| file_folds := [Some ["Pong-v0"]]; file_seed := 0%Q;
                      file_max_turns_w_no_reward := 50;
                      file_max_rounds_per_game := 7 |} (start [])) Hnd) as H.
  cbn [files write_file] in H. rewrite lookup_insert_eq in H. exact H.
Defined.

(** The configuration of one fold with a budget of 7 rounds, saved and
    loaded. *)
Lemma save_load_roundtrip_witness :
  NoDup (GAME_NAMES Atari.GAMES) /\
  max_rounds_per_game (parms_with (Some 7)) = Some 7 /\
  exists parms' p',
    bind (BenchmarkParms_save (parms_with (Some 7)) "plan.json")
      (fun _ => BenchmarkParms_load_from_file Atari.GAMES "plan.json")
      (start [])
      = (Ok parms', p') /\
    folds parms' = folds (parms_with (Some 7)).
Proof.
  split; [exact GAME_NAMES_NoDup|]. split; [reflexivity|].
  destruct (save_load_roundtrip Atari.GAMES "plan.json" (parms_with (Some 7))
              7 (start []) GAME_NAMES_NoDup eq_refl)
    as (parms' & p' & Hrun & Hfolds & _).
  exists parms', p'. auto.
Defined.

(** An evaluation run on a configuration that [__init__] has built. *)
Lemma TestRun_call_after_init_raises_witness :
  exists config p',
    BenchmarkParms_init Bench.pong_only 1 10000 None 100000 (start [])
      = (Ok config, p') /\
    TestRun_call
      {| TestRun_agent := []; TestRun_game := 0; TestRun_parms := config;
         TestRun_result := BenchmarkResult_init [] (Some "Pong-v0") |}
      (start [])
    = (Raise AttributeError, log GameReset (start [])).
Proof.
  eexists _, _. split; [vm_compute; reflexivity|].
  eapply (TestRun_call_after_init_raises Bench.pong_only 1 10000 100000 None
            (start [])).
  - vm_compute. reflexivity.
  - reflexivity.
Defined.

(** Two runs of seven rounds, one after the other. *)
Lemma TestRun_call_twice_witness :
  max_rounds_per_game (TestRun_parms (test_run [5; -1; 20] 7)) = Some 7 /\
  0 <= 7 /\
  rewards (TestRun_result (test_run [5; -1; 20] 7)) = [] /\
  exists result1 self1 p1 result2 self2 p2,
    TestRun_call (test_run [5; -1; 20] 7) (start []) = (Ok (result1, self1), p1) /\
    TestRun_call self1 p1 = (Ok (result2, self2), p2) /\
    Z.of_nat (length (rewards result2)) = 2 * 7.
Proof.
  split; [reflexivity|]. split; [lia|]. split; [reflexivity|].
  destruct (TestRun_call_twice (test_run [5; -1; 20] 7) 7 (start [])
              eq_refl ltac:(lia) eq_refl)
    as (result1 & self1 & p1 & result2 & self2 & p2 & rs
        & H1 & H2 & _ & _ & Hlen & _).
  exists result1, self1, p1, result2, self2, p2. auto.
Defined.

(** The rounds recorded as done by the run of seven rounds. *)
Lemma TestRun_dones_witness :
  max_rounds_per_game (TestRun_parms (test_run [5; -1; 20] 7)) = Some 7 /\
  dones (TestRun_result (test_run [5; -1; 20] 7)) = [] /\
  exists result self' p' cs,
    TestRun_call (test_run [5; -1; 20] 7) (start []) = (Ok (result, self'), p') /\
    calls p' = cs /\
    forall j : Z,
      j ∈ dones result <->
      0 <= j /\ exists s, omap stepped cs !! Z.to_nat j = Some s
                          /\ step_done s = true.
Proof.
  split; [reflexivity|]. split; [reflexivity|].
  destruct (TestRun_dones (test_run [5; -1; 20] 7) 7 (start [])
              eq_refl eq_refl)
    as (result & self' & p' & cs & Hcall & Hcalls & Hdones).
  exists result, self', p', cs. cbn in Hcalls. auto.
Defined.

Lemma TestRun_dones_increasing_witness :
  max_rounds_per_game (TestRun_parms (test_run [5; -1; 20] 7)) = Some 7 /\
  dones (TestRun_result (test_run [5; -1; 20] 7)) = [] /\
  exists result self' p',
    TestRun_call (test_run [5; -1; 20] 7) (start []) = (Ok (result, self'), p') /\
    Forall (fun j => 0 <= j < 7) (dones result) /\
    StronglySorted Z.lt (dones result).
Proof.
  split; [reflexivity|]. split; [reflexivity|].
  apply (TestRun_dones_increasing (test_run [5; -1; 20] 7) 7 (start [])
           eq_refl eq_refl).
Defined.

(** The sets of fold 1 of a benchmark on three games in two folds. *)
Lemma training_and_test_sets_split_witness :
  NoDup (GAME_NAMES ["pong"; "breakout"; "alien"]) /\ 1 <= 2 /\ 0 <= 1 < 2 /\
  exists config p' training test,
    BenchmarkParms_init ["pong"; "breakout"; "alien"] 2 10000 None 100000
      (start [2; 1]) = (Ok config, p') /\
    training_set (TransferBenchmark_init config None "now") 1 (start [])
      = (Ok training, start []) /\
    test_set (TransferBenchmark_init config None "now") 1 (start [])
      = (Ok test, start []) /\
    training ∩ test = ∅ /\
    training ∪ test = list_to_set (GAME_NAMES ["pong"; "breakout"; "alien"]).
Proof.
  assert (Hnd : NoDup (GAME_NAMES ["pong"; "breakout"; "alien"])).
  { apply (bool_decide_unpack _). vm_compute. reflexivity. }
  split; [exact Hnd|]. split; [lia|]. split; [lia|].
  destruct (BenchmarkParms_init_folds ["pong"; "breakout"; "alien"] 2 10000
              100000 None (start [2; 1]) Hnd ltac:(lia))
    as (config & p' & _ & Hinit & _).
  destruct (training_and_test_sets_split ["pong"; "breakout"; "alien"] 2 10000
              100000 None (start [2; 1]) p' config
              (TransferBenchmark_init config None "now") 1 (start [])
              Hnd ltac:(lia) Hinit eq_refl ltac:(lia))
    as (training & test & Htr & Hte & Hdisj & Hcover).
  exists config, p', training, test. auto.
Defined.

(** The index -1 on a configuration of one fold. *)
Lemma training_set_negative_index_witness :
  folds (parms Bench.fresh) = Some <$> [["Pong-v0"]] /\
  - Z.of_nat (length [["Pong-v0"]]) <= -1 < 0 /\
  exists training : gset string,
    training_set Bench.fresh (-1) (start []) = (Ok training, start []) /\
    test_set Bench.fresh (-1) (start [])
      = (Ok (list_to_set ["Pong-v0"]), start []) /\
    list_to_set ["Pong-v0"] ⊆ training.
Proof.
  split; [reflexivity|]. split; [cbn; lia|].
  apply (training_set_negative_index Bench.fresh [["Pong-v0"]] (-1)
           ["Pong-v0"] (start [])); [reflexivity | cbn; lia | reflexivity].
Defined.

(** The suite of one game, whose agent is there. *)
Lemma ensure_game_agents_complete_witness :
  Forall (fun game_name =>
            is_Some (game_agents Bench.with_pong_agent !! game_name))
    (GAME_NAMES Bench.pong_only) /\
  ensure_game_agents Bench.pong_only Bench.with_pong_agent (start [])
    = (Ok Bench.with_pong_agent, start []).
Proof.
  assert (Hall : Forall (fun game_name =>
                   is_Some (game_agents Bench.with_pong_agent !! game_name))
                   (GAME_NAMES Bench.pong_only)).
  { repeat constructor. exists []. vm_compute. reflexivity. }
  split; [exact Hall|].
  apply (ensure_game_agents_complete Bench.pong_only Bench.with_pong_agent
           (start []) Hall).
Defined.

(** The benchmark of one fold, on the 59 games. *)
Lemma do_folds_no_fold_completes_witness :
  folds (parms Bench.fresh) <> [] /\
  exists e, do_folds Atari.GAMES Bench.fresh (start []) = (Raise e, start []).
Proof.
  split; [discriminate|].
  apply (do_folds_no_fold_completes Atari.GAMES Bench.fresh (start [])).
  discriminate.
Defined.

(** The benchmark of one fold on the suite of one game, whose agent is
    there. *)
Lemma do_folds_first_fold_witness :
  folds (parms Bench.with_pong_agent) <> [] /\
  fold_agents Bench.with_pong_agent = [] /\
  do_folds Bench.pong_only Bench.with_pong_agent (start [])
    = (Raise IndexError, start []).
Proof.
  split; [discriminate|]. split; [reflexivity|].
  apply (do_folds_first_fold Bench.pong_only Bench.with_pong_agent (start [])).
  - intros game_name Hin. apply list_elem_of_singleton in Hin as ->.
    exists []. vm_compute. reflexivity.
  - discriminate.
  - repeat constructor. by eexists.
  - reflexivity.
Defined.

Lemma pong_exhausted_trainable (cap : Z) :
  trainable (Bench.capped_run cap pong_exhausted).
Proof.
  split; [by eexists|]. split.
  { apply (bool_decide_unpack _). vm_compute. reflexivity. }
  split.
  { repeat constructor; cbn; lia. }
  intros g Hg. cbn in Hg.
  apply elem_of_cons in Hg as [-> | Hg];
    [|apply list_elem_of_singleton in Hg as ->];
    exists 0; vm_compute; reflexivity.
Defined.

(** Pong has no round left, Breakout has five, and the threshold drawn
    is 1. *)
Lemma sample_env_positive_threshold_witness :
  0 < total_rounds_left (Bench.capped_run 10 pong_exhausted) /\
  1 <= (randint 0 (total_rounds_left (Bench.capped_run 10 pong_exhausted))
          (random_state (start [1]))).1 /\
  exists game env rounds_left p',
    sample_env (Bench.capped_run 10 pong_exhausted) (start [1])
      = (Ok (game, env), p') /\
    rounds_left_getitem pong_exhausted game = Some rounds_left /\
    0 < rounds_left.
Proof.
  assert (Hdraw : 1 <= (randint 0 (total_rounds_left
                                     (Bench.capped_run 10 pong_exhausted))
                          (random_state (start [1]))).1) by (by vm_compute).
  split; [reflexivity|]. split; [exact Hdraw|].
  destruct (pong_exhausted_trainable 10) as (_ & Hnd & Hpos & Henvs).
  destruct (sample_env_positive_threshold (Bench.capped_run 10 pong_exhausted)
              (start [1]) Hnd Hpos Henvs eq_refl Hdraw)
    as (game & env & rounds_left & p' & Hs & _ & Hq & Hlt).
  exists game, env, rounds_left, p'. auto.
Defined.

(** The five rounds of Breakout, with draws of 1 and a cap of 10. *)
Lemma TrainingRun_call_accounts_witness :
  trainable (Bench.capped_run 10 pong_exhausted) /\
  exists self' p',
    TrainingRun_call 5 (Bench.capped_run 10 pong_exhausted)
      (start [1; 1; 1; 1; 1]) = (Ok self', p') /\
    Forall (fun item => item.2 = 0) (TrainingRun_game_rounds_left self') /\
    Z.of_nat (rewards_recorded self') = 5.
Proof.
  split; [apply pong_exhausted_trainable|].
  assert (Hcall : exists self' p',
            TrainingRun_call 5 (Bench.capped_run 10 pong_exhausted)
              (start [1; 1; 1; 1; 1]) = (Ok self', p')).
  { eexists _, _. vm_compute. reflexivity. }
  destruct Hcall as (self' & p' & Hcall).
  destruct (TrainingRun_call_accounts 5 (Bench.capped_run 10 pong_exhausted)
              self' (start [1; 1; 1; 1; 1]) p'
              (pong_exhausted_trainable 10) Hcall)
    as (Hzero & Hrewards & _).
  exists self', p'. split; [exact Hcall|]. split; [exact Hzero|].
  exact Hrewards.
Defined.

(** The generator that draws the upper end keeps the promises of
    [random]. *)
Lemma upper_end_laws : @RandomLaws (list Z) Bench.upper_end.
Proof.
  split.
  - intros a b g Hab. cbn. lia.
  - exact tape_sample_NoDup.
  - exact tape_sample_length.
  - exact tape_sample_subseteq.
Qed.

(** With the generator that draws the upper end, five visits are enough
    for the five rounds of Breakout. *)
Lemma TrainingRun_call_terminates_witness :
  (forall total g, 1 <= total ->
     1 <= (randint (Random:=Bench.upper_end) 0 total g).1) /\
  1 <= max_turns_w_no_reward
         (TrainingRun_parms (Bench.capped_run 10 pong_exhausted)) /\
  trainable (Bench.capped_run 10 pong_exhausted) /\
  exists self' p' cs,
    TrainingRun_call (Random0:=Bench.upper_end) 5
      (Bench.capped_run 10 pong_exhausted) (start []) = (Ok self', p') /\
    calls p' = cs /\
    Z.of_nat (length (omap stepped cs)) = 5 /\
    total_rounds_left self' = 0.
Proof.
  assert (Hdraw : forall total g, 1 <= total ->
            1 <= (randint (Random:=Bench.upper_end) 0 total g).1)
    by (intros total g Ht; exact Ht).
  assert (Hcap : 1 <= max_turns_w_no_reward
                        (TrainingRun_parms (Bench.capped_run 10 pong_exhausted)))
    by (by vm_compute).
  split; [exact Hdraw|]. split; [exact Hcap|].
  split; [apply pong_exhausted_trainable|].
  destruct (TrainingRun_call_terminates (Random0:=Bench.upper_end)
              (RandomLaws0:=upper_end_laws)
              (Bench.capped_run 10 pong_exhausted) (start [])
              Hdraw Hcap (pong_exhausted_trainable 10))
    as (self' & p' & cs & Hcall & Hcalls & Hsteps & Hleft).
  exists self', p', cs. cbn in Hcalls. auto.
Defined.

(** A cap of 0 on the turns without reward: three visits are not enough,
    and no number of visits is. *)
Lemma TrainingRun_call_zero_cap_witness :
  max_turns_w_no_reward
    (TrainingRun_parms (Bench.capped_run 0 pong_exhausted)) <= 0 /\
  trainable (Bench.capped_run 0 pong_exhausted) /\
  0 < total_rounds_left (Bench.capped_run 0 pong_exhausted) /\
  exists p',
    TrainingRun_call 3 (Bench.capped_run 0 pong_exhausted) (start [])
      = (OutOfFuel, p') /\
    omap stepped (calls p') = omap stepped (calls (start [])).
Proof.
  assert (Hcap : max_turns_w_no_reward
                   (TrainingRun_parms (Bench.capped_run 0 pong_exhausted)) <= 0)
    by (by vm_compute).
  split; [exact Hcap|]. split; [apply pong_exhausted_trainable|].
  split; [reflexivity|].
  apply (TrainingRun_call_zero_cap 3 (Bench.capped_run 0 pong_exhausted)
           (start []) Hcap (pong_exhausted_trainable 0) eq_refl).
Defined.

(** [main()] with [RandomAgent], on the 59 games. *)
Lemma main_raises_witness :
  NoDup (GAME_NAMES Atari.GAMES) /\
  exists bp p',
    BenchmarkParms_init (A:=unit) (Obs:=Z) Atari.GAMES 5 10000 None 100000
      {| random_state := [3; 1; 4]; files := ∅; agent_files := ∅;
         calls := [] |} = (Ok bp, p') /\
    main (E:=Z) (Agent0:=RandomAgent) Atari.GAMES "2016-11-04_12.00"
      {| random_state := [3; 1; 4]; files := ∅; agent_files := ∅;
         calls := [] |} = (Raise NameError, p') /\
    calls p' = [].
Proof.
  split; [exact GAME_NAMES_NoDup|].
  destruct (main_raises (E:=Z) (Agent0:=RandomAgent) Atari.GAMES
              "2016-11-04_12.00"
              {| random_state := [3; 1; 4]; files := ∅; agent_files := ∅;
                 calls := [] |} GAME_NAMES_NoDup)
    as (bp & p' & Hinit & Hmain & Hcalls & _).
  exists bp, p'. auto.
Defined.
